(** * google-docs-mcp: a shallow embedding of the credential manager and
    the JSON-RPC dispatcher, with the properties of its specification.

    Definitions, in the order of the sources they follow:
    - [Text]     string helpers ([includes], the two URL patterns, [trim]);
    - [Ids]      [extractDocumentId] and [extractSpreadsheetId];
    - [Js]       the JavaScript values the code handles, and thrown errors;
    - [Monad]    state passing with exceptions;
    - [Runtime]  the world (files, directories, environment, record of
                 calls), the JSON codec and the remote services as
                 interfaces;
    - [OAuth]    src/auth/oauth.ts;
    - [Tools]    src/tools/docs.ts and src/tools/sheets.ts;
    - [Server]   src/index.ts: the registered tools, the handlers,
                 [handleJsonRpc] and the HTTP [fetch] callback;
    - [MiniJson] an executable JSON codec;
    - [Stored]   pure readings of the world used in the statements;
    - [Sample]   concrete worlds;
    - [Shape]    shapes of text used in the statements;
    - [Cli]      src/index.ts: [parseArgs];
    - [AuthFlow] bin/auth.ts: [runAuthFlow] and its callback server;
    - [Wire]     a validated call as a [tools/call] request;
    - [Consent]  further concrete worlds and remote sides.
    The properties follow the definitions.

    JavaScript strings are modelled as byte strings, the UTF-8 encoding
    of the text, and numbers as integers ([Z]); a [Z] stands for a
    JavaScript number only within the safe range ([Js.safe_integer]),
    and statements that depend on the value of a number carry that
    bound.  Fractions, [NaN] and the infinities are outside the model.
    Paths are taken as normalised: [path.join] puts a separator between
    its segments and [path.dirname] cuts at the last separator.

    The clients of googleapis and google-auth-library are interfaces
    ([Runtime.Remote]): a method stands for one call of the client,
    with everything the client does inside it (a refresh of the access
    token before the request included), and [Runtime.EvRemote] records
    such a call, not the requests on the wire. *)

From Stdlib Require Import ZArith Lia Bool List.
From Stdlib Require Import Ascii String Decimal DecimalString DecimalFacts DecimalPos.
From stdpp Require Import base option list gmap strings.

Set Warnings "-register-all".
Local Open Scope stdpp_scope.
Local Open Scope Z_scope.

(** ** Characters and text constants *)

Module Text.

Definition chr (n : nat) : string := String (ascii_of_nat n) EmptyString.

(** The characters that cannot be written inside a literal. *)
Definition dq : string := chr 34.
Definition nl : string := chr 10.
Definition tab : string := chr 9.
Definition bs : string := chr 92.
Definition sq : string := chr 39.

Definition code (c : ascii) : nat := nat_of_ascii c.

Definition between (lo hi : nat) (c : ascii) : bool :=
  (Nat.leb lo (code c) && Nat.leb (code c) hi)%bool.

(** The character class [[a-zA-Z0-9_-]] of both URL patterns. *)
Definition is_id_char (c : ascii) : bool :=
  (between 97 122 c || between 65 90 c || between 48 57 c
   || Nat.eqb (code c) 95 || Nat.eqb (code c) 45)%bool.

Fixpoint all_chars (P : ascii -> bool) (s : string) : bool :=
  match s with
  | EmptyString => true
  | String c r => (P c && all_chars P r)%bool
  end.

(** Whether the first character of [s], if any, satisfies [P]. *)
Definition head_is (P : ascii -> bool) (s : string) : bool :=
  match s with
  | EmptyString => false
  | String c _ => P c
  end.

(** An identifier: a non-empty run of characters of the class. *)
Definition is_identifier (id : string) : Prop :=
  all_chars is_id_char id = true /\ id <> EmptyString.

(** [strip_prefix p s] is [Some r] exactly when [s = p ++ r]. *)
Fixpoint strip_prefix (p s : string) : option string :=
  match p with
  | EmptyString => Some s
  | String a p' =>
      match s with
      | EmptyString => None
      | String b s' =>
          if Ascii.eqb a b then strip_prefix p' s' else None
      end
  end.

(** [String.prototype.includes]: some suffix of [s] starts with [needle]. *)
Fixpoint includes (needle s : string) : bool :=
  match strip_prefix needle s with
  | Some _ => true
  | None =>
      match s with
      | EmptyString => false
      | String _ r => includes needle r
      end
  end.

(** The longest run of identifier characters at the head of [s]: what
    the greedy group [([a-zA-Z0-9_-]+)] consumes, when it is not empty. *)
Fixpoint take_id (s : string) : string :=
  match s with
  | EmptyString => EmptyString
  | String c r => if is_id_char c then String c (take_id r) else EmptyString
  end.

(** [s.match(/<lit>([a-zA-Z0-9_-]+)/)]: the capture of the leftmost
    match, or [None] for JavaScript's [null].  The pattern is tried at
    every start position from the left; at a position it succeeds when
    the literal is there and at least one class character follows. *)
Fixpoint regex_capture (lit s : string) : option string :=
  let later :=
    match s with
    | EmptyString => None
    | String _ r => regex_capture lit r
    end in
  match strip_prefix lit s with
  | Some rest =>
      match take_id rest with
      | EmptyString => later
      | id => Some id
      end
  | None => later
  end.

(** [s.replace(/'/g, "\\'")]: every single quote gets a backslash. *)
Fixpoint escape_quotes (s : string) : string :=
  match s with
  | EmptyString => EmptyString
  | String c r =>
      if Nat.eqb (code c) 39
      then bs +:+ sq +:+ escape_quotes r
      else String c (escape_quotes r)
  end.

(** White space as [String.prototype.trim] and [parseInt] understand it:
    the code points of WhiteSpace and LineTerminator (U+0009 to U+000D,
    U+0020, U+00A0, U+1680, U+2000 to U+200A, U+2028, U+2029, U+202F,
    U+205F, U+3000, U+FEFF), read in the UTF-8 encoding of the text.
    [space_width s] is the number of bytes of the white-space character
    [s] starts with, and [0] when it starts with none. *)
Definition space_width (s : string) : nat :=
  match s with
  | EmptyString => 0
  | String a r =>
      if (between 9 13 a || Nat.eqb (code a) 32)%bool then 1
      else
        match r with
        | EmptyString => 0
        | String b r' =>
            if (Nat.eqb (code a) 194 && Nat.eqb (code b) 160)%bool then 2
            else
              match r' with
              | EmptyString => 0
              | String c _ =>
                  if ((Nat.eqb (code a) 225 && Nat.eqb (code b) 154 && Nat.eqb (code c) 128)
                      || (Nat.eqb (code a) 226 && Nat.eqb (code b) 128
                          && (between 128 138 c || between 168 169 c
                              || Nat.eqb (code c) 175))
                      || (Nat.eqb (code a) 226 && Nat.eqb (code b) 129
                          && Nat.eqb (code c) 159)
                      || (Nat.eqb (code a) 227 && Nat.eqb (code b) 128
                          && Nat.eqb (code c) 128)
                      || (Nat.eqb (code a) 239 && Nat.eqb (code b) 187
                          && Nat.eqb (code c) 191))%bool
                  then 3 else 0
              end
        end
  end.

(** [s] is exactly one white-space character. *)
Definition space_char (s : string) : Prop :=
  s <> EmptyString /\ space_width s = String.length s.

(** The text after the white space at its head; [skip] counts the bytes
    of a white-space character that are still to be passed. *)
Fixpoint drop_spaces (skip : nat) (s : string) : string :=
  match s with
  | EmptyString => EmptyString
  | String _ r =>
      match skip with
      | S k => drop_spaces k r
      | O =>
          match space_width s with
          | O => s
          | S k => drop_spaces k r
          end
      end
  end.

Definition trim_start (s : string) : string := drop_spaces 0 s.

(** [s] is made of white-space characters only. *)
Fixpoint only_spaces (skip : nat) (s : string) : bool :=
  match s with
  | EmptyString => Nat.eqb skip 0
  | String _ r =>
      match skip with
      | S k => only_spaces k r
      | O =>
          match space_width s with
          | O => false
          | S k => only_spaces k r
          end
      end
  end.

(** The text before the white space at its end: it is cut where only
    white space follows. *)
Fixpoint trim_end (s : string) : string :=
  match s with
  | EmptyString => EmptyString
  | String c r => if only_spaces 0 s then EmptyString else String c (trim_end r)
  end.

Definition trim (s : string) : string := trim_end (trim_start s).

Definition is_empty (s : string) : bool :=
  match s with EmptyString => true | _ => false end.

(** [Array.prototype.join] on strings. *)
Fixpoint join (sep : string) (l : list string) : string :=
  match l with
  | [] => EmptyString
  | [x] => x
  | x :: r => x +:+ sep +:+ join sep r
  end.

(** Decimal rendering of an integral number, as a template literal
    prints it. *)
Definition of_Z (z : Z) : string := NilZero.string_of_int (Z.to_int z).
Definition of_nat (n : nat) : string := of_Z (Z.of_nat n).

End Text.

(** ** Identifier extraction (src/tools/docs.ts, src/tools/sheets.ts) *)

Module Ids.
Import Text.

Definition extractDocumentId (idOrUrl : string) : string :=
  if includes "docs.google.com" idOrUrl then
    match regex_capture "/document/d/" idOrUrl with
    | Some id => id
    | None => idOrUrl
    end
  else idOrUrl.

Definition extractSpreadsheetId (idOrUrl : string) : string :=
  if includes "docs.google.com/spreadsheets" idOrUrl then
    match regex_capture "/spreadsheets/d/" idOrUrl with
    | Some id => id
    | None => idOrUrl
    end
  else idOrUrl.

End Ids.

(** ** JavaScript values *)

Module Js.
Import Text.

(** What [JSON.parse] can produce, plus [undefined]. *)
Inductive value : Type :=
| VUndef
| VNull
| VBool (b : bool)
| VNum (n : Z)
| VStr (s : string)
| VArr (items : list value)
| VObj (fields : list (string * value)).

(** The integers a JavaScript number holds exactly
    ([Number.isSafeInteger]). *)
Definition safe_integer (n : Z) : Prop := - 2 ^ 53 < n < 2 ^ 53.

Inductive exn_kind := TypeError | SyntaxError | PlainError | RemoteError | FsError.

(** A thrown [Error]: only its class and its [message] are observed.
    The texts of engine-made errors ([TypeError], [SyntaxError], file
    system errors) are representative, not the engine's own. *)
Record exn := Exn { kind : exn_kind; message : string }.

Inductive result (A : Type) : Type :=
| Ok (a : A)
| Throw (e : exn).
Arguments Ok {A} a.
Arguments Throw {A} e.

(** ToBoolean. *)
Definition truthy (v : value) : bool :=
  match v with
  | VUndef | VNull => false
  | VBool b => b
  | VNum n => negb (n =? 0)
  | VStr s => negb (is_empty s)
  | VArr _ | VObj _ => true
  end.

(** [a || b] and [a && b]. *)
Definition js_or (a b : value) : value := if truthy a then a else b.
Definition js_and (a b : value) : value := if truthy a then b else a.

Fixpoint assoc (k : string) (fields : list (string * value)) : option value :=
  match fields with
  | [] => None
  | (k', v) :: r => if String.eqb k k' then Some v else assoc k r
  end.

(** [v.k] for a [v] that is neither [null] nor [undefined], and for the
    property names this program reads (none is a built-in property of a
    string, a number or an array). *)
Definition get (v : value) (k : string) : value :=
  match v with
  | VObj fields => default VUndef (assoc k fields)
  | _ => VUndef
  end.

(** [v.k], which throws on [null] and [undefined]. *)
Definition prop (v : value) (k : string) : result value :=
  match v with
  | VUndef =>
      Throw (Exn TypeError ("Cannot read properties of undefined (reading '" +:+ k +:+ "')"))
  | VNull =>
      Throw (Exn TypeError ("Cannot read properties of null (reading '" +:+ k +:+ "')"))
  | _ => Ok (get v k)
  end.

(** [v?.[0]]. *)
Definition opt_index0 (v : value) : value :=
  match v with
  | VArr (x :: _) => x
  | VStr (String c _) => VStr (String c EmptyString)
  | VObj fields => default VUndef (assoc "0" fields)
  | _ => VUndef
  end.

(** [v === s] for a string literal [s]. *)
Definition is_str (v : value) (s : string) : bool :=
  match v with
  | VStr s' => String.eqb s' s
  | _ => false
  end.

(** [String(v)], as a template literal applies it.  A parsed object
    prints as [[object Object]] unless it carries an own [toString] key,
    which is never callable in parsed data, so the conversion throws. *)
Fixpoint to_string (v : value) : result string :=
  match v with
  | VUndef => Ok "undefined"
  | VNull => Ok "null"
  | VBool true => Ok "true"
  | VBool false => Ok "false"
  | VNum n => Ok (of_Z n)
  | VStr s => Ok s
  | VArr items =>
      (fix items_to_string (l : list value) : result string :=
         match l with
         | [] => Ok EmptyString
         | x :: r =>
             let head :=
               match x with
               | VUndef | VNull => Ok EmptyString
               | _ => to_string x
               end in
             match head with
             | Throw e => Throw e
             | Ok h =>
                 match r with
                 | [] => Ok h
                 | _ =>
                     match items_to_string r with
                     | Throw e => Throw e
                     | Ok t => Ok (h +:+ "," +:+ t)
                     end
                 end
             end
         end) items
  | VObj fields =>
      match assoc "toString" fields with
      | Some _ => Throw (Exn TypeError "Cannot convert object to primitive value")
      | None => Ok "[object Object]"
      end
  end.

(** [obj.k = v] on a plain object. *)
Fixpoint set_field (k : string) (v : value) (fields : list (string * value))
  : list (string * value) :=
  match fields with
  | [] => [(k, v)]
  | (k', v') :: r =>
      if String.eqb k k' then (k, v) :: r else (k', v') :: set_field k v r
  end.

Definition opt_str (o : option string) : value :=
  match o with Some s => VStr s | None => VUndef end.

(** [o || dflt] on an optional string. *)
Definition str_or (o : option string) (dflt : string) : string :=
  match o with
  | Some s => if is_empty s then dflt else s
  | None => dflt
  end.

(** [o || undefined] on an optional string. *)
Definition str_or_undefined (o : option string) : option string :=
  match o with
  | Some s => if is_empty s then None else Some s
  | None => None
  end.

End Js.

(** ** The exception and state monad *)

Module Monad.
Import Js.

Definition M (S A : Type) : Type := S -> result A * S.

Definition ret {S A} (a : A) : M S A := fun s => (Ok a, s).

Definition throw {S A} (e : exn) : M S A := fun s => (Throw e, s).

Definition bind {S A B} (m : M S A) (k : A -> M S B) : M S B :=
  fun s =>
    match m s with
    | (Ok a, s') => k a s'
    | (Throw e, s') => (Throw e, s')
    end.

(** [try { m } catch (e) { h e }]: the state reached by the failing body
    is kept. *)
Definition try_catch {S A} (m : M S A) (h : exn -> M S A) : M S A :=
  fun s =>
    match m s with
    | (Ok a, s') => (Ok a, s')
    | (Throw e, s') => h e s'
    end.

Definition lift_result {S A} (r : result A) : M S A := fun s => (r, s).

Definition gets {S A} (f : S -> A) : M S A := fun s => (Ok (f s), s).

Definition modify {S} (f : S -> S) : M S unit := fun s => (Ok tt, f s).

End Monad.

Notation "'let*' x ':=' m 'in' k" := (Monad.bind m (fun x => k))
  (at level 10, x name, m at level 100, k at level 200).
Notation "m ';;' k" := (Monad.bind m (fun _ => k))
  (at level 100, k at level 200, right associativity).

(** ** The process: file system, environment, collaborators *)

Module Runtime.
Import Text Js Monad.

(** [StoredTokens] of src/types/index.ts.  [expiry_date] is a time in
    milliseconds; the record stands for a token set of the program only
    when that number is a safe integer ([safe_expiry]). *)
Record StoredTokens := {
  access_token : option string;
  refresh_token : option string;
  expiry_date : option Z;
  token_type : option string;
  scope : option string;
}.

Definition safe_expiry (t : StoredTokens) : Prop :=
  match expiry_date t with
  | Some n => safe_integer n
  | None => True
  end.

(** The object a [StoredTokens] record denotes: absent fields are not
    own properties. *)
Definition field_str (k : string) (o : option string) : list (string * value) :=
  match o with Some s => [(k, VStr s)] | None => [] end.

Definition field_num (k : string) (o : option Z) : list (string * value) :=
  match o with Some n => [(k, VNum n)] | None => [] end.

Definition tokens_to_value (t : StoredTokens) : value :=
  VObj (field_str "access_token" (access_token t)
        ++ field_str "refresh_token" (refresh_token t)
        ++ field_num "expiry_date" (expiry_date t)
        ++ field_str "token_type" (token_type t)
        ++ field_str "scope" (scope t)).

(** Responses of the remote services, with the fields the program reads. *)
Inductive StructuralElement : Type :=
| Paragraph (runs : list (option string))
| Table (rows : list (list (list StructuralElement)))
| SectionBreak
| OtherElement.

Record Document := {
  doc_documentId : option string;
  doc_title : option string;
  doc_content : option (list StructuralElement);
}.

Record Sheet := {
  sh_sheetId : option Z;
  sh_title : option string;
  sh_index : option Z;
  sh_rowCount : option Z;
  sh_columnCount : option Z;
}.

Record Spreadsheet := {
  ss_spreadsheetId : option string;
  ss_title : option string;
  ss_spreadsheetUrl : option string;
  ss_sheets : option (list Sheet);
}.

Record ValueRange := {
  vr_range : option string;
  vr_values : option (list (list string));
}.

Record DriveFile := {
  f_id : option string;
  f_name : option string;
  f_mimeType : option string;
  f_modifiedTime : option string;
  f_webViewLink : option string;
}.

(** The language runtime's JSON codec.  [JSON_parse] is [None] where
    [JSON.parse] throws a [SyntaxError]; [JSON_stringify v] stands for
    [JSON.stringify(v, null, 2)] and is [None] where that is [undefined]. *)
Class JsonRuntime := {
  JSON_parse : string -> option value;
  JSON_stringify : value -> option string;
}.

(** The library clients (token endpoint, Docs, Sheets, Drive): each
    method is one call of the client, which either throws an error with
    a message or answers.  What the client does inside the call is part
    of its outcome: before a request the API clients obtain a new access
    token when the held one is absent or expired, and a failure of that
    refresh is the failure of the call. *)
Class Remote := {
  oauth_getToken : string -> string + StoredTokens;
  oauth_refreshToken : value -> string + StoredTokens;
  documents_get : value -> string + Document;
  spreadsheets_get : value -> string + Spreadsheet;
  values_get : value -> value -> string + ValueRange;
  files_list : string -> value -> string + option (list DriveFile);
}.

(** Ghost record of the calls a run makes: the authentication check,
    the entry into a tool function, a call of a library client
    ([EvRemote], one per call of a client method, whatever requests the
    client sends for it) and a completed write. *)
Inductive event :=
| EvAuthCheck
| EvTool (name : string)
| EvRemote (endpoint : string)
| EvWrite (path : string).

Record World := {
  files : gmap string string;
  dirs : gset string;
  env : gmap string string;
  cwd : string;
  trace : list event;
}.

Definition set_files (f : gmap string string) (w : World) : World :=
  {| files := f; dirs := dirs w; env := env w; cwd := cwd w; trace := trace w |}.

Definition set_dirs (d : gset string) (w : World) : World :=
  {| files := files w; dirs := d; env := env w; cwd := cwd w; trace := trace w |}.

Definition add_event (e : event) (w : World) : World :=
  {| files := files w; dirs := dirs w; env := env w; cwd := cwd w;
     trace := trace w ++ [e] |}.

Definition log (e : event) : M World unit := modify (add_event e).

(** [path.join] on normalised segments. *)
Definition path_join (segments : list string) : string := join "/" segments.

(** [path.dirname] on a normalised path: what precedes the last
    separator. *)
Fixpoint before_last_slash (s : string) : option string :=
  match s with
  | EmptyString => None
  | String c r =>
      match before_last_slash r with
      | Some d => Some (String c d)
      | None => if Nat.eqb (code c) 47 then Some EmptyString else None
      end
  end.

Definition dirname (p : string) : string :=
  match before_last_slash p with
  | Some EmptyString => "/"
  | Some d => d
  | None => "."
  end.

Definition existsSync (p : string) : M World bool :=
  gets (fun w => bool_decide (is_Some (files w !! p)) || bool_decide (p ∈ dirs w)).

Definition readFileSync (p : string) : M World string :=
  fun w =>
    match files w !! p with
    | Some content => (Ok content, w)
    | None => (Throw (Exn FsError ("cannot read " +:+ p)), w)
    end.

(** The prefixes of a path that end where a separator follows. *)
Fixpoint cuts (s : string) : list string :=
  match s with
  | EmptyString => []
  | String c r =>
      (if Nat.eqb (code c) 47 then [EmptyString] else [])
      ++ map (String c) (cuts r)
  end.

(** The directories above a normalised path, the root apart, outermost
    first: [/app/.credentials] lies below [/app]. *)
Definition ancestors (p : string) : list string :=
  List.filter (fun a => negb (is_empty a)) (cuts p).

Definition is_file (w : World) (p : string) : bool :=
  bool_decide (is_Some (files w !! p)).

(** [mkdirSync(dir, { recursive: true })]: it creates [dir] and the
    missing directories above it, and throws when a regular file stands
    at [dir] or above it. *)
Definition mkdirSync (dir : string) : M World unit :=
  fun w =>
    if existsb (is_file w) (ancestors dir ++ [dir])
    then (Throw (Exn FsError ("ENOTDIR: not a directory, mkdir '" +:+ dir +:+ "'")), w)
    else (Ok tt, set_dirs (list_to_set (ancestors dir ++ [dir]) ∪ dirs w) w).

(** [writeFileSync(p, data)]: replaces the whole content.  The data must
    be a string, [p] must not be a directory, and the parent must be a
    directory. *)
Definition writeFileSync (p : string) (data : option string) : M World unit :=
  match data with
  | None => throw (Exn TypeError "The data argument must be of type string")
  | Some content =>
      fun w =>
        if bool_decide (p ∈ dirs w)
        then (Throw (Exn FsError ("EISDIR: illegal operation on a directory, open '"
                                  +:+ p +:+ "'")), w)
        else if is_file w (dirname p)
        then (Throw (Exn FsError ("ENOTDIR: not a directory, open '" +:+ p +:+ "'")), w)
        else if bool_decide (dirname p ∈ dirs w)
        then (Ok tt, add_event (EvWrite p) (set_files (<[p := content]> (files w)) w))
        else (Throw (Exn FsError ("ENOENT: no such file or directory, open '"
                                  +:+ p +:+ "'")), w)
  end.

(** [process.env.NAME]. *)
Definition getenv (name : string) : M World value :=
  gets (fun w => opt_str (env w !! name)).

Definition parse_json `{JsonRuntime} {S} (content : string) : M S value :=
  match JSON_parse content with
  | Some v => ret v
  | None => throw (Exn SyntaxError "JSON Parse error")
  end.

(** A remote call: logged, and a rejection is thrown. *)
Definition remote_call {A} (endpoint : string) (answer : string + A) : M World A :=
  log (EvRemote endpoint) ;;
  match answer with
  | inl msg => throw (Exn RemoteError msg)
  | inr a => ret a
  end.

End Runtime.

(** ** src/auth/oauth.ts *)

Module OAuth.
Import Text Js Monad Runtime.

Definition CLIENT_SECRET_FILE : string := "client_secret.json".
Definition CREDENTIALS_DIR : string := ".credentials".
Definition TOKENS_FILE : string := "tokens.json".
Definition DEFAULT_REDIRECT_URI : string := "http://localhost:3000/oauth2callback".

Definition CREDENTIALS_NOT_FOUND : string :=
  "Google credentials not found. Please either:" +:+ nl +:+
  "  1. Place client_secret.json in the project root, or" +:+ nl +:+
  "  2. Set GOOGLE_CLIENT_ID and GOOGLE_CLIENT_SECRET environment variables".

Definition NOT_AUTHENTICATED : string :=
  "Not authenticated. Please run " +:+ dq +:+ "bun run auth" +:+ dq +:+
  " to authenticate with Google first.".

(** [OAuthConfig]; the fields hold whatever the winning source held. *)
Record OAuthConfig := {
  clientId : value;
  clientSecret : value;
  redirectUri : value;
}.

(** [Partial<OAuthConfig>], the constructor's explicit override. *)
Record PartialConfig := {
  explicitClientId : option string;
  explicitClientSecret : option string;
  explicitRedirectUri : option string;
}.

(** A [GoogleOAuth] object: the configuration handed to its
    [OAuth2Client], that client's [credentials], and the token path. *)
Record GoogleOAuth := {
  oauthConfig : OAuthConfig;
  credentials : value;
  credentialsPath : string;
}.

Definition Method (A : Type) : Type := M (GoogleOAuth * World) A.

Definition in_world {A} (m : M World A) : Method A :=
  fun '(this, w) => let '(r, w') := m w in (r, (this, w')).

Definition with_credentials (this : GoogleOAuth) (tokens : value) : GoogleOAuth :=
  {| oauthConfig := oauthConfig this; credentials := tokens;
     credentialsPath := credentialsPath this |}.

(** [this.oauth2Client.setCredentials(tokens)]. *)
Definition setCredentials (tokens : value) : Method unit :=
  modify (fun '(this, w) => (with_credentials this tokens, w)).

Section WithRuntime.
Context `{!JsonRuntime} `{!Remote}.

(** The body of the [try] block of [loadClientSecret]. *)
Definition readClientSecret (filePath : string) : M World (option OAuthConfig) :=
  let* content := readFileSync filePath in
  let* secret := parse_json content in
  let* installed := lift_result (prop secret "installed") in
  let credentials := js_or installed (get secret "web") in
  if truthy credentials then
    ret (Some {| clientId := get credentials "client_id";
                 clientSecret := get credentials "client_secret";
                 redirectUri :=
                   js_or (opt_index0 (get credentials "redirect_uris"))
                         (VStr DEFAULT_REDIRECT_URI) |})
  else ret None.

(** The [for] loop of [loadClientSecret]. *)
Fixpoint probePaths (possiblePaths : list string) : M World (option OAuthConfig) :=
  match possiblePaths with
  | [] => ret None
  | filePath :: rest =>
      let* present := existsSync filePath in
      let* found :=
        if present
        then try_catch (readClientSecret filePath) (fun _ => ret None)
        else ret None in
      match found with
      | Some cfg => ret (Some cfg)
      | None => probePaths rest
      end
  end.

Definition possiblePaths (basePath : string) : list string :=
  [ path_join [basePath; CLIENT_SECRET_FILE];
    path_join [basePath; CREDENTIALS_DIR; CLIENT_SECRET_FILE] ].

Definition loadClientSecret (basePath : string) : M World (option OAuthConfig) :=
  probePaths (possiblePaths basePath).

Definition explicit (f : PartialConfig -> option string) (config : option PartialConfig)
  : value :=
  match config with
  | Some c => opt_str (f c)
  | None => VUndef
  end.

Definition from_file (f : OAuthConfig -> value) (fileConfig : option OAuthConfig)
  : value :=
  match fileConfig with
  | Some c => f c
  | None => VUndef
  end.

(** [new GoogleOAuth(config)]. *)
Definition new_GoogleOAuth (config : option PartialConfig) : M World GoogleOAuth :=
  let* envPath := getenv "GOOGLE_CREDENTIALS_PATH" in
  let* workdir := gets cwd in
  let baseDir := match js_or envPath (VStr workdir) with VStr s => s | _ => workdir end in
  let* fileConfig := loadClientSecret baseDir in
  let* envId := getenv "GOOGLE_CLIENT_ID" in
  let* envSecret := getenv "GOOGLE_CLIENT_SECRET" in
  let id := js_or (explicit explicitClientId config)
                  (js_or (from_file clientId fileConfig) envId) in
  let secret := js_or (explicit explicitClientSecret config)
                      (js_or (from_file clientSecret fileConfig) envSecret) in
  let redirect := js_or (explicit explicitRedirectUri config)
                        (js_or (from_file redirectUri fileConfig)
                               (VStr DEFAULT_REDIRECT_URI)) in
  if (negb (truthy id) || negb (truthy secret))%bool
  then throw (Exn PlainError CREDENTIALS_NOT_FOUND)
  else ret {| oauthConfig := {| clientId := id; clientSecret := secret;
                                redirectUri := redirect |};
              credentials := VObj [];
              credentialsPath := path_join [baseDir; CREDENTIALS_DIR; TOKENS_FILE] |}.

Definition saveTokens (tokens : value) : Method unit :=
  let* path := gets (fun s => credentialsPath (fst s)) in
  let dir := dirname path in
  let* present := in_world (existsSync dir) in
  (if negb present then in_world (mkdirSync dir) else ret tt) ;;
  in_world (writeFileSync path (JSON_stringify tokens)).

Definition loadTokens : Method bool :=
  try_catch
    (let* path := gets (fun s => credentialsPath (fst s)) in
     let* present := in_world (existsSync path) in
     if negb present then ret false
     else
       let* tokensJson := in_world (readFileSync path) in
       let* tokens := parse_json tokensJson in
       let* refresh := lift_result (prop tokens "refresh_token") in
       if negb (truthy refresh) then ret false
       else (setCredentials tokens ;; ret true))
    (fun _ => ret false).

(** [OAuth2Client.getToken(code)] of google-auth-library: one request to
    the token endpoint. *)
Definition client_getToken (code : string) : Method StoredTokens :=
  in_world (remote_call "oauth2/token" (oauth_getToken code)).

(** [OAuth2Client.refreshAccessToken()] of google-auth-library: it
    refuses to run without a refresh token, asks the token endpoint once,
    throws when the endpoint rejects the token, and otherwise installs the
    answer with the refresh token it already held. *)
Definition client_refreshAccessToken : Method value :=
  let* held := gets (fun s => credentials (fst s)) in
  let* refresh := lift_result (prop held "refresh_token") in
  if negb (truthy refresh) then throw (Exn PlainError "No refresh token is set.")
  else
    let* answer := in_world (remote_call "oauth2/token" (oauth_refreshToken refresh)) in
    let renewed :=
      match tokens_to_value answer with
      | VObj fields => VObj (set_field "refresh_token" refresh fields)
      | v => v
      end in
    setCredentials renewed ;; ret renewed.

Definition exchangeCodeForTokens (code : string) : Method StoredTokens :=
  let* tokens := client_getToken code in
  setCredentials (tokens_to_value tokens) ;;
  saveTokens (tokens_to_value tokens) ;;
  ret tokens.

Definition refreshAccessToken : Method unit :=
  let* renewed := client_refreshAccessToken in
  setCredentials renewed ;;
  saveTokens renewed.

Definition isAuthenticated : Method bool :=
  let* held := gets (fun s => credentials (fst s)) in
  ret (truthy (js_and held (get held "refresh_token"))).

(** The process: the world and the module-level [oauthInstance]. *)
Record Process := {
  world : World;
  oauthInstance : option GoogleOAuth;
}.

Definition Proc (A : Type) : Type := M Process A.

Definition in_process {A} (m : M World A) : Proc A :=
  fun p =>
    let '(r, w') := m (world p) in
    (r, {| world := w'; oauthInstance := oauthInstance p |}).

(** The process after one more recorded call. *)
Definition logged (e : event) (p : Process) : Process :=
  {| world := add_event e (world p); oauthInstance := oauthInstance p |}.

Definition getOAuthInstance : Proc GoogleOAuth :=
  fun p =>
    match oauthInstance p with
    | Some o => (Ok o, p)
    | None =>
        match new_GoogleOAuth None (world p) with
        | (Ok o, w') => (Ok o, {| world := w'; oauthInstance := Some o |})
        | (Throw e, w') => (Throw e, {| world := w'; oauthInstance := None |})
        end
    end.

(** [oauth.method()] where [oauth] is the object [getOAuthInstance]
    returned: the method runs on the singleton and its mutations stay in
    the singleton. *)
Definition invoke {A} (oauth : GoogleOAuth) (method : Method A) : Proc A :=
  fun p =>
    let '(r, (oauth', w')) := method (oauth, world p) in
    (r, {| world := w'; oauthInstance := Some oauth' |}).

Definition ensureAuthenticated : Proc unit :=
  let* oauth := getOAuthInstance in
  let* loaded := invoke oauth loadTokens in
  if negb loaded then throw (Exn PlainError NOT_AUTHENTICATED)
  else ret tt.

End WithRuntime.
End OAuth.

(** ** src/tools/docs.ts and src/tools/sheets.ts *)

Module Tools.
Import Text Js Monad Runtime OAuth Ids.

Record DocumentContent := {
  dc_id : value;
  dc_title : string;
  dc_body : string;
}.

Record DocumentInfo := {
  di_id : string;
  di_name : string;
  di_mimeType : string;
  di_modifiedTime : option string;
  di_webViewLink : option string;
}.

Record SheetInfo := {
  si_sheetId : Z;
  si_title : string;
  si_index : Z;
  si_rowCount : option Z;
  si_columnCount : option Z;
}.

Record SpreadsheetInfo := {
  sp_id : value;
  sp_name : string;
  sp_sheets : list SheetInfo;
  sp_webViewLink : option string;
}.

Record SheetData := {
  sd_spreadsheetId : value;
  sd_range : value;
  sd_values : list (list string);
}.

(** The call [extract(v)] of an extractor whose argument nobody checked
    to be a string: [includes] exists on strings and on arrays only, and
    [match] on strings only. *)
Definition call_extractor (needle : string) (extract : string -> string) (v : value)
  : result value :=
  match v with
  | VStr s => Ok (VStr (extract s))
  | VArr items =>
      if existsb (fun x => is_str x needle) items
      then Throw (Exn TypeError "idOrUrl.match is not a function")
      else Ok v
  | _ => Throw (Exn TypeError "idOrUrl.includes is not a function")
  end.

Fixpoint concat_runs (runs : list (option string)) : string :=
  match runs with
  | [] => EmptyString
  | Some content :: r => content +:+ concat_runs r
  | None :: r => concat_runs r
  end.

Fixpoint element_text (element : StructuralElement) : string :=
  match element with
  | Paragraph runs => concat_runs runs
  | Table rows =>
      (fix rows_text (rs : list (list (list StructuralElement))) : string :=
         match rs with
         | [] => EmptyString
         | row :: rs' =>
             (fix cells_text (cs : list (list StructuralElement)) : string :=
                match cs with
                | [] => EmptyString
                | cell :: cs' =>
                    (fix content_text (es : list StructuralElement) : string :=
                       match es with
                       | [] => EmptyString
                       | e :: es' => element_text e +:+ content_text es'
                       end) cell +:+ tab +:+ cells_text cs'
                end) row +:+ nl +:+ rows_text rs'
         end) rows
  | SectionBreak => nl +:+ "---" +:+ nl
  | OtherElement => EmptyString
  end.

Definition extractTextFromElements (elements : option (list StructuralElement)) : string :=
  match elements with
  | None => EmptyString
  | Some es => fold_right (fun e acc => element_text e +:+ acc) EmptyString es
  end.

Definition DOCS_MIME_QUERY : string :=
  "mimeType='application/vnd.google-apps.document' and trashed=false".

Definition SHEETS_MIME_QUERY : string :=
  "mimeType='application/vnd.google-apps.spreadsheet' and trashed=false".

(** [q += ` and fullText contains '${query.replace(/'/g, "\\'")}'`]
    under [if (query)]. *)
Definition build_query (base : string) (query : value) : result string :=
  if truthy query then
    match query with
    | VStr s => Ok (base +:+ " and fullText contains '" +:+ escape_quotes s +:+ "'")
    | _ => Throw (Exn TypeError "query.replace is not a function")
    end
  else Ok base.

Definition to_document_info (file : DriveFile) : DocumentInfo :=
  {| di_id := str_or (f_id file) EmptyString;
     di_name := str_or (f_name file) "Untitled";
     di_mimeType := str_or (f_mimeType file) EmptyString;
     di_modifiedTime := str_or_undefined (f_modifiedTime file);
     di_webViewLink := str_or_undefined (f_webViewLink file) |}.

(** A default parameter [limit: number = 10]. *)
Definition default_limit (limit : value) : value :=
  match limit with
  | VUndef => VNum 10
  | _ => limit
  end.

Definition num_or_zero (o : option Z) : Z := default 0 o.

Definition to_sheet_info (sheet : Sheet) : SheetInfo :=
  {| si_sheetId := num_or_zero (sh_sheetId sheet);
     si_title := str_or (sh_title sheet) "Untitled";
     si_index := num_or_zero (sh_index sheet);
     si_rowCount := sh_rowCount sheet;
     si_columnCount := sh_columnCount sheet |}.

Section WithRuntime.
Context `{!JsonRuntime} `{!Remote}.

Definition getDocument (documentId : value) : Proc DocumentContent :=
  in_process (log (EvTool "getDocument")) ;;
  ensureAuthenticated ;;
  let* id := lift_result (call_extractor "docs.google.com" extractDocumentId documentId) in
  let* doc := in_process (remote_call "docs.documents.get" (documents_get id)) in
  let body := extractTextFromElements (doc_content doc) in
  ret {| dc_id := js_or (opt_str (doc_documentId doc)) id;
         dc_title := str_or (doc_title doc) "Untitled";
         dc_body := trim body |}.

Definition listDocuments (limit query : value) : Proc (list DocumentInfo) :=
  in_process (log (EvTool "listDocuments")) ;;
  let limit := default_limit limit in
  ensureAuthenticated ;;
  let* q := lift_result (build_query DOCS_MIME_QUERY query) in
  let* files := in_process (remote_call "drive.files.list" (files_list q limit)) in
  ret (map to_document_info (default [] files)).

Definition searchDocuments (query limit : value) : Proc (list DocumentInfo) :=
  let limit := default_limit limit in
  listDocuments limit query.

Definition getSpreadsheet (spreadsheetId : value) : Proc SpreadsheetInfo :=
  in_process (log (EvTool "getSpreadsheet")) ;;
  ensureAuthenticated ;;
  let* id := lift_result
    (call_extractor "docs.google.com/spreadsheets" extractSpreadsheetId spreadsheetId) in
  let* spreadsheet :=
    in_process (remote_call "sheets.spreadsheets.get" (spreadsheets_get id)) in
  ret {| sp_id := js_or (opt_str (ss_spreadsheetId spreadsheet)) id;
         sp_name := str_or (ss_title spreadsheet) "Untitled";
         sp_sheets := map to_sheet_info (default [] (ss_sheets spreadsheet));
         sp_webViewLink := str_or_undefined (ss_spreadsheetUrl spreadsheet) |}.

Definition getSheetData (spreadsheetId range : value) : Proc SheetData :=
  in_process (log (EvTool "getSheetData")) ;;
  ensureAuthenticated ;;
  let* id := lift_result
    (call_extractor "docs.google.com/spreadsheets" extractSpreadsheetId spreadsheetId) in
  let* response :=
    in_process (remote_call "sheets.spreadsheets.values.get" (values_get id range)) in
  ret {| sd_spreadsheetId := id;
         sd_range := js_or (opt_str (vr_range response)) range;
         sd_values := default [] (vr_values response) |}.

Definition listSpreadsheets (limit query : value) : Proc (list DocumentInfo) :=
  in_process (log (EvTool "listSpreadsheets")) ;;
  let limit := default_limit limit in
  ensureAuthenticated ;;
  let* q := lift_result (build_query SHEETS_MIME_QUERY query) in
  let* files := in_process (remote_call "drive.files.list" (files_list q limit)) in
  ret (map to_document_info (default [] files)).

End WithRuntime.
End Tools.

(** ** src/index.ts: registry, handlers and dispatcher *)

Module Server.
Import Text Js Monad Runtime OAuth Tools.

(** A tool result [{ content: [{ type: "text", text }], isError? }]. *)
Record payload := {
  text : string;
  isError : bool;
}.

Definition success (t : string) : payload := {| text := t; isError := false |}.

Definition not_authenticated : payload :=
  {| text := NOT_AUTHENTICATED; isError := true |}.

(** The [catch (error)] clause of every tool body. *)
Definition error_payload (e : exn) : payload :=
  {| text := "Error: " +:+ message e; isError := true |}.

(** *** Rendering *)

Definition render_document (doc : DocumentContent) : string :=
  "# " +:+ dc_title doc +:+ nl +:+ nl +:+ dc_body doc.

Definition render_file (doc : DocumentInfo) : string :=
  "- **" +:+ di_name doc +:+ "**" +:+ nl +:+
  "  ID: " +:+ di_id doc +:+ nl +:+
  "  Modified: " +:+ str_or (di_modifiedTime doc) "Unknown" +:+ nl +:+
  "  URL: " +:+ str_or (di_webViewLink doc) "N/A".

(** The listing of [list_documents] and [list_spreadsheets]; the two
    differ in the text for no match and in the noun. *)
Definition render_files (none_found noun : string) (docs : list DocumentInfo) : payload :=
  match docs with
  | [] => success none_found
  | _ =>
      success ("Found " +:+ of_nat (length docs) +:+ " " +:+ noun +:+ "(s):"
               +:+ nl +:+ nl +:+ join (nl +:+ nl) (map render_file docs))
  end.

(** [count || "?"]. *)
Definition count_or_unknown (count : option Z) : string :=
  match count with
  | Some n => if n =? 0 then "?" else of_Z n
  | None => "?"
  end.

Definition render_sheet (sheet : SheetInfo) : string :=
  "  - " +:+ si_title sheet +:+ " (" +:+ count_or_unknown (si_rowCount sheet)
  +:+ " rows x " +:+ count_or_unknown (si_columnCount sheet) +:+ " cols)".

Definition render_spreadsheet (spreadsheet : SpreadsheetInfo) : result payload :=
  let sheetsInfo := join nl (map render_sheet (sp_sheets spreadsheet)) in
  match to_string (sp_id spreadsheet) with
  | Throw e => Throw e
  | Ok id =>
      Ok (success ("# " +:+ sp_name spreadsheet +:+ nl +:+ nl +:+
                   "ID: " +:+ id +:+ nl +:+
                   "URL: " +:+ str_or (sp_webViewLink spreadsheet) "N/A" +:+ nl +:+ nl +:+
                   "## Sheets:" +:+ nl +:+ sheetsInfo))
  end.

Definition render_sheet_data (data : SheetData) : result payload :=
  match sd_values data with
  | [] => Ok (success "No data found in the specified range.")
  | rows =>
      let table := join nl (map (join tab) rows) in
      match to_string (sd_range data) with
      | Throw e => Throw e
      | Ok range => Ok (success ("Data from " +:+ range +:+ ":" +:+ nl +:+ nl +:+ table))
      end
  end.

(** *** The two copies of the catalog *)

(** A parameter as [server.tool] registers it (a zod field). *)
Record zod_field := {
  z_name : string;
  z_type : string;
  z_optional : bool;
  z_default : option Z;
  z_description : string;
}.

Record registration := {
  r_name : string;
  r_description : string;
  r_shape : list zod_field;
}.

(** A parameter and a descriptor as [tools/list] writes them out. *)
Record property := {
  p_name : string;
  p_type : string;
  p_description : string;
}.

Record descriptor := {
  d_name : string;
  d_description : string;
  d_properties : list property;
  d_required : option (list string);
}.

Definition required_string (name description : string) : zod_field :=
  {| z_name := name; z_type := "string"; z_optional := false;
     z_default := None; z_description := description |}.

(** The registrations of [createServer], in order. *)
Definition createServer : list registration :=
  [ {| r_name := "get_document";
       r_description := "Get the full content of a Google Doc by its ID or URL";
       r_shape := [ required_string "documentId" "The document ID or full Google Docs URL" ] |};
    {| r_name := "list_documents";
       r_description :=
         "List Google Docs accessible to the user, optionally filtered by search query";
       r_shape :=
         [ {| z_name := "limit"; z_type := "number"; z_optional := true;
              z_default := Some 10;
              z_description := "Maximum number of documents to return (default: 10)" |};
           {| z_name := "query"; z_type := "string"; z_optional := true;
              z_default := None;
              z_description := "Optional search query to filter documents" |} ] |};
    {| r_name := "get_spreadsheet";
       r_description := "Get metadata about a Google Spreadsheet including its sheets";
       r_shape :=
         [ required_string "spreadsheetId" "The spreadsheet ID or full Google Sheets URL" ] |};
    {| r_name := "get_sheet_data";
       r_description := "Read data from a specific range in a Google Spreadsheet";
       r_shape :=
         [ required_string "spreadsheetId" "The spreadsheet ID or full Google Sheets URL";
           required_string "range"
             "The A1 notation range to read (e.g., 'Sheet1!A1:D10' or 'A1:D10')" ] |};
    {| r_name := "list_spreadsheets";
       r_description :=
         "List Google Spreadsheets accessible to the user, optionally filtered by search query";
       r_shape :=
         [ {| z_name := "limit"; z_type := "number"; z_optional := true;
              z_default := Some 10;
              z_description := "Maximum number of spreadsheets to return (default: 10)" |};
           {| z_name := "query"; z_type := "string"; z_optional := true;
              z_default := None;
              z_description := "Optional search query to filter spreadsheets" |} ] |} ].

(** The [tools] array of [handleJsonRpc], in order. *)
Definition tools : list descriptor :=
  [ {| d_name := "get_document";
       d_description := "Get the full content of a Google Doc by its ID or URL";
       d_properties :=
         [ {| p_name := "documentId"; p_type := "string";
              p_description := "The document ID or full Google Docs URL" |} ];
       d_required := Some ["documentId"] |};
    {| d_name := "list_documents";
       d_description :=
         "List Google Docs accessible to the user, optionally filtered by search query";
       d_properties :=
         [ {| p_name := "limit"; p_type := "number";
              p_description := "Maximum number of documents to return (default: 10)" |};
           {| p_name := "query"; p_type := "string";
              p_description := "Optional search query to filter documents" |} ];
       d_required := None |};
    {| d_name := "get_spreadsheet";
       d_description := "Get metadata about a Google Spreadsheet including its sheets";
       d_properties :=
         [ {| p_name := "spreadsheetId"; p_type := "string";
              p_description := "The spreadsheet ID or full Google Sheets URL" |} ];
       d_required := Some ["spreadsheetId"] |};
    {| d_name := "get_sheet_data";
       d_description := "Read data from a specific range in a Google Spreadsheet";
       d_properties :=
         [ {| p_name := "spreadsheetId"; p_type := "string";
              p_description := "The spreadsheet ID or full Google Sheets URL" |};
           {| p_name := "range"; p_type := "string";
              p_description := "The A1 notation range to read (e.g., 'Sheet1!A1:D10')" |} ];
       d_required := Some ["spreadsheetId"; "range"] |};
    {| d_name := "list_spreadsheets";
       d_description :=
         "List Google Spreadsheets accessible to the user, optionally filtered by search query";
       d_properties :=
         [ {| p_name := "limit"; p_type := "number";
              p_description := "Maximum number of spreadsheets to return (default: 10)" |};
           {| p_name := "query"; p_type := "string";
              p_description := "Optional search query to filter spreadsheets" |} ];
       d_required := None |} ].

(** What the stdio binding advertises for a registration: the name and
    description as registered, each field with its type and description,
    and the fields that are not optional as required. *)
Definition advertise (r : registration) : descriptor :=
  {| d_name := r_name r;
     d_description := r_description r;
     d_properties :=
       map (fun z => {| p_name := z_name z; p_type := z_type z;
                        p_description := z_description z |}) (r_shape r);
     d_required :=
       match filter (fun z => z_optional z = false) (r_shape r) with
       | [] => None
       | fields => Some (map z_name fields)
       end |}.

Definition stdio_catalog : list descriptor := map advertise createServer.

(** *** Handlers *)

Inductive rpc_result :=
| Initialized (protocolVersion serverName serverVersion : string)
| ToolList (catalog : list descriptor)
| ToolOutput (output : payload).

Inductive rpc_body :=
| RpcResult (r : rpc_result)
| RpcError (code : Z) (msg : string).

(** A response envelope [{ jsonrpc: "2.0", result | error, id }]. *)
Record rpc_response := {
  jsonrpc : string;
  body : rpc_body;
  id : value;
}.

Definition respond (b : rpc_body) (request_id : value) : rpc_response :=
  {| jsonrpc := "2.0"; body := b; id := request_id |}.

(** A call as the stdio binding hands it to a registered handler, the
    arguments already validated against the registered shape. *)
Inductive tool_call :=
| GetDocument (documentId : string)
| ListDocuments (limit : Z) (query : option string)
| GetSpreadsheet (spreadsheetId : string)
| GetSheetData (spreadsheetId range : string)
| ListSpreadsheets (limit : Z) (query : option string).

Inductive http_body :=
| HealthOk
| ServerInfo
| RpcReply (r : rpc_response)
| PlainText (t : string).

Record http_request := {
  req_method : string;
  req_pathname : string;
  req_body : string;
}.

Record http_response := {
  status : Z;
  content : http_body;
}.

Section WithRuntime.
Context `{!JsonRuntime} `{!Remote}.

Definition checkAuth : Proc bool :=
  in_process (log EvAuthCheck) ;;
  try_catch
    (let* oauth := getOAuthInstance in invoke oauth loadTokens)
    (fun _ => ret false).

(** The shape shared by the five registered handlers: the gate, then the
    body under [try]/[catch]. *)
Definition gated (body : Proc payload) : Proc payload :=
  let* isAuth := checkAuth in
  if negb isAuth then ret not_authenticated
  else try_catch body (fun e => ret (error_payload e)).

Definition get_document_handler (documentId : string) : Proc payload :=
  gated (let* doc := getDocument (VStr documentId) in
         ret (success (render_document doc))).

Definition list_documents_handler (limit : Z) (query : option string) : Proc payload :=
  gated (let* docs := listDocuments (VNum limit) (opt_str query) in
         ret (render_files "No documents found." "document" docs)).

Definition get_spreadsheet_handler (spreadsheetId : string) : Proc payload :=
  gated (let* spreadsheet := getSpreadsheet (VStr spreadsheetId) in
         lift_result (render_spreadsheet spreadsheet)).

Definition get_sheet_data_handler (spreadsheetId range : string) : Proc payload :=
  gated (let* data := getSheetData (VStr spreadsheetId) (VStr range) in
         lift_result (render_sheet_data data)).

Definition list_spreadsheets_handler (limit : Z) (query : option string) : Proc payload :=
  gated (let* sheets := listSpreadsheets (VNum limit) (opt_str query) in
         ret (render_files "No spreadsheets found." "spreadsheet" sheets)).

(** The stdio binding: the handler registered under the call's name. *)
Definition stdio_call (c : tool_call) : Proc payload :=
  match c with
  | GetDocument documentId => get_document_handler documentId
  | ListDocuments limit query => list_documents_handler limit query
  | GetSpreadsheet spreadsheetId => get_spreadsheet_handler spreadsheetId
  | GetSheetData spreadsheetId range => get_sheet_data_handler spreadsheetId range
  | ListSpreadsheets limit query => list_spreadsheets_handler limit query
  end.

(** The [switch (name)] of [handleJsonRpc]: [inl] is the value assigned
    to [result], [inr] the early [return] of the [default] branch. *)
Definition call_by_name (name args : value) : Proc (payload + rpc_body) :=
  if is_str name "get_document" then
    let* documentId := lift_result (prop args "documentId") in
    let* doc := getDocument documentId in
    ret (inl (success (render_document doc)))
  else if is_str name "list_documents" then
    let* limit := lift_result (prop args "limit") in
    let* docs := listDocuments (js_or limit (VNum 10)) (get args "query") in
    ret (inl (render_files "No documents found." "document" docs))
  else if is_str name "get_spreadsheet" then
    let* spreadsheetId := lift_result (prop args "spreadsheetId") in
    let* spreadsheet := getSpreadsheet spreadsheetId in
    let* output := lift_result (render_spreadsheet spreadsheet) in
    ret (inl output)
  else if is_str name "get_sheet_data" then
    let* spreadsheetId := lift_result (prop args "spreadsheetId") in
    let* data := getSheetData spreadsheetId (get args "range") in
    let* output := lift_result (render_sheet_data data) in
    ret (inl output)
  else if is_str name "list_spreadsheets" then
    let* limit := lift_result (prop args "limit") in
    let* sheets := listSpreadsheets (js_or limit (VNum 10)) (get args "query") in
    ret (inl (render_files "No spreadsheets found." "spreadsheet" sheets))
  else
    let* shown := lift_result (to_string name) in
    ret (inr (RpcError (-32601) ("Unknown tool: " +:+ shown))).

(** A [tools/call] request envelope. *)
Definition tools_call (name : string) (args request_id : value) : value :=
  VObj [ ("jsonrpc", VStr "2.0"); ("method", VStr "tools/call");
         ("params", VObj [("name", VStr name); ("arguments", args)]);
         ("id", request_id) ].

(** A [tools/list] request envelope. *)
Definition tools_list (request_id : value) : value :=
  VObj [ ("jsonrpc", VStr "2.0"); ("method", VStr "tools/list"); ("id", request_id) ].

Definition initialize_result : rpc_result :=
  Initialized "2024-11-05" "google-docs-mcp" "1.0.0".

Definition handleJsonRpc (request : value) : Proc rpc_response :=
  let* version := lift_result (prop request "jsonrpc") in
  let method := get request "method" in
  let params := get request "params" in
  let request_id := get request "id" in
  if negb (is_str version "2.0") then
    ret (respond (RpcError (-32600) "Invalid JSON-RPC version") request_id)
  else
    try_catch
      (if is_str method "initialize" then
         ret (respond (RpcResult initialize_result) request_id)
       else if is_str method "tools/list" then
         ret (respond (RpcResult (ToolList tools)) request_id)
       else if is_str method "tools/call" then
         let* name := lift_result (prop params "name") in
         let args := get params "arguments" in
         let* isAuth := checkAuth in
         if negb isAuth then
           ret (respond (RpcResult (ToolOutput not_authenticated)) request_id)
         else
           let* outcome :=
             try_catch (call_by_name name args)
                       (fun e => ret (inl (error_payload e))) in
           match outcome with
           | inl result => ret (respond (RpcResult (ToolOutput result)) request_id)
           | inr early => ret (respond early request_id)
           end
       else
         let* shown := lift_result (to_string method) in
         ret (respond (RpcError (-32601) ("Method not found: " +:+ shown)) request_id))
      (fun e => ret (respond (RpcError (-32603) (message e)) request_id)).

(** The [fetch] callback of the HTTP binding. *)
Definition fetch (req : http_request) : Proc http_response :=
  if String.eqb (req_pathname req) "/health" then
    ret {| status := 200; content := HealthOk |}
  else if (String.eqb (req_pathname req) "/" && String.eqb (req_method req) "GET")%bool then
    ret {| status := 200; content := ServerInfo |}
  else if (String.eqb (req_pathname req) "/rpc" && String.eqb (req_method req) "POST")%bool then
    try_catch
      (let* parsed := parse_json (req_body req) in
       let* result := handleJsonRpc parsed in
       ret {| status := 200; content := RpcReply result |})
      (fun e =>
         ret {| status := 400;
                content := RpcReply (respond (RpcError (-32700) (message e)) VNull) |})
  else ret {| status := 404; content := PlainText "Not found" |}.

End WithRuntime.
End Server.

(** ** An executable JSON codec

    A small instance of [JsonRuntime] to run the program on concrete
    files: objects, arrays, strings with the escapes [JSON.stringify]
    writes, integers and the three literals.  Numbers with a fraction or
    an exponent and escapes beyond ASCII are outside the model and are
    refused. *)

Module MiniJson.
Import Text Js.

Definition is_ws (c : ascii) : bool :=
  (Nat.eqb (code c) 32 || Nat.eqb (code c) 9 || Nat.eqb (code c) 10
   || Nat.eqb (code c) 13)%bool.

Fixpoint skip_ws (s : string) : string :=
  match s with
  | String c r => if is_ws c then skip_ws r else s
  | EmptyString => EmptyString
  end.

Definition hex_digit (n : nat) : string :=
  chr (if Nat.ltb n 10 then 48 + n else 87 + n)%nat.

Definition escape_char (c : ascii) : string :=
  let n := code c in
  if Nat.eqb n 34 then bs +:+ dq
  else if Nat.eqb n 92 then bs +:+ bs
  else if Nat.eqb n 8 then bs +:+ "b"
  else if Nat.eqb n 9 then bs +:+ "t"
  else if Nat.eqb n 10 then bs +:+ "n"
  else if Nat.eqb n 12 then bs +:+ "f"
  else if Nat.eqb n 13 then bs +:+ "r"
  else if Nat.ltb n 32
       then bs +:+ "u00" +:+ hex_digit (Nat.div n 16) +:+ hex_digit (Nat.modulo n 16)
  else String c EmptyString.

Fixpoint escape (s : string) : string :=
  match s with
  | EmptyString => EmptyString
  | String c r => escape_char c +:+ escape r
  end.

Definition quote (s : string) : string := dq +:+ escape s +:+ dq.

Fixpoint spaces (n : nat) : string :=
  match n with
  | O => EmptyString
  | S m => " " +:+ spaces m
  end.

(** [JSON.stringify(v, null, 2)] below the top level, at indentation
    [ind]; a member whose value is [undefined] is left out, an array
    element that is [undefined] prints as [null]. *)
Fixpoint print (ind : nat) (v : value) : string :=
  match v with
  | VUndef | VNull => "null"
  | VBool true => "true"
  | VBool false => "false"
  | VNum n => of_Z n
  | VStr s => quote s
  | VArr items =>
      match items with
      | [] => "[]"
      | _ =>
          "[" +:+ nl +:+
          join ("," +:+ nl)
               (map (fun x => spaces (ind + 2) +:+ print (ind + 2) x) items)
          +:+ nl +:+ spaces ind +:+ "]"
      end
  | VObj fields =>
      let members :=
        (fix go (l : list (string * value)) : list string :=
           match l with
           | [] => []
           | (_, VUndef) :: r => go r
           | (k, x) :: r =>
               (spaces (ind + 2) +:+ quote k +:+ ": " +:+ print (ind + 2) x) :: go r
           end) fields in
      match members with
      | [] => "{}"
      | _ => "{" +:+ nl +:+ join ("," +:+ nl) members +:+ nl +:+ spaces ind +:+ "}"
      end
  end.

(** A value without substructure, and the text of a top-level member. *)
Definition simple (v : value) : bool :=
  match v with
  | VStr _ | VNum _ => true
  | _ => false
  end.

Definition member_text (kv : string * value) : string :=
  "  " +:+ quote (fst kv) +:+ ": " +:+ print 2 (snd kv).

Definition stringify (v : value) : option string :=
  match v with
  | VUndef => None
  | _ => Some (print 0 v)
  end.

Definition hex_value (c : ascii) : option nat :=
  let n := code c in
  if between 48 57 c then Some (n - 48)%nat
  else if between 97 102 c then Some (n - 87)%nat
  else if between 65 70 c then Some (n - 55)%nat
  else None.

(** The text after an opening quote: the decoded string and what
    follows the closing quote. *)
Fixpoint parse_string (s : string) : option (string * string) :=
  match s with
  | EmptyString => None
  | String c r =>
      if Nat.eqb (code c) 34 then Some (EmptyString, r)
      else if Nat.eqb (code c) 92 then
        match r with
        | String e r' =>
            let simple (d : nat) :=
              match parse_string r' with
              | Some (t, rest) => Some (String (ascii_of_nat d) t, rest)
              | None => None
              end in
            if Nat.eqb (code e) 34 then simple 34%nat
            else if Nat.eqb (code e) 92 then simple 92%nat
            else if Nat.eqb (code e) 47 then simple 47%nat
            else if Nat.eqb (code e) 98 then simple 8%nat
            else if Nat.eqb (code e) 102 then simple 12%nat
            else if Nat.eqb (code e) 110 then simple 10%nat
            else if Nat.eqb (code e) 114 then simple 13%nat
            else if Nat.eqb (code e) 116 then simple 9%nat
            else if Nat.eqb (code e) 117 then
              match r' with
              | String h1 (String h2 (String h3 (String h4 r''))) =>
                  match hex_value h1, hex_value h2, hex_value h3, hex_value h4 with
                  | Some 0%nat, Some 0%nat, Some a, Some b =>
                      if Nat.ltb (16 * a + b) 128 then
                        match parse_string r'' with
                        | Some (t, rest) =>
                            Some (String (ascii_of_nat (16 * a + b)) t, rest)
                        | None => None
                        end
                      else None
                  | _, _, _, _ => None
                  end
              | _ => None
              end
            else None
        | EmptyString => None
        end
      else if Nat.ltb (code c) 32 then None
      else
        match parse_string r with
        | Some (t, rest) => Some (String c t, rest)
        | None => None
        end
  end.

Definition is_digit (c : ascii) : bool := between 48 57 c.

Fixpoint take_digits (s : string) : string * string :=
  match s with
  | String c r =>
      if is_digit c then let '(d, rest) := take_digits r in (String c d, rest)
      else (EmptyString, s)
  | EmptyString => (EmptyString, EmptyString)
  end.

Fixpoint digits_value (acc : Z) (d : string) : Z :=
  match d with
  | EmptyString => acc
  | String c r => digits_value (10 * acc + Z.of_nat (code c - 48)) r
  end.

(** What may follow an integer literal: anything but a digit, a point
    or an exponent mark. *)
Definition ends_number (rest : string) : bool :=
  negb (head_is (fun c => (is_digit c || Nat.eqb (code c) 46 || Nat.eqb (code c) 101
                           || Nat.eqb (code c) 69)%bool) rest).

(** An integer literal: no leading zero, no fraction, no exponent. *)
Definition parse_number (s : string) : option (Z * string) :=
  let '(negative, body) :=
    match s with
    | String c r => if Nat.eqb (code c) 45 then (true, r) else (false, s)
    | EmptyString => (false, s)
    end in
  let '(d, rest) := take_digits body in
  let continues :=
    match rest with
    | String c _ => (Nat.eqb (code c) 46 || Nat.eqb (code c) 101 || Nat.eqb (code c) 69)%bool
    | EmptyString => false
    end in
  match d with
  | EmptyString => None
  | String c0 more =>
      if (Nat.eqb (code c0) 48 && negb (is_empty more))%bool then None
      else if continues then None
      else
        let n := digits_value 0 d in
        Some (if negative then - n else n, rest)
  end.

Fixpoint parse_value (fuel : nat) (s : string) : option (value * string) :=
  match fuel with
  | O => None
  | S fuel' =>
      match skip_ws s with
      | EmptyString => None
      | String c r as s' =>
          if Nat.eqb (code c) 34 then
            match parse_string r with
            | Some (t, rest) => Some (VStr t, rest)
            | None => None
            end
          else if Nat.eqb (code c) 123 then
            match skip_ws r with
            | String c' r' =>
                if Nat.eqb (code c') 125 then Some (VObj [], r')
                else parse_members fuel' [] r
            | EmptyString => None
            end
          else if Nat.eqb (code c) 91 then
            match skip_ws r with
            | String c' r' =>
                if Nat.eqb (code c') 93 then Some (VArr [], r')
                else parse_elements fuel' [] r
            | EmptyString => None
            end
          else
            match strip_prefix "true" s', strip_prefix "false" s', strip_prefix "null" s' with
            | Some rest, _, _ => Some (VBool true, rest)
            | _, Some rest, _ => Some (VBool false, rest)
            | _, _, Some rest => Some (VNull, rest)
            | None, None, None =>
                match parse_number s' with
                | Some (n, rest) => Some (VNum n, rest)
                | None => None
                end
            end
      end
  end

with parse_members (fuel : nat) (acc : list (string * value)) (s : string)
  : option (value * string) :=
  match fuel with
  | O => None
  | S fuel' =>
      match skip_ws s with
      | String c r =>
          if Nat.eqb (code c) 34 then
            match parse_string r with
            | Some (k, rest) =>
                match skip_ws rest with
                | String colon rest' =>
                    if Nat.eqb (code colon) 58 then
                      match parse_value fuel' rest' with
                      | Some (v, rest'') =>
                          let acc' := set_field k v acc in
                          match skip_ws rest'' with
                          | String d rest3 =>
                              if Nat.eqb (code d) 44 then parse_members fuel' acc' rest3
                              else if Nat.eqb (code d) 125 then Some (VObj acc', rest3)
                              else None
                          | EmptyString => None
                          end
                      | None => None
                      end
                    else None
                | EmptyString => None
                end
            | None => None
            end
          else None
      | EmptyString => None
      end
  end

with parse_elements (fuel : nat) (acc : list value) (s : string)
  : option (value * string) :=
  match fuel with
  | O => None
  | S fuel' =>
      match parse_value fuel' s with
      | Some (v, rest) =>
          match skip_ws rest with
          | String d rest' =>
              if Nat.eqb (code d) 44 then parse_elements fuel' (acc ++ [v]) rest'
              else if Nat.eqb (code d) 93 then Some (VArr (acc ++ [v]), rest')
              else None
          | EmptyString => None
          end
      | None => None
      end
  end.

(** The object built by assigning the members in order. *)
Definition put_fields (fields acc : list (string * value)) : list (string * value) :=
  fold_left (fun a kv => set_field (fst kv) (snd kv) a) fields acc.

Definition parse (s : string) : option value :=
  match parse_value (S (String.length s)) s with
  | Some (v, rest) => if is_empty (skip_ws rest) then Some v else None
  | None => None
  end.

Definition runtime : Runtime.JsonRuntime :=
  {| Runtime.JSON_parse := parse; Runtime.JSON_stringify := stringify |}.

End MiniJson.

(** ** What the readers find on disk

    Pure readings of the world, against which the effectful code is
    characterised. *)

Module Stored.
Import Text Js Monad Runtime OAuth.

(** [a || b || c]: the first truthy source, else the last one. *)
Fixpoint first_present (sources : list value) : value :=
  match sources with
  | [] => VUndef
  | [x] => x
  | x :: rest => js_or x (first_present rest)
  end.

(** [process.env.GOOGLE_CREDENTIALS_PATH || process.cwd()]. *)
Definition base_dir (w : World) : string :=
  match env w !! "GOOGLE_CREDENTIALS_PATH" with
  | Some s => if is_empty s then cwd w else s
  | None => cwd w
  end.

Definition env_value (w : World) (name : string) : value := opt_str (env w !! name).

(** A field is missing when no source gave a truthy value. *)
Definition missing (v : value) : bool := negb (truthy v).

(** Whether a [StoredTokens] holds a non-empty refresh token. *)
Definition has_refresh_token (t : StoredTokens) : bool :=
  match refresh_token t with
  | Some s => negb (is_empty s)
  | None => false
  end.

(** The configuration a parsed secret offers, if it has an [installed]
    or a [web] section. *)
Definition secret_config (secret : value) : option OAuthConfig :=
  match prop secret "installed" with
  | Ok installed =>
      let section := js_or installed (get secret "web") in
      if truthy section then
        Some {| clientId := get section "client_id";
                clientSecret := get section "client_secret";
                redirectUri :=
                  js_or (opt_index0 (get section "redirect_uris"))
                        (VStr DEFAULT_REDIRECT_URI) |}
      else None
  | Throw _ => None
  end.

(** A file can be written at [path], after the directories above it
    have been made if need be: [path] is not a directory, it names an
    entry of the directory [dirname path], and no regular file stands at
    that directory or above it. *)
Definition writable (path : string) (w : World) : Prop :=
  (path ∉ dirs w)
  /\ dirname path <> path
  /\ Forall (fun a => files w !! a = None) (ancestors (dirname path) ++ [dirname path]).

Section WithRuntime.
Context `{!JsonRuntime}.

(** The tokens a token file offers: it is a regular file, it parses, and
    the parsed value has a truthy [refresh_token]. *)
Definition usable_tokens (path : string) (w : World) : option value :=
  match files w !! path with
  | Some content =>
      match JSON_parse content with
      | Some tokens =>
          match prop tokens "refresh_token" with
          | Ok refresh => if truthy refresh then Some tokens else None
          | Throw _ => None
          end
      | None => None
      end
  | None => None
  end.

(** A candidate is usable when it is a regular file that parses and
    carries a section. *)
Definition usable_secret (path : string) (w : World) : option OAuthConfig :=
  match files w !! path with
  | Some content =>
      match JSON_parse content with
      | Some secret => secret_config secret
      | None => None
      end
  | None => None
  end.

Fixpoint first_usable (paths : list string) (w : World) : option OAuthConfig :=
  match paths with
  | [] => None
  | path :: rest =>
      match usable_secret path w with
      | Some cfg => Some cfg
      | None => first_usable rest w
      end
  end.

(** The file source in the literal wording "the first existing,
    parseable file": the first candidate that is a file and parses,
    whatever it contains. *)
Fixpoint first_parseable (paths : list string) (w : World) : option value :=
  match paths with
  | [] => None
  | path :: rest =>
      match files w !! path with
      | Some content =>
          match JSON_parse content with
          | Some secret => Some secret
          | None => first_parseable rest w
          end
      | None => first_parseable rest w
      end
  end.

(** The three sources of a field, in priority order. *)
Definition sources (explicit_field : PartialConfig -> option string)
    (file_field : OAuthConfig -> value) (env_name : string)
    (config : option PartialConfig) (w : World) : list value :=
  [ explicit explicit_field config;
    from_file file_field (first_usable (possiblePaths (base_dir w)) w);
    env_value w env_name ].

Definition resolved_clientId (config : option PartialConfig) (w : World) : value :=
  first_present (sources explicitClientId clientId "GOOGLE_CLIENT_ID" config w).

Definition resolved_clientSecret (config : option PartialConfig) (w : World) : value :=
  first_present (sources explicitClientSecret clientSecret "GOOGLE_CLIENT_SECRET" config w).

Definition resolved_redirectUri (config : option PartialConfig) (w : World) : value :=
  first_present
    [ explicit explicitRedirectUri config;
      from_file redirectUri (first_usable (possiblePaths (base_dir w)) w);
      VStr DEFAULT_REDIRECT_URI ].

(** The client id under the literal wording of the file source. *)
Definition literal_clientId (config : option PartialConfig) (w : World) : value :=
  first_present
    [ explicit explicitClientId config;
      from_file clientId
        (first_parseable (possiblePaths (base_dir w)) w ≫= secret_config);
      env_value w "GOOGLE_CLIENT_ID" ].

(** What [new GoogleOAuth(config)] comes to. *)
Definition resolve (config : option PartialConfig) (w : World) : result GoogleOAuth :=
  if (missing (resolved_clientId config w) || missing (resolved_clientSecret config w))%bool
  then Throw (Exn PlainError CREDENTIALS_NOT_FOUND)
  else Ok {| oauthConfig :=
               {| clientId := resolved_clientId config w;
                  clientSecret := resolved_clientSecret config w;
                  redirectUri := resolved_redirectUri config w |};
             credentials := VObj [];
             credentialsPath := path_join [base_dir w; CREDENTIALS_DIR; TOKENS_FILE] |}.

(** The session [getOAuthInstance] hands out. *)
Definition session (p : Process) : result GoogleOAuth :=
  match oauthInstance p with
  | Some o => Ok o
  | None => resolve None (world p)
  end.

(** The process is authenticated: a session is available and its token
    file offers tokens. *)
Definition authenticated (p : Process) : Prop :=
  exists o tokens,
    session p = Ok o /\ usable_tokens (credentialsPath o) (world p) = Some tokens.

End WithRuntime.

End Stored.


(** ** Concrete worlds

    Small processes on which the program is run: an application
    directory [/app], the executable codec, and a remote side that
    rejects every grant and has neither rows nor files to offer. *)

Module Sample.
Import Text Js Runtime OAuth.

Definition remote : Remote :=
  {| oauth_getToken := fun _ => inl "invalid_grant";
     oauth_refreshToken := fun _ => inl "invalid_grant";
     documents_get := fun _ => inl "Requested entity was not found.";
     spreadsheets_get := fun _ => inl "Requested entity was not found.";
     values_get := fun _ range =>
       inr {| vr_range := match range with VStr r => Some r | _ => None end;
              vr_values := None |};
     files_list := fun _ _ => inr (Some []) |}.

Definition environment : gmap string string :=
  <["GOOGLE_CLIENT_ID" := "env-id"]> (<["GOOGLE_CLIENT_SECRET" := "env-secret"]> ∅).

Definition tokens_path : string := "/app/.credentials/tokens.json".

Definition render (v : value) : string := default EmptyString (MiniJson.stringify v).

(** A token set as the consent flow stores it. *)
Definition granted : StoredTokens :=
  {| access_token := Some "ya29.a0";
     refresh_token := Some "1//0g";
     expiry_date := Some 1735689600000;
     token_type := Some "Bearer";
     scope := Some "https://www.googleapis.com/auth/drive.readonly" |}.

(** A token set without a refresh token. *)
Definition access_only : StoredTokens :=
  {| access_token := Some "ya29.a0";
     refresh_token := None;
     expiry_date := Some 1735689600000;
     token_type := Some "Bearer";
     scope := None |}.

(** Nothing on disk; credentials come from the environment. *)
Definition fresh : World :=
  {| files := ∅; dirs := ∅; env := environment; cwd := "/app"; trace := [] |}.

(** The token file of a completed consent flow is on disk. *)
Definition signed_in : World :=
  {| files := {[ tokens_path := render (tokens_to_value granted) ]};
     dirs := {[ "/app/.credentials" ]};
     env := environment; cwd := "/app"; trace := [] |}.

Definition desktop_secret : value :=
  VObj [("installed",
         VObj [("client_id", VStr "file-id"); ("client_secret", VStr "file-secret");
               ("redirect_uris", VArr [VStr "http://localhost"])])].

(** The first candidate parses but has no section; the second one is a
    regular desktop secret. *)
Definition two_candidates : World :=
  {| files := <["/app/client_secret.json" := "{}"]>
                {[ "/app/.credentials/client_secret.json" := render desktop_secret ]};
     dirs := {[ "/app/.credentials" ]};
     env := environment; cwd := "/app"; trace := [] |}.

(** The first candidate does not parse and there is no second one. *)
Definition broken_secret : World :=
  {| files := {[ "/app/client_secret.json" := "{ not json" ]};
     dirs := ∅; env := environment; cwd := "/app"; trace := [] |}.

(** A desktop secret on disk and explicit overrides next to it. *)
Definition with_secret : World :=
  {| files := {[ "/app/client_secret.json" := render desktop_secret ]};
     dirs := ∅; env := environment; cwd := "/app"; trace := [] |}.

Definition overrides : PartialConfig :=
  {| explicitClientId := Some "explicit-id";
     explicitClientSecret := Some "explicit-secret";
     explicitRedirectUri := None |}.

(** A session as the constructor builds it in [/app]. *)
Definition session_with (held : value) : GoogleOAuth :=
  {| oauthConfig := {| clientId := VStr "env-id"; clientSecret := VStr "env-secret";
                       redirectUri := VStr DEFAULT_REDIRECT_URI |};
     credentials := held;
     credentialsPath := tokens_path |}.

Definition process (w : World) : Process := {| world := w; oauthInstance := None |}.

(** A new session saves the token set without a refresh token. *)
Definition saved_access_only : Js.result unit * (GoogleOAuth * World) :=
  saveTokens (H := MiniJson.runtime) (tokens_to_value access_only)
    (session_with (VObj []), fresh).

End Sample.

(** ** Shapes of text used in the statements about the tools *)

Module Shape.
Import Text.

(** Every single quote of [s] stands directly after a backslash;
    [after_backslash] tells whether the character before [s] was one. *)
Fixpoint guarded (after_backslash : bool) (s : string) : bool :=
  match s with
  | EmptyString => true
  | String c r =>
      if Nat.eqb (code c) 39 then (after_backslash && guarded false r)%bool
      else guarded (Nat.eqb (code c) 92) r
  end.

Definition no_quote (s : string) : bool :=
  all_chars (fun c => negb (Nat.eqb (code c) 39)) s.

End Shape.

(** ** src/index.ts: command line and environment *)

Module Cli.
Import Text Js Monad Runtime.

Inductive TransportType := Http | Stdio.

Definition DEFAULT_PORT : Z := 12333.

(** What [parseInt] returns: [NaN], an integer that a number holds
    exactly, or, for a digit string whose value is beyond the safe
    range, the number the engine rounds it to, which is not computed
    here. *)
Inductive parsed :=
| NaN
| Exact (n : Z)
| Rounded (negative : bool) (digits : string).

(** [parseInt(s, 10)]: leading white space is skipped, one sign is
    accepted, and the longest run of decimal digits that follows is the
    value; [NaN] is the answer when no digit is there. *)
Definition parseInt10 (s : string) : parsed :=
  let trimmed := trim_start s in
  let '(negative, body) :=
    match trimmed with
    | String c r =>
        if Nat.eqb (code c) 45 then (true, r)
        else if Nat.eqb (code c) 43 then (false, r)
        else (false, trimmed)
    | EmptyString => (false, trimmed)
    end in
  match fst (MiniJson.take_digits body) with
  | EmptyString => NaN
  | digits =>
      let n := MiniJson.digits_value 0 digits in
      if n <? 2 ^ 53 then Exact (if negative then - n else n)
      else Rounded negative digits
  end.

(** [n || dflt] on the result of [parseInt]: [NaN] and zero are falsy. *)
Definition num_or (n : parsed) (dflt : Z) : parsed :=
  match n with
  | NaN => Exact dflt
  | Exact v => if v =? 0 then Exact dflt else Exact v
  | Rounded _ _ => n
  end.

(** The [for] loop over the arguments: the last recognised flag stays. *)
Definition pick_transport (args : list string) : TransportType :=
  fold_left
    (fun transport arg =>
       if String.eqb arg "--stdio" then Stdio
       else if String.eqb arg "--http" then Http
       else transport)
    args Http.

(** [parseArgs()], with [args] standing for [process.argv.slice(2)]. *)
Definition parseArgs (args : list string) : M World (TransportType * parsed) :=
  let transport := pick_transport args in
  let* mcp_port := getenv "MCP_PORT" in
  let* port_var := getenv "PORT" in
  let text :=
    match js_or mcp_port (js_or port_var (VStr EmptyString)) with
    | VStr s => s
    | _ => EmptyString
    end in
  let port := num_or (parseInt10 text) DEFAULT_PORT in
  ret (transport, port).

End Cli.

(** ** bin/auth.ts: the interactive authorization flow *)

Module AuthFlow.
Import Text Js Monad Runtime OAuth.

Definition PORT : Z := 3000.

Definition CALLBACK_URI : string := "http://localhost:" +:+ of_Z PORT +:+ "/oauth2callback".

(** The redirect as the callback server sees it: the path and the two
    query parameters it reads ([None] where [searchParams.get] gives
    [null]). *)
Record callback_request := {
  cb_pathname : string;
  cb_code : option string;
  cb_error : option string;
}.

Inductive page :=
| PlainPage (t : string)
| SuccessPage.

(** What a request to the callback server ends in: the process exits at
    once, or a response is sent, after which the process may exit
    ([setTimeout] followed by [process.exit]). *)
Inductive callback_outcome :=
| Exit (code : Z)
| Reply (status : Z) (body : page) (then_exit : option Z).

(** What [runAuthFlow] ends in before any redirect arrives. *)
Inductive flow_outcome :=
| FlowExit (code : Z)
| Listening (oauth : GoogleOAuth).

Section WithRuntime.
Context `{!JsonRuntime} `{!Remote}.

(** The [fetch] callback of the callback server, on the session [this]. *)
Definition callback (req : callback_request) : Method callback_outcome :=
  if String.eqb (cb_pathname req) "/oauth2callback" then
    if truthy (opt_str (cb_error req)) then ret (Exit 1)
    else
      match cb_code req with
      | Some code =>
          if is_empty code then
            ret (Reply 400 (PlainPage "No authorization code received") None)
          else
            try_catch
              (exchangeCodeForTokens code ;; ret (Reply 200 SuccessPage (Some 0)))
              (fun _ => ret (Exit 1))
      | None => ret (Reply 400 (PlainPage "No authorization code received") None)
      end
  else ret (Reply 404 (PlainPage "Not found") None).

(** [runAuthFlow] up to the point where the callback server listens. *)
Definition runAuthFlow : M World flow_outcome :=
  fun w =>
    match new_GoogleOAuth
            (Some {| explicitClientId := None; explicitClientSecret := None;
                     explicitRedirectUri := Some CALLBACK_URI |}) w with
    | (Throw _, w') => (Ok (FlowExit 1), w')
    | (Ok oauth, w') =>
        match loadTokens (oauth, w') with
        | (Ok true, (_, w'')) => (Ok (FlowExit 0), w'')
        | (Ok false, (oauth', w'')) => (Ok (Listening oauth'), w'')
        | (Throw e, (_, w'')) => (Throw e, w'')
        end
    end.

End WithRuntime.
End AuthFlow.

(** ** A validated call as a [tools/call] request *)

Module Wire.
Import Text Js Runtime Tools Server.

Definition tool_name (c : tool_call) : string :=
  match c with
  | GetDocument _ => "get_document"
  | ListDocuments _ _ => "list_documents"
  | GetSpreadsheet _ => "get_spreadsheet"
  | GetSheetData _ _ => "get_sheet_data"
  | ListSpreadsheets _ _ => "list_spreadsheets"
  end.

Definition query_field (query : option string) : list (string * value) :=
  match query with
  | Some q => [("query", VStr q)]
  | None => []
  end.

(** The [arguments] object that carries the call. *)
Definition tool_arguments (c : tool_call) : value :=
  match c with
  | GetDocument documentId => VObj [("documentId", VStr documentId)]
  | ListDocuments limit query => VObj (("limit", VNum limit) :: query_field query)
  | GetSpreadsheet spreadsheetId => VObj [("spreadsheetId", VStr spreadsheetId)]
  | GetSheetData spreadsheetId range =>
      VObj [("spreadsheetId", VStr spreadsheetId); ("range", VStr range)]
  | ListSpreadsheets limit query => VObj (("limit", VNum limit) :: query_field query)
  end.

(** The payload of a listing for an outcome of the call of the Drive
    client: the rendered entries, or the error of the call. *)
Definition listing_payload (none_found noun : string)
    (answer : string + option (list DriveFile)) : payload :=
  match answer with
  | inl msg => error_payload (Exn RemoteError msg)
  | inr found => render_files none_found noun (map to_document_info (default [] found))
  end.

(** The limit of a listing is not zero. *)
Definition limit_given (c : tool_call) : Prop :=
  match c with
  | ListDocuments limit _ | ListSpreadsheets limit _ => limit <> 0
  | _ => True
  end.

End Wire.

(** ** A remote side that grants

    The counterpart of [Sample.remote]: the token endpoint grants, the
    Docs service returns a small document and Drive one file. *)

Module Consent.
Import Text Js Runtime OAuth Tools AuthFlow.

Definition report : Document :=
  {| doc_documentId := Some "1a-B_c9";
     doc_title := Some "Report";
     doc_content :=
       Some [ Paragraph [Some "  Hello "; None; Some "world"];
              SectionBreak;
              Table [ [ [Paragraph [Some "a"]]; [Paragraph [Some "b"]] ] ] ] |}.

Definition budget : DriveFile :=
  {| f_id := Some "s1"; f_name := Some EmptyString; f_mimeType := None;
     f_modifiedTime := Some EmptyString; f_webViewLink := None |}.

Definition remote : Remote :=
  {| oauth_getToken := fun _ => inr Sample.granted;
     oauth_refreshToken := fun _ => inr Sample.access_only;
     documents_get := fun _ => inr report;
     spreadsheets_get := fun _ => inl "Requested entity was not found.";
     values_get := fun _ _ => inr {| vr_range := None; vr_values := None |};
     files_list := fun _ _ => inr (Some [budget]) |}.

(** The run of [getDocument] on the report, and the document it
    returns. *)
Definition fetched : Js.result DocumentContent * Process :=
  getDocument (H := MiniJson.runtime) (H0 := remote) (VStr "1a-B_c9")
    (Sample.process Sample.signed_in).

Definition fetched_document : DocumentContent :=
  match fst fetched with
  | Ok doc => doc
  | Throw _ => {| dc_id := VUndef; dc_title := EmptyString; dc_body := EmptyString |}
  end.

(** A redirect that carries a code, and one that carries an error next
    to it. *)
Definition redirect : callback_request :=
  {| cb_pathname := "/oauth2callback"; cb_code := Some "4/0AX4"; cb_error := None |}.

Definition refused : callback_request :=
  {| cb_pathname := "/oauth2callback"; cb_code := Some "4/0AX4";
     cb_error := Some "access_denied" |}.

(** A session that holds the granted tokens, and a process that has
    built its session on an empty disk. *)
Definition holding : GoogleOAuth := Sample.session_with (tokens_to_value Sample.granted).

Definition started : Process :=
  {| world := Sample.fresh; oauthInstance := Some (Sample.session_with (VObj [])) |}.

(** A Drive that rejects a page size of zero and lists one file
    otherwise. *)
Definition paging : Remote :=
  {| oauth_getToken := fun _ => inr Sample.granted;
     oauth_refreshToken := fun _ => inr Sample.access_only;
     documents_get := fun _ => inr report;
     spreadsheets_get := fun _ => inl "Requested entity was not found.";
     values_get := fun _ _ => inr {| vr_range := None; vr_values := None |};
     files_list := fun _ pageSize =>
       match pageSize with
       | VNum 0 => inl "Invalid value '0'. Values must be within the range: [1, 1000]"
       | _ => inr (Some [budget])
       end |}.

(** The token path is taken by a directory. *)
Definition blocked : World :=
  {| files := ∅; dirs := {[ "/app/.credentials"; Sample.tokens_path ]};
     env := Sample.environment; cwd := "/app"; trace := [] |}.

(** The port is taken from [MCP_PORT]. *)
Definition with_port : World :=
  {| files := ∅; dirs := ∅;
     env := <["MCP_PORT" := "8080"]> (<["PORT" := "9090"]> Sample.environment);
     cwd := "/app"; trace := [] |}.

End Consent.
(** * Properties *)

(** ** Text and identifier extraction *)

Section TextFacts.
Import Text.

Lemma append_cons (c : ascii) (a b : string) :
  String c a +:+ b = String c (a +:+ b).
Proof. reflexivity. Qed.

Lemma append_empty (b : string) : EmptyString +:+ b = b.
Proof. reflexivity. Qed.

Lemma append_assoc (a b c : string) : (a +:+ b) +:+ c = a +:+ (b +:+ c).
Proof.
  induction a as [|x a IH]; [reflexivity|].
  rewrite !append_cons, IH. reflexivity.
Qed.

Lemma length_append (a b : string) :
  String.length (a +:+ b) = (String.length a + String.length b)%nat.
Proof.
  induction a as [|x a IH]; [reflexivity|].
  rewrite append_cons. cbn [String.length]. rewrite IH. reflexivity.
Qed.

Lemma strip_prefix_app (p r : string) : strip_prefix p (p +:+ r) = Some r.
Proof.
  induction p as [|a p IH]; [reflexivity|].
  rewrite append_cons. simpl. rewrite Ascii.eqb_refl. exact IH.
Qed.

Lemma strip_prefix_inv (p s r : string) :
  strip_prefix p s = Some r -> s = p +:+ r.
Proof.
  revert s. induction p as [|a p IH]; intros s; simpl.
  - intros [= ->]. reflexivity.
  - destruct s as [|b s]; [discriminate|].
    destruct (Ascii.eqb a b) eqn:E; [|discriminate].
    apply Ascii.eqb_eq in E. subst b. intros H. rewrite append_cons. f_equal. apply IH, H.
Qed.

Lemma all_chars_app (P : ascii -> bool) (a b : string) :
  all_chars P (a +:+ b) = (all_chars P a && all_chars P b)%bool.
Proof.
  induction a as [|c a IH]; [reflexivity|].
  rewrite append_cons. simpl. rewrite IH. apply andb_assoc.
Qed.

(** A text made of characters of a class cannot contain a needle that
    has a character outside the class. *)
Lemma includes_outside_class (P : ascii -> bool) (needle s : string) :
  all_chars P s = true -> all_chars P needle = false ->
  includes needle s = false.
Proof.
  intros Hs Hn. induction s as [|c s IH].
  - simpl. destruct (strip_prefix needle EmptyString) eqn:E; [|reflexivity].
    apply strip_prefix_inv in E. destruct needle; [discriminate|discriminate].
  - simpl in Hs. apply andb_prop in Hs as [Hc Hr].
    change (includes needle (String c s))
      with (match strip_prefix needle (String c s) with
            | Some _ => true
            | None => includes needle s
            end).
    destruct (strip_prefix needle (String c s)) eqn:E.
    + apply strip_prefix_inv in E.
      assert (all_chars P (String c s) = true) as Hall by (simpl; rewrite Hc, Hr; reflexivity).
      rewrite E, all_chars_app, Hn in Hall. discriminate.
    + apply IH, Hr.
Qed.

Lemma take_id_run (id rest : string) :
  all_chars is_id_char id = true -> head_is is_id_char rest = false ->
  take_id (id +:+ rest) = id.
Proof.
  intros Hid Hrest. induction id as [|c id IH].
  - rewrite append_empty. destruct rest as [|c r]; [reflexivity|].
    simpl in *. rewrite Hrest. reflexivity.
  - simpl in Hid. apply andb_prop in Hid as [Hc Hr].
    rewrite append_cons. simpl. rewrite Hc, (IH Hr). reflexivity.
Qed.

Lemma regex_capture_unfold (lit s : string) :
  regex_capture lit s =
  let later :=
    match s with
    | EmptyString => None
    | String _ r => regex_capture lit r
    end in
  match strip_prefix lit s with
  | Some rest =>
      match take_id rest with
      | EmptyString => later
      | id => Some id
      end
  | None => later
  end.
Proof. destruct s; reflexivity. Qed.

Lemma includes_unfold (needle s : string) :
  includes needle s =
  match strip_prefix needle s with
  | Some _ => true
  | None =>
      match s with
      | EmptyString => false
      | String _ r => includes needle r
      end
  end.
Proof. destruct s; reflexivity. Qed.

(** The pattern matches where its literal stands in front of a
    non-empty run of identifier characters. *)
Lemma regex_capture_found (lit s rest id : string) :
  strip_prefix lit s = Some rest -> take_id rest = id -> id <> EmptyString ->
  regex_capture lit s = Some id.
Proof.
  intros Hlit Hid Hne. rewrite regex_capture_unfold, Hlit, Hid.
  destruct id; [congruence|reflexivity].
Qed.

Lemma includes_found (needle s rest : string) :
  strip_prefix needle s = Some rest -> includes needle s = true.
Proof. intros H. rewrite includes_unfold, H. reflexivity. Qed.

(** Skipping a character where the literal does not start. *)
Lemma regex_capture_skip (lit : string) (c : ascii) (s : string) :
  strip_prefix lit (String c s) = None ->
  regex_capture lit (String c s) = regex_capture lit s.
Proof. intros H. rewrite regex_capture_unfold, H. reflexivity. Qed.

Lemma includes_skip (needle : string) (c : ascii) (s : string) :
  strip_prefix needle (String c s) = None ->
  includes needle (String c s) = includes needle s.
Proof. intros H. rewrite includes_unfold, H. reflexivity. Qed.

End TextFacts.

Section IdentifierFacts.
Import Text Ids.

Ltac skip_to_literal :=
  repeat (first
    [ rewrite regex_capture_skip by reflexivity
    | rewrite includes_skip by reflexivity ]).

Lemma document_url (id rest : string) :
  is_identifier id -> head_is is_id_char rest = false ->
  extractDocumentId ("https://docs.google.com/document/d/" +:+ id +:+ rest) = id.
Proof.
  intros [Hid Hne] Hrest. unfold extractDocumentId.
  repeat rewrite append_cons. rewrite append_empty.
  skip_to_literal.
  erewrite includes_found by reflexivity.
  erewrite regex_capture_found;
    [reflexivity | reflexivity | apply take_id_run; assumption | assumption].
Qed.

Lemma spreadsheet_url (id rest : string) :
  is_identifier id -> head_is is_id_char rest = false ->
  extractSpreadsheetId ("https://docs.google.com/spreadsheets/d/" +:+ id +:+ rest) = id.
Proof.
  intros [Hid Hne] Hrest. unfold extractSpreadsheetId.
  repeat rewrite append_cons. rewrite append_empty.
  skip_to_literal.
  erewrite includes_found by reflexivity.
  erewrite regex_capture_found;
    [reflexivity | reflexivity | apply take_id_run; assumption | assumption].
Qed.

Lemma bare_identifier (s : string) :
  all_chars is_id_char s = true ->
  extractDocumentId s = s /\ extractSpreadsheetId s = s.
Proof.
  intros Hs. unfold extractDocumentId, extractSpreadsheetId.
  rewrite (includes_outside_class is_id_char "docs.google.com" s Hs eq_refl).
  rewrite (includes_outside_class is_id_char "docs.google.com/spreadsheets" s Hs eq_refl).
  split; reflexivity.
Qed.

(** C7.  Identifier extraction: the example of the specification; a
    browser URL of either kind yields the identifier that follows the
    [/d/] segment; whenever the gate and the pattern both succeed the
    result is the pattern's capture; a bare identifier is returned
    unchanged; and an input on which the pattern does not match is
    returned unchanged. *)
Theorem identifier_extraction :
  extractDocumentId "https://docs.google.com/document/d/ABC123/edit" = "ABC123"
  /\ extractDocumentId "ABC123" = "ABC123"
  /\ (forall id rest, is_identifier id -> head_is is_id_char rest = false ->
        extractDocumentId ("https://docs.google.com/document/d/" +:+ id +:+ rest) = id
        /\ extractSpreadsheetId ("https://docs.google.com/spreadsheets/d/" +:+ id +:+ rest) = id)
  /\ (forall s id, includes "docs.google.com" s = true ->
        regex_capture "/document/d/" s = Some id -> extractDocumentId s = id)
  /\ (forall s id, includes "docs.google.com/spreadsheets" s = true ->
        regex_capture "/spreadsheets/d/" s = Some id -> extractSpreadsheetId s = id)
  /\ (forall s, all_chars is_id_char s = true ->
        extractDocumentId s = s /\ extractSpreadsheetId s = s)
  /\ (forall s, regex_capture "/document/d/" s = None -> extractDocumentId s = s)
  /\ (forall s, regex_capture "/spreadsheets/d/" s = None -> extractSpreadsheetId s = s).
Proof.
  repeat split.
  - apply document_url; assumption.
  - apply spreadsheet_url; assumption.
  - intros s id Hgate Hcap. unfold extractDocumentId. rewrite Hgate, Hcap. reflexivity.
  - intros s id Hgate Hcap. unfold extractSpreadsheetId. rewrite Hgate, Hcap. reflexivity.
  - apply bare_identifier; assumption.
  - apply bare_identifier; assumption.
  - intros s Hnone. unfold extractDocumentId. rewrite Hnone. destruct (includes _ _); reflexivity.
  - intros s Hnone. unfold extractSpreadsheetId. rewrite Hnone. destruct (includes _ _); reflexivity.
Qed.

End IdentifierFacts.

(** ** The credential manager *)

(** Unfolds the monad and the file-system primitives, leaving map
    lookups, decisions and strings alone. *)
Ltac run_monad :=
  cbv beta iota zeta delta
    [Monad.bind Monad.ret Monad.throw Monad.try_catch Monad.gets Monad.modify
     Monad.lift_result Runtime.existsSync Runtime.readFileSync Runtime.parse_json
     Runtime.getenv Runtime.log Runtime.remote_call Runtime.mkdirSync
     OAuth.in_world OAuth.in_process OAuth.invoke OAuth.setCredentials fst snd negb orb].

Section MonadFacts.
Import Js Monad.
Context {S : Type}.

Lemma bind_assoc {A B C} (m : M S A) (f : A -> M S B) (g : B -> M S C) (s : S) :
  bind (bind m f) g s = bind m (fun x => bind (f x) g) s.
Proof. unfold bind. destruct (m s) as [[a|e] s']; reflexivity. Qed.

Lemma bind_of_ok {A B} (m : M S A) (k : A -> M S B) (s s' : S) (a : A) :
  m s = (Ok a, s') -> bind m k s = k a s'.
Proof. intros H. unfold bind. rewrite H. reflexivity. Qed.

End MonadFacts.

Section OAuthFacts.
Import Text Js Monad Runtime OAuth Stored.
Context `{!JsonRuntime} `{!Remote}.

Lemma usable_tokens_add_event (path : string) (e : event) (w : World) :
  usable_tokens path (add_event e w) = usable_tokens path w.
Proof. reflexivity. Qed.

Lemma resolve_add_event (config : option PartialConfig) (e : event) (w : World) :
  resolve config (add_event e w) = resolve config w.
Proof. reflexivity. Qed.

(** [loadTokens] reads only: it installs what the token file offers. *)
Lemma loadTokens_eq (this : GoogleOAuth) (w : World) :
  loadTokens (this, w) =
  match usable_tokens (credentialsPath this) w with
  | Some tokens => (Ok true, (with_credentials this tokens, w))
  | None => (Ok false, (this, w))
  end.
Proof.
  unfold loadTokens, usable_tokens. run_monad.
  destruct (files w !! credentialsPath this) as [content|] eqn:Hfile.
  - rewrite bool_decide_eq_true_2 by eauto. run_monad. rewrite Hfile.
    destruct (JSON_parse content) as [tokens|]; [|reflexivity].
    destruct (prop tokens "refresh_token") as [refresh|]; [|reflexivity].
    destruct (truthy refresh); reflexivity.
  - rewrite bool_decide_eq_false_2 by (intros [? ?]; discriminate).
    destruct (bool_decide (credentialsPath this ∈ dirs w));
      run_monad; rewrite ?Hfile; reflexivity.
Qed.

Lemma probe_eq (path : string) (w : World) :
  (let* present := existsSync path in
   if present
   then try_catch (readClientSecret path) (fun _ => ret None)
   else ret None) w = (Ok (usable_secret path w), w).
Proof.
  unfold usable_secret, secret_config, readClientSecret. run_monad.
  destruct (files w !! path) as [content|] eqn:Hfile.
  - rewrite bool_decide_eq_true_2 by eauto. run_monad. rewrite Hfile.
    destruct (JSON_parse content) as [secret|]; [|reflexivity].
    destruct (prop secret "installed") as [installed|]; [|reflexivity].
    destruct (truthy (js_or installed (get secret "web"))); reflexivity.
  - rewrite bool_decide_eq_false_2 by (intros [? ?]; discriminate).
    destruct (bool_decide (path ∈ dirs w)); run_monad; rewrite ?Hfile; reflexivity.
Qed.

Lemma probePaths_eq (paths : list string) (w : World) :
  probePaths paths w = (Ok (first_usable paths w), w).
Proof.
  induction paths as [|path rest IH]; [reflexivity|].
  cbn [probePaths first_usable].
  rewrite <- bind_assoc. erewrite bind_of_ok by apply probe_eq.
  destruct (usable_secret path w); [reflexivity|exact IH].
Qed.

(** The constructor reads only, and comes to [resolve]. *)
Lemma new_GoogleOAuth_eq (config : option PartialConfig) (w : World) :
  new_GoogleOAuth config w = (resolve config w, w).
Proof.
  unfold new_GoogleOAuth.
  erewrite bind_of_ok by reflexivity.
  erewrite bind_of_ok by reflexivity.
  assert (match js_or (opt_str (env w !! "GOOGLE_CREDENTIALS_PATH")) (VStr (cwd w)) with
          | VStr s => s
          | _ => cwd w
          end = base_dir w) as ->.
  { unfold base_dir. destruct (env w !! "GOOGLE_CREDENTIALS_PATH") as [s|]; [|reflexivity].
    destruct s; reflexivity. }
  erewrite bind_of_ok by apply probePaths_eq.
  erewrite bind_of_ok by reflexivity.
  erewrite bind_of_ok by reflexivity.
  unfold resolve, resolved_clientId, resolved_clientSecret, resolved_redirectUri,
    sources, first_present, missing, env_value.
  destruct (_ || _)%bool; reflexivity.
Qed.

Lemma getOAuthInstance_eq (p : Process) :
  getOAuthInstance p =
  match session p with
  | Ok o => (Ok o, {| world := world p; oauthInstance := Some o |})
  | Throw e => (Throw e, p)
  end.
Proof.
  unfold getOAuthInstance, session. destruct p as [w [o|]]; cbn [oauthInstance world].
  - reflexivity.
  - rewrite new_GoogleOAuth_eq. destruct (resolve None w); reflexivity.
Qed.

Lemma ensureAuthenticated_eq (p : Process) :
  ensureAuthenticated p =
  match session p with
  | Ok o =>
      match usable_tokens (credentialsPath o) (world p) with
      | Some tokens =>
          (Ok tt, {| world := world p; oauthInstance := Some (with_credentials o tokens) |})
      | None =>
          (Throw (Exn PlainError NOT_AUTHENTICATED),
           {| world := world p; oauthInstance := Some o |})
      end
  | Throw e => (Throw e, p)
  end.
Proof.
  unfold ensureAuthenticated, bind at 1. rewrite getOAuthInstance_eq.
  destruct (session p) as [o|e]; [|reflexivity].
  unfold bind, invoke. cbn [world]. rewrite loadTokens_eq.
  destruct (usable_tokens (credentialsPath o) (world p)); reflexivity.
Qed.

Lemma get_refresh_token (t : StoredTokens) :
  get (tokens_to_value t) "refresh_token" = opt_str (refresh_token t).
Proof.
  destruct t as [a r x y z]. unfold tokens_to_value. cbn [access_token refresh_token
    expiry_date token_type scope].
  destruct a, r, x, y, z; reflexivity.
Qed.

Lemma truthy_opt_str_refresh (t : StoredTokens) :
  truthy (opt_str (refresh_token t)) = has_refresh_token t.
Proof. unfold has_refresh_token. destruct (refresh_token t); reflexivity. Qed.

Lemma isAuthenticated_eq (this : GoogleOAuth) (w : World) :
  isAuthenticated (this, w)
  = (Ok (truthy (get (credentials this) "refresh_token")), (this, w)).
Proof.
  unfold isAuthenticated, bind, gets, ret, js_and. cbn [fst].
  destruct (truthy (credentials this)) eqn:E; [reflexivity|].
  rewrite E. destruct (credentials this); try discriminate; reflexivity.
Qed.

(** C6.  [isAuthenticated] is decided by the refresh token of the
    credentials held in memory and by nothing else: it is false for
    credentials without a (non-empty) refresh token, whatever the access
    token, and true otherwise; it returns the state it was given, so no
    call of any kind (in particular no remote call) is made. *)
Theorem isAuthenticated_refresh_token_only :
  (forall (this : GoogleOAuth) (w : World) (t : StoredTokens),
     isAuthenticated (with_credentials this (tokens_to_value t), w)
     = (Ok (has_refresh_token t), (with_credentials this (tokens_to_value t), w)))
  /\ (forall (this : GoogleOAuth) (w : World) (access : string) expiry type scope,
        fst (isAuthenticated
               (with_credentials this
                  (tokens_to_value
                     {| access_token := Some access; refresh_token := None;
                        expiry_date := expiry; token_type := type; scope := scope |}), w))
        = Ok false)
  /\ (forall (this : GoogleOAuth) (w : World),
        isAuthenticated (this, w)
        = (Ok (truthy (get (credentials this) "refresh_token")), (this, w))).
Proof.
  split; [|split].
  - intros this w t. rewrite isAuthenticated_eq. cbn [credentials with_credentials].
    rewrite get_refresh_token, truthy_opt_str_refresh. reflexivity.
  - intros this w access expiry type scope. rewrite isAuthenticated_eq.
    cbn [credentials with_credentials fst]. rewrite get_refresh_token. reflexivity.
  - apply isAuthenticated_eq.
Qed.

(** C3, as amended.  Each of [clientId] and [clientSecret] is the first
    truthy value among the explicit override, the file source and the
    environment variable, where the file source is the first of the two
    candidates that is a regular file, parses and carries an [installed]
    or [web] section; a candidate that does not parse is passed over;
    the constructor only reads, and it throws the configuration error
    exactly when one of the two fields is missing after all sources.
    The last part spells out "first truthy": the first source if it is
    truthy, else the second if it is truthy, else the third. *)
Theorem credential_resolution (config : option PartialConfig) (w : World) :
  let file := first_usable (possiblePaths (base_dir w)) w in
  let id :=
    first_present [ explicit explicitClientId config; from_file clientId file;
                    env_value w "GOOGLE_CLIENT_ID" ] in
  let secret :=
    first_present [ explicit explicitClientSecret config; from_file clientSecret file;
                    env_value w "GOOGLE_CLIENT_SECRET" ] in
  snd (new_GoogleOAuth config w) = w
  /\ (fst (new_GoogleOAuth config w) = Throw (Exn PlainError CREDENTIALS_NOT_FOUND)
       <-> missing id = true \/ missing secret = true)
  /\ (missing id = false -> missing secret = false ->
       exists o, fst (new_GoogleOAuth config w) = Ok o
                 /\ clientId (oauthConfig o) = id
                 /\ clientSecret (oauthConfig o) = secret)
  /\ (forall path rest content,
        files w !! path = Some content -> JSON_parse content = None ->
        first_usable (path :: rest) w = first_usable rest w)
  /\ (forall a b c : value,
        first_present [a; b; c] = if truthy a then a else if truthy b then b else c).
Proof.
  intros file id secret. rewrite new_GoogleOAuth_eq. cbn [fst snd].
  unfold resolve, resolved_clientId, resolved_clientSecret, sources.
  fold file. fold id. fold secret.
  split; [reflexivity|]. split; [|split; [|split; [|reflexivity]]].
  - destruct (missing id) eqn:Hid, (missing secret) eqn:Hs; cbn [orb]; split;
      try (intros; reflexivity); try (intros _; auto; fail); try discriminate.
    intros [?|?]; discriminate.
  - intros Hid Hs. rewrite Hid, Hs. cbn [orb]. eexists. split; [reflexivity|].
    split; reflexivity.
  - intros path rest content Hfile Hparse. cbn [first_usable]. unfold usable_secret.
    rewrite Hfile, Hparse. reflexivity.
Qed.

Lemma prop_of_truthy_get (v : value) (k : string) :
  truthy (get v k) = true -> prop v k = Ok (get v k).
Proof. destruct v; try discriminate; reflexivity. Qed.

(** C2, as amended.  When the token endpoint rejects the refresh token
    the session holds, [refreshAccessToken] throws the endpoint's error
    to its caller after a single request, writes nothing, and leaves the
    session as it was: [isAuthenticated] still answers [true]. *)
Theorem refresh_rejection_is_surfaced (this : GoogleOAuth) (w : World) (msg : string) :
  truthy (get (credentials this) "refresh_token") = true ->
  oauth_refreshToken (get (credentials this) "refresh_token") = inl msg ->
  refreshAccessToken (this, w)
  = (Throw (Exn RemoteError msg), (this, add_event (EvRemote "oauth2/token") w))
  /\ fst (isAuthenticated (snd (refreshAccessToken (this, w)))) = Ok true.
Proof.
  intros Hheld Hreject.
  assert (refreshAccessToken (this, w)
          = (Throw (Exn RemoteError msg), (this, add_event (EvRemote "oauth2/token") w)))
    as Hrun.
  { unfold refreshAccessToken, client_refreshAccessToken. run_monad.
    rewrite (prop_of_truthy_get _ _ Hheld), Hheld, Hreject. reflexivity. }
  split; [exact Hrun|].
  rewrite Hrun. cbn [snd]. rewrite isAuthenticated_eq. cbn [fst]. rewrite Hheld.
  reflexivity.
Qed.

Lemma cuts_shorter (s a : string) :
  In a (cuts s) -> (String.length a < String.length s)%nat.
Proof.
  revert a. induction s as [|c s IH]; intros a; [intros []|].
  cbn [cuts]. rewrite in_app_iff, in_map_iff. intros [Hroot|(b & <- & Hb)].
  - destruct (Nat.eqb (code c) 47); [|destruct Hroot].
    destruct Hroot as [<-|[]]. cbn. lia.
  - cbn [String.length]. apply IH in Hb. lia.
Qed.

Lemma before_last_slash_shorter (p d : string) :
  before_last_slash p = Some d -> (String.length d < String.length p)%nat.
Proof.
  revert d. induction p as [|c p IH]; intros d; [discriminate|].
  cbn [before_last_slash]. destruct (before_last_slash p) as [d'|].
  - intros [= <-]. cbn [String.length]. specialize (IH d' eq_refl). lia.
  - destruct (Nat.eqb (code c) 47); [|discriminate].
    intros [= <-]. cbn. lia.
Qed.

(** The directories made for a file never include the file's own path. *)
Lemma path_not_above_itself (p : string) :
  dirname p <> p -> ~ In p (ancestors (dirname p) ++ [dirname p]).
Proof.
  intros Hne Hin. apply in_app_iff in Hin as [Hin|[Heq|[]]]; [|congruence].
  unfold dirname in Hin.
  destruct (before_last_slash p) as [[|c d]|] eqn:Hd; [destruct Hin| |destruct Hin].
  unfold ancestors in Hin. apply filter_In in Hin as [Hin _].
  apply cuts_shorter in Hin. apply before_last_slash_shorter in Hd. lia.
Qed.

Lemma no_file_on_the_way (w : World) (chain : list string) :
  Forall (fun a => files w !! a = None) chain -> existsb (is_file w) chain = false.
Proof.
  induction 1 as [|a chain Ha _ IH]; [reflexivity|].
  cbn [existsb]. unfold is_file at 1. rewrite Ha.
  rewrite bool_decide_eq_false_2 by (intros [? ?]; discriminate). exact IH.
Qed.

(** The token file after [saveTokens]: the parent directory exists and
    the file holds exactly the encoding. *)
Lemma saveTokens_eq (this : GoogleOAuth) (w : World) (tokens : value) (text : string) :
  JSON_stringify tokens = Some text ->
  writable (credentialsPath this) w ->
  exists w',
    saveTokens tokens (this, w) = (Ok tt, (this, w'))
    /\ files w' = <[credentialsPath this := text]> (files w)
    /\ dirname (credentialsPath this) ∈ dirs w'
    /\ env w' = env w /\ cwd w' = cwd w
    /\ trace w' = trace w ++ [EvWrite (credentialsPath this)].
Proof.
  intros Htext (Hnodir & Hentry & Hway).
  pose proof (no_file_on_the_way w _ Hway) as Hfree.
  assert (files w !! dirname (credentialsPath this) = None) as Hdir.
  { apply Forall_app in Hway as [_ Hlast]. inversion Hlast. assumption. }
  unfold saveTokens, writeFileSync. rewrite Htext. run_monad.
  rewrite bool_decide_eq_false_2 by (rewrite Hdir; intros [? ?]; discriminate).
  destruct (bool_decide (dirname (credentialsPath this) ∈ dirs w)) eqn:Hin; run_monad.
  - rewrite (bool_decide_eq_false_2 _ Hnodir). unfold is_file. rewrite Hdir.
    rewrite bool_decide_eq_false_2 by (intros [? ?]; discriminate).
    rewrite Hin. eexists. split; [reflexivity|]. cbn.
    apply bool_decide_eq_true_1 in Hin. auto 6.
  - rewrite Hfree. cbn [set_dirs dirs files].
    rewrite bool_decide_eq_false_2.
    2:{ rewrite elem_of_union, elem_of_list_to_set, list_elem_of_In.
        intros [Hself|Hdirs]; [|contradiction].
        exact (path_not_above_itself _ Hentry Hself). }
    unfold is_file. cbn [set_dirs files dirs]. rewrite Hdir.
    rewrite bool_decide_eq_false_2 by (intros [? ?]; discriminate).
    rewrite bool_decide_eq_true_2.
    2:{ rewrite elem_of_union, elem_of_list_to_set, list_elem_of_In, in_app_iff.
        left. right. left. reflexivity. }
    eexists. split; [reflexivity|]. cbn. repeat split.
    rewrite elem_of_union, elem_of_list_to_set, list_elem_of_In, in_app_iff.
    left. right. left. reflexivity.
Qed.

(** After [saveTokens], [loadTokens] finds what was saved, provided the
    codec reads it back. *)
Lemma saveTokens_then_loadTokens (this : GoogleOAuth) (w : World) (t : StoredTokens)
    (text : string) :
  JSON_stringify (tokens_to_value t) = Some text ->
  JSON_parse text = Some (tokens_to_value t) ->
  writable (credentialsPath this) w ->
  exists w',
    saveTokens (tokens_to_value t) (this, w) = (Ok tt, (this, w'))
    /\ files w' = <[credentialsPath this := text]> (files w)
    /\ dirname (credentialsPath this) ∈ dirs w'
    /\ loadTokens (this, w')
        = if has_refresh_token t
          then (Ok true, (with_credentials this (tokens_to_value t), w'))
          else (Ok false, (this, w')).
Proof.
  intros Htext Hparse Hdir.
  destruct (saveTokens_eq this w _ text Htext Hdir) as (w' & Hsave & Hfiles & Hdirs & _).
  exists w'. repeat split; try assumption.
  rewrite loadTokens_eq. unfold usable_tokens.
  rewrite Hfiles, lookup_insert_eq, Hparse.
  assert (prop (tokens_to_value t) "refresh_token" = Ok (opt_str (refresh_token t))) as ->.
  { rewrite <- get_refresh_token. reflexivity. }
  rewrite truthy_opt_str_refresh. destruct (has_refresh_token t); reflexivity.
Qed.

(** The token path of a session made by the constructor lies directly
    in the credentials directory. *)
Lemma before_last_slash_file (dir : string) :
  before_last_slash (dir +:+ "/tokens.json") = Some dir.
Proof.
  induction dir as [|c dir IH]; [reflexivity|].
  rewrite append_cons. cbn [before_last_slash]. rewrite IH. reflexivity.
Qed.

Lemma dirname_tokens_path (base : string) :
  dirname (path_join [base; CREDENTIALS_DIR; TOKENS_FILE])
  = path_join [base; CREDENTIALS_DIR].
Proof.
  unfold dirname.
  change (path_join [base; CREDENTIALS_DIR; TOKENS_FILE])
    with (base +:+ "/" +:+ ".credentials" +:+ "/tokens.json").
  change (path_join [base; CREDENTIALS_DIR]) with (base +:+ "/" +:+ ".credentials").
  rewrite <- !append_assoc, before_last_slash_file, !append_assoc.
  destruct base; reflexivity.
Qed.

(** A session made by the constructor keeps its tokens in the
    credentials directory of the base directory. *)
Lemma new_session_directory (config : option PartialConfig) (w : World) (o : GoogleOAuth) :
  fst (new_GoogleOAuth config w) = Ok o ->
  dirname (credentialsPath o) = path_join [base_dir w; CREDENTIALS_DIR].
Proof.
  rewrite new_GoogleOAuth_eq. cbn [fst]. unfold resolve.
  destruct (_ || _)%bool; [discriminate|].
  intros [= <-]. cbn [credentialsPath]. apply dirname_tokens_path.
Qed.

End OAuthFacts.

(** ** The dispatcher and the handlers *)

Section ServerFacts.
Import Text Js Monad Runtime OAuth Tools Server Stored Ids.
Context `{!JsonRuntime} `{!Remote}.

Lemma log_eq (e : event) (p : Process) :
  in_process (log e) p = (Ok tt, logged e p).
Proof. reflexivity. Qed.

Lemma checkAuth_eq (p : Process) :
  checkAuth p =
  match session p with
  | Ok o =>
      match usable_tokens (credentialsPath o) (world p) with
      | Some tokens =>
          (Ok true, {| world := add_event EvAuthCheck (world p);
                       oauthInstance := Some (with_credentials o tokens) |})
      | None =>
          (Ok false, {| world := add_event EvAuthCheck (world p);
                        oauthInstance := Some o |})
      end
  | Throw _ => (Ok false, logged EvAuthCheck p)
  end.
Proof.
  unfold checkAuth. erewrite bind_of_ok by apply log_eq.
  unfold try_catch, bind at 1. rewrite getOAuthInstance_eq.
  assert (session (logged EvAuthCheck p) = session p) as ->.
  { unfold session, logged. cbn [oauthInstance world]. destruct (oauthInstance p); reflexivity. }
  destruct (session p) as [o|e]; [|reflexivity].
  unfold invoke. cbn [world logged]. rewrite loadTokens_eq, usable_tokens_add_event.
  destruct (usable_tokens (credentialsPath o) (world p)); reflexivity.
Qed.

(** The gate never throws. *)
Lemma checkAuth_total (p : Process) : exists b, fst (checkAuth p) = Ok b.
Proof.
  rewrite checkAuth_eq. destruct (session p) as [o|e]; [|eauto].
  destruct (usable_tokens _ _); eauto.
Qed.

Lemma checkAuth_true (p : Process) :
  fst (checkAuth p) = Ok true ->
  exists p', checkAuth p = (Ok true, p') /\ authenticated p'.
Proof.
  rewrite checkAuth_eq. destruct (session p) as [o|e] eqn:Hs; [|discriminate].
  destruct (usable_tokens (credentialsPath o) (world p)) as [tokens|] eqn:Ht; [|discriminate].
  intros _. eexists. split; [reflexivity|].
  exists (with_credentials o tokens), tokens. split; [reflexivity|].
  cbn [world credentialsPath with_credentials]. rewrite usable_tokens_add_event. exact Ht.
Qed.

(** The gate is open exactly in the authenticated processes. *)
Lemma checkAuth_iff (p : Process) :
  fst (checkAuth p) = Ok true <-> authenticated p.
Proof.
  rewrite checkAuth_eq. unfold authenticated. split.
  - destruct (session p) as [o|e]; [|discriminate].
    destruct (usable_tokens (credentialsPath o) (world p)) as [tokens|] eqn:Ht;
      [|discriminate].
    intros _. exists o, tokens. split; [reflexivity|exact Ht].
  - intros (o & tokens & -> & ->). reflexivity.
Qed.

Lemma authenticated_logged (e : event) (p : Process) :
  authenticated p -> authenticated (logged e p).
Proof.
  intros (o & tokens & Hs & Ht). exists o, tokens. split.
  - revert Hs. unfold session, logged. cbn [oauthInstance world].
    destruct (oauthInstance p); [trivial|]. rewrite resolve_add_event. trivial.
  - cbn [logged world]. rewrite usable_tokens_add_event. exact Ht.
Qed.

Lemma authenticated_ensure (p : Process) :
  authenticated p -> exists p', ensureAuthenticated p = (Ok tt, p').
Proof.
  intros (o & tokens & Hs & Ht). rewrite ensureAuthenticated_eq, Hs, Ht. eauto.
Qed.

Lemma remote_call_eq {A} (endpoint : string) (answer : string + A) (p : Process) :
  in_process (remote_call endpoint answer) p =
  (match answer with
   | inl msg => Throw (Exn RemoteError msg)
   | inr a => Ok a
   end, logged (EvRemote endpoint) p).
Proof. unfold in_process, remote_call. run_monad. destruct answer; reflexivity. Qed.

Lemma getSheetData_ok (p : Process) (sid : string) (range : value) (response : ValueRange) :
  authenticated p ->
  values_get (VStr (extractSpreadsheetId sid)) range = inr response ->
  exists p',
    getSheetData (VStr sid) range p =
    (Ok {| sd_spreadsheetId := VStr (extractSpreadsheetId sid);
           sd_range := js_or (opt_str (vr_range response)) range;
           sd_values := default [] (vr_values response) |}, p').
Proof.
  intros Hauth Hanswer. unfold getSheetData.
  erewrite bind_of_ok by apply log_eq.
  destruct (authenticated_ensure _ (authenticated_logged (EvTool "getSheetData") p Hauth))
    as [p1 Hp1].
  erewrite bind_of_ok by exact Hp1.
  erewrite bind_of_ok by reflexivity.
  erewrite bind_of_ok by (rewrite remote_call_eq, Hanswer; reflexivity).
  eexists. reflexivity.
Qed.

Lemma listDocuments_ok (p : Process) (limit query : value) (q : string)
    (found : option (list DriveFile)) :
  authenticated p ->
  build_query DOCS_MIME_QUERY query = Ok q ->
  files_list q (default_limit limit) = inr found ->
  exists p',
    listDocuments limit query p = (Ok (map to_document_info (default [] found)), p').
Proof.
  intros Hauth Hq Hanswer. unfold listDocuments.
  erewrite bind_of_ok by apply log_eq.
  destruct (authenticated_ensure _ (authenticated_logged (EvTool "listDocuments") p Hauth))
    as [p1 Hp1].
  erewrite bind_of_ok by exact Hp1.
  erewrite bind_of_ok by (rewrite Hq; reflexivity).
  erewrite bind_of_ok by (rewrite remote_call_eq, Hanswer; reflexivity).
  eexists. reflexivity.
Qed.

Lemma listSpreadsheets_ok (p : Process) (limit query : value) (q : string)
    (found : option (list DriveFile)) :
  authenticated p ->
  build_query SHEETS_MIME_QUERY query = Ok q ->
  files_list q (default_limit limit) = inr found ->
  exists p',
    listSpreadsheets limit query p = (Ok (map to_document_info (default [] found)), p').
Proof.
  intros Hauth Hq Hanswer. unfold listSpreadsheets.
  erewrite bind_of_ok by apply log_eq.
  destruct (authenticated_ensure _ (authenticated_logged (EvTool "listSpreadsheets") p Hauth))
    as [p1 Hp1].
  erewrite bind_of_ok by exact Hp1.
  erewrite bind_of_ok by (rewrite Hq; reflexivity).
  erewrite bind_of_ok by (rewrite remote_call_eq, Hanswer; reflexivity).
  eexists. reflexivity.
Qed.

(** A handler whose gate is open and whose body succeeds. *)
Lemma gated_ok (body : Proc payload) (p : Process) (out : payload) :
  fst (checkAuth p) = Ok true ->
  (forall p1, authenticated p1 -> exists p2, body p1 = (Ok out, p2)) ->
  fst (gated body p) = Ok out.
Proof.
  intros Hgate Hbody. destruct (checkAuth_true p Hgate) as (p1 & Hp1 & Hauth).
  unfold gated. erewrite bind_of_ok by exact Hp1. cbn [negb].
  unfold try_catch. destruct (Hbody p1 Hauth) as [p2 ->]. reflexivity.
Qed.

Lemma gated_closed (body : Proc payload) (p : Process) :
  fst (checkAuth p) = Ok false ->
  gated body p = (Ok not_authenticated, snd (checkAuth p)).
Proof.
  intros Hgate. unfold gated, bind.
  destruct (checkAuth p) as [[b|e] p1]; cbn [fst snd] in *; [|discriminate].
  injection Hgate as ->. reflexivity.
Qed.

Lemma is_str_eq (v : value) (s : string) : is_str v s = true -> v = VStr s.
Proof.
  destruct v; try discriminate. cbn. intros E. apply String.eqb_eq in E. congruence.
Qed.

(** C4.  A request whose version tag is not ["2.0"] is answered with the
    invalid-request error ([-32600]) carrying the request's id, and the
    process is left exactly as it was: no record of an authentication
    check, a tool or a remote call is added. *)
Theorem wrong_version_is_invalid_request (request version : value) (p : Process) :
  prop request "jsonrpc" = Ok version ->
  is_str version "2.0" = false ->
  handleJsonRpc request p
  = (Ok (respond (RpcError (-32600) "Invalid JSON-RPC version") (get request "id")), p)
  /\ trace (world (snd (handleJsonRpc request p))) = trace (world p).
Proof.
  intros Hprop Hversion.
  assert (handleJsonRpc request p
          = (Ok (respond (RpcError (-32600) "Invalid JSON-RPC version")
                         (get request "id")), p)) as Hrun.
  { unfold handleJsonRpc. erewrite bind_of_ok by (rewrite Hprop; reflexivity).
    rewrite Hversion. reflexivity. }
  split; [exact Hrun|]. rewrite Hrun. reflexivity.
Qed.

(** C1, as amended.  For a [tools/call] request with version ["2.0"]
    whose [params] is neither [null] nor [undefined], received while the
    authentication check fails, the dispatcher answers with a result (not
    an error) that carries the error flag and the fixed text, echoes the
    id, and does so whatever the tool name is; the registered handlers of
    the stdio binding answer with the same payload. *)
Theorem unauthenticated_call_is_reported_in_band
    (request version name : value) (p : Process) :
  prop request "jsonrpc" = Ok version ->
  is_str version "2.0" = true ->
  is_str (get request "method") "tools/call" = true ->
  prop (get request "params") "name" = Ok name ->
  fst (checkAuth p) = Ok false ->
  handleJsonRpc request p
  = (Ok (respond (RpcResult (ToolOutput not_authenticated)) (get request "id")),
     snd (checkAuth p))
  /\ isError not_authenticated = true
  /\ text not_authenticated = NOT_AUTHENTICATED
  /\ (forall c : tool_call, stdio_call c p = (Ok not_authenticated, snd (checkAuth p))).
Proof.
  intros Hprop Hversion Hmethod Hname Hgate.
  split; [|split; [reflexivity|split; [reflexivity|]]].
  - unfold handleJsonRpc. erewrite bind_of_ok by (rewrite Hprop; reflexivity).
    rewrite Hversion. cbn [negb]. apply is_str_eq in Hmethod. rewrite Hmethod.
    cbn [is_str String.eqb Ascii.eqb Bool.eqb].
    unfold try_catch. erewrite bind_of_ok by (rewrite Hname; reflexivity).
    unfold bind. destruct (checkAuth p) as [[b|e] p1]; cbn [fst snd] in *; [|discriminate].
    injection Hgate as ->. reflexivity.
  - intros []; apply gated_closed; exact Hgate.
Qed.

(** The dispatcher on a [tools/call] envelope, step by step. *)
Lemma handleJsonRpc_tools_call (name : string) (args request_id : value) (p : Process) :
  handleJsonRpc (tools_call name args request_id) p =
  match checkAuth p with
  | (Ok true, p1) =>
      match call_by_name (VStr name) args p1 with
      | (Ok (inl result), p2) => (Ok (respond (RpcResult (ToolOutput result)) request_id), p2)
      | (Ok (inr early), p2) => (Ok (respond early request_id), p2)
      | (Throw e, p2) =>
          (Ok (respond (RpcResult (ToolOutput (error_payload e))) request_id), p2)
      end
  | (Ok false, p1) =>
      (Ok (respond (RpcResult (ToolOutput not_authenticated)) request_id), p1)
  | (Throw e, p1) => (Ok (respond (RpcError (-32603) (message e)) request_id), p1)
  end.
Proof.
  unfold handleJsonRpc, tools_call, try_catch, bind, lift_result, ret.
  cbn -[checkAuth call_by_name not_authenticated].
  destruct (checkAuth p) as [[[|]|e] p1]; try reflexivity.
  cbn -[call_by_name].
  destruct (call_by_name (VStr name) args p1) as [[[result|early]|e] p2]; reflexivity.
Qed.

Lemma render_sheet_data_empty (data : SheetData) :
  sd_values data = [] ->
  render_sheet_data data = Ok (success "No data found in the specified range.").
Proof. intros Hempty. unfold render_sheet_data. rewrite Hempty. reflexivity. Qed.

Lemma default_limit_or (limit : value) :
  default_limit (js_or limit (VNum 10)) = js_or limit (VNum 10).
Proof.
  unfold js_or. destruct (truthy limit) eqn:E; [|reflexivity].
  destruct limit; try discriminate; reflexivity.
Qed.

(** C10.  With the gate open, a range fetch that yields no rows makes
    [get_sheet_data] answer, on both bindings, with a payload without the
    error flag whose text is the fixed sentence; a file search without
    matches does the same for [list_documents] and [list_spreadsheets]
    with their own sentences. *)
Theorem empty_results_have_fixed_texts (p : Process) :
  fst (checkAuth p) = Ok true ->
  (forall args request_id sid response,
      prop args "spreadsheetId" = Ok (VStr sid) ->
      values_get (VStr (extractSpreadsheetId sid)) (get args "range") = inr response ->
      default [] (vr_values response) = [] ->
      fst (handleJsonRpc (tools_call "get_sheet_data" args request_id) p)
      = Ok (respond (RpcResult (ToolOutput
              {| text := "No data found in the specified range.";
                 isError := false |})) request_id))
  /\ (forall sid range response,
      values_get (VStr (extractSpreadsheetId sid)) (VStr range) = inr response ->
      default [] (vr_values response) = [] ->
      fst (stdio_call (GetSheetData sid range) p)
      = Ok {| text := "No data found in the specified range."; isError := false |})
  /\ (forall args request_id limit q found,
      prop args "limit" = Ok limit ->
      build_query DOCS_MIME_QUERY (get args "query") = Ok q ->
      files_list q (js_or limit (VNum 10)) = inr found ->
      default [] found = [] ->
      fst (handleJsonRpc (tools_call "list_documents" args request_id) p)
      = Ok (respond (RpcResult (ToolOutput
              {| text := "No documents found."; isError := false |})) request_id))
  /\ (forall limit query q found,
      build_query DOCS_MIME_QUERY (opt_str query) = Ok q ->
      files_list q (VNum limit) = inr found ->
      default [] found = [] ->
      fst (stdio_call (ListDocuments limit query) p)
      = Ok {| text := "No documents found."; isError := false |})
  /\ (forall args request_id limit q found,
      prop args "limit" = Ok limit ->
      build_query SHEETS_MIME_QUERY (get args "query") = Ok q ->
      files_list q (js_or limit (VNum 10)) = inr found ->
      default [] found = [] ->
      fst (handleJsonRpc (tools_call "list_spreadsheets" args request_id) p)
      = Ok (respond (RpcResult (ToolOutput
              {| text := "No spreadsheets found."; isError := false |})) request_id))
  /\ (forall limit query q found,
      build_query SHEETS_MIME_QUERY (opt_str query) = Ok q ->
      files_list q (VNum limit) = inr found ->
      default [] found = [] ->
      fst (stdio_call (ListSpreadsheets limit query) p)
      = Ok {| text := "No spreadsheets found."; isError := false |}).
Proof.
  intros Hgate. destruct (checkAuth_true p Hgate) as (p1 & Hp1 & Hauth).
  repeat apply conj.
  - intros args request_id sid response Hsid Hanswer Hempty.
    rewrite handleJsonRpc_tools_call, Hp1.
    destruct (getSheetData_ok p1 sid _ response Hauth Hanswer) as [p2 Hp2].
    change (call_by_name (VStr "get_sheet_data") args) with
      (let* spreadsheetId := lift_result (prop args "spreadsheetId") in
       let* data := getSheetData spreadsheetId (get args "range") in
       let* output := lift_result (render_sheet_data data) in
       ret (inl output) : Proc (payload + rpc_body)).
    erewrite bind_of_ok by (rewrite Hsid; reflexivity).
    erewrite bind_of_ok by exact Hp2.
    erewrite bind_of_ok by (rewrite render_sheet_data_empty by exact Hempty; reflexivity).
    reflexivity.
  - intros sid range response Hanswer Hempty. cbn [stdio_call].
    apply gated_ok; [exact Hgate|]. intros q1 Hq1.
    destruct (getSheetData_ok q1 sid _ response Hq1 Hanswer) as [q2 Hq2].
    erewrite bind_of_ok by exact Hq2.
    rewrite render_sheet_data_empty by exact Hempty. eexists. reflexivity.
  - intros args request_id limit q found Hlimit Hq Hanswer Hempty.
    rewrite handleJsonRpc_tools_call, Hp1.
    rewrite <- default_limit_or in Hanswer.
    destruct (listDocuments_ok p1 _ _ q found Hauth Hq Hanswer) as [p2 Hp2].
    change (call_by_name (VStr "list_documents") args) with
      (let* limit := lift_result (prop args "limit") in
       let* docs := listDocuments (js_or limit (VNum 10)) (get args "query") in
       ret (inl (render_files "No documents found." "document" docs))
       : Proc (payload + rpc_body)).
    erewrite bind_of_ok by (rewrite Hlimit; reflexivity).
    erewrite bind_of_ok by exact Hp2.
    rewrite Hempty. reflexivity.
  - intros limit query q found Hq Hanswer Hempty. cbn [stdio_call].
    apply gated_ok; [exact Hgate|]. intros q1 Hq1.
    destruct (listDocuments_ok q1 (VNum limit) _ q found Hq1 Hq Hanswer) as [q2 Hq2].
    erewrite bind_of_ok by exact Hq2. rewrite Hempty. eexists. reflexivity.
  - intros args request_id limit q found Hlimit Hq Hanswer Hempty.
    rewrite handleJsonRpc_tools_call, Hp1.
    rewrite <- default_limit_or in Hanswer.
    destruct (listSpreadsheets_ok p1 _ _ q found Hauth Hq Hanswer) as [p2 Hp2].
    change (call_by_name (VStr "list_spreadsheets") args) with
      (let* limit := lift_result (prop args "limit") in
       let* sheets := listSpreadsheets (js_or limit (VNum 10)) (get args "query") in
       ret (inl (render_files "No spreadsheets found." "spreadsheet" sheets))
       : Proc (payload + rpc_body)).
    erewrite bind_of_ok by (rewrite Hlimit; reflexivity).
    erewrite bind_of_ok by exact Hp2.
    rewrite Hempty. reflexivity.
  - intros limit query q found Hq Hanswer Hempty. cbn [stdio_call].
    apply gated_ok; [exact Hgate|]. intros q1 Hq1.
    destruct (listSpreadsheets_ok q1 (VNum limit) _ q found Hq1 Hq Hanswer) as [q2 Hq2].
    erewrite bind_of_ok by exact Hq2. rewrite Hempty. eexists. reflexivity.
Qed.


(** C9.  [searchDocuments(query, limit)] is [listDocuments(limit, query)],
    for every pair of arguments (an omitted limit included) and in every
    state: same result, same effects. *)
Theorem searchDocuments_is_listDocuments (query limit : value) (p : Process) :
  searchDocuments query limit p = listDocuments limit query p.
Proof.
  unfold searchDocuments, listDocuments.
  assert (default_limit (default_limit limit) = default_limit limit) as ->
    by (destruct limit; reflexivity).
  reflexivity.
Qed.

Lemma handleJsonRpc_tools_list (request_id : value) (p : Process) :
  handleJsonRpc (tools_list request_id) p
  = (Ok (respond (RpcResult (ToolList tools)) request_id), p).
Proof. reflexivity. Qed.

(** C8.  [tools/list] over HTTP answers with the fixed catalog of five
    descriptors in every state and leaves the state alone (no gate); the
    catalog registered for the stdio binding has the same five names and
    descriptions, but it is not the same catalog: the description of the
    [range] parameter of [get_sheet_data] differs. *)
Theorem tools_list_catalogs :
  (forall (request_id : value) (p : Process),
      handleJsonRpc (tools_list request_id) p
      = (Ok (respond (RpcResult (ToolList tools)) request_id), p))
  /\ length tools = 5%nat
  /\ map d_name stdio_catalog = map d_name tools
  /\ map d_description stdio_catalog = map d_description tools
  /\ stdio_catalog <> tools
  /\ (map p_description <$> (d_properties <$> stdio_catalog !! 3%nat)
       = Some [ "The spreadsheet ID or full Google Sheets URL";
                "The A1 notation range to read (e.g., 'Sheet1!A1:D10' or 'A1:D10')" ])
  /\ (map p_description <$> (d_properties <$> tools !! 3%nat)
       = Some [ "The spreadsheet ID or full Google Sheets URL";
                "The A1 notation range to read (e.g., 'Sheet1!A1:D10')" ]).
Proof.
  split; [exact handleJsonRpc_tools_list|].
  repeat split; try reflexivity.
  intros Heq.
  assert (map p_description <$> (d_properties <$> stdio_catalog !! 3%nat)
          = map p_description <$> (d_properties <$> tools !! 3%nat)) as Hd
    by (rewrite Heq; reflexivity).
  vm_compute in Hd. discriminate.
Qed.

End ServerFacts.

(** ** The program on concrete worlds *)

Section Runs.
Import Text Js Monad Runtime OAuth Tools Server Stored Ids.

#[local] Existing Instance MiniJson.runtime.
#[local] Existing Instance Sample.remote.

Example fresh_is_unauthenticated :
  fst (checkAuth (Sample.process Sample.fresh)) = Ok false.
Proof. vm_compute. reflexivity. Qed.

Example signed_in_is_authenticated :
  fst (checkAuth (Sample.process Sample.signed_in)) = Ok true.
Proof. vm_compute. reflexivity. Qed.

(** The end-to-end example of the specification: the call posted over
    HTTP while unauthenticated. *)
Example http_call_while_unauthenticated :
  fst (fetch {| req_method := "POST"; req_pathname := "/rpc";
                req_body :=
                  Sample.render
                    (tools_call "get_sheet_data"
                       (VObj [("spreadsheetId", VStr "X"); ("range", VStr "A1:B2")])
                       (VNum 1)) |}
         (Sample.process Sample.fresh))
  = Ok {| status := 200;
          content := RpcReply (respond (RpcResult (ToolOutput not_authenticated)) (VNum 1)) |}.
Proof. vm_compute. reflexivity. Qed.

Example http_malformed_body :
  fst (fetch {| req_method := "POST"; req_pathname := "/rpc"; req_body := "{ not json" |}
         (Sample.process Sample.fresh))
  = Ok {| status := 400;
          content := RpcReply (respond (RpcError (-32700) "JSON Parse error") VNull) |}.
Proof. vm_compute. reflexivity. Qed.

(** Counterexample to C1 as stated: a [tools/call] envelope whose
    [params] is [null], received while unauthenticated, is answered with
    the internal-error code and not with the in-band message. *)
Lemma call_without_params_is_a_transport_error :
  fst (checkAuth (Sample.process Sample.fresh)) = Ok false
  /\ fst (handleJsonRpc
            (VObj [("jsonrpc", VStr "2.0"); ("method", VStr "tools/call");
                   ("params", VNull); ("id", VNum 1)])
            (Sample.process Sample.fresh))
     = Ok (respond (RpcError (-32603) "Cannot read properties of null (reading 'name')")
                   (VNum 1)).
Proof. split; vm_compute; reflexivity. Qed.

Lemma unauthenticated_call_is_reported_in_band_witness :
  handleJsonRpc
    (tools_call "get_sheet_data"
       (VObj [("spreadsheetId", VStr "X"); ("range", VStr "A1:B2")]) (VNum 1))
    (Sample.process Sample.fresh)
  = (Ok (respond (RpcResult (ToolOutput not_authenticated)) (VNum 1)),
     snd (checkAuth (Sample.process Sample.fresh)))
  /\ handleJsonRpc
       (tools_call "no_such_tool" VUndef (VStr "abc")) (Sample.process Sample.fresh)
     = (Ok (respond (RpcResult (ToolOutput not_authenticated)) (VStr "abc")),
        snd (checkAuth (Sample.process Sample.fresh))).
Proof.
  split.
  - apply (unauthenticated_call_is_reported_in_band
             (tools_call "get_sheet_data"
                (VObj [("spreadsheetId", VStr "X"); ("range", VStr "A1:B2")]) (VNum 1))
             (VStr "2.0") (VStr "get_sheet_data") (Sample.process Sample.fresh));
      vm_compute; reflexivity.
  - apply (unauthenticated_call_is_reported_in_band
             (tools_call "no_such_tool" VUndef (VStr "abc"))
             (VStr "2.0") (VStr "no_such_tool") (Sample.process Sample.fresh));
      vm_compute; reflexivity.
Defined.

(** Counterexample to C2 as stated: the endpoint rejects the refresh
    token, the error reaches the caller, and [isAuthenticated] still
    answers [true] afterwards. *)
Lemma rejected_refresh_leaves_session_authenticated :
  fst (refreshAccessToken
         (Sample.session_with (VObj [("refresh_token", VStr "1//0g")]), Sample.fresh))
  = Throw (Exn RemoteError "invalid_grant")
  /\ fst (isAuthenticated
            (snd (refreshAccessToken
                    (Sample.session_with (VObj [("refresh_token", VStr "1//0g")]),
                     Sample.fresh))))
     = Ok true.
Proof. split; vm_compute; reflexivity. Qed.

Lemma refresh_rejection_is_surfaced_witness :
  refreshAccessToken
    (Sample.session_with (tokens_to_value Sample.granted), Sample.signed_in)
  = (Throw (Exn RemoteError "invalid_grant"),
     (Sample.session_with (tokens_to_value Sample.granted),
      add_event (EvRemote "oauth2/token") Sample.signed_in))
  /\ fst (isAuthenticated
            (snd (refreshAccessToken
                    (Sample.session_with (tokens_to_value Sample.granted),
                     Sample.signed_in))))
     = Ok true.
Proof.
  apply (refresh_rejection_is_surfaced
           (Sample.session_with (tokens_to_value Sample.granted)) Sample.signed_in
           "invalid_grant"); reflexivity.
Defined.

(** Counterexample to C3 as stated: the first candidate exists and
    parses (it is the empty object), yet the client id is taken from the
    second candidate, not from the environment as "first existing,
    parseable file, then environment" would give. *)
Lemma parseable_candidate_without_section_is_skipped :
  first_parseable (possiblePaths (base_dir Sample.two_candidates)) Sample.two_candidates
  = Some (VObj [])
  /\ literal_clientId None Sample.two_candidates = VStr "env-id"
  /\ match fst (new_GoogleOAuth None Sample.two_candidates) with
      | Ok o => clientId (oauthConfig o)
      | Throw _ => VUndef
      end = VStr "file-id".
Proof. repeat split; vm_compute; reflexivity. Qed.

Lemma credential_resolution_witness :
  (exists o, fst (new_GoogleOAuth (Some Sample.overrides) Sample.with_secret) = Ok o
             /\ clientId (oauthConfig o) = VStr "explicit-id"
             /\ clientSecret (oauthConfig o) = VStr "explicit-secret")
  /\ (exists o, fst (new_GoogleOAuth None Sample.with_secret) = Ok o
                /\ clientId (oauthConfig o) = VStr "file-id"
                /\ clientSecret (oauthConfig o) = VStr "file-secret")
  /\ (exists o, fst (new_GoogleOAuth None Sample.broken_secret) = Ok o
                /\ clientId (oauthConfig o) = VStr "env-id"
                /\ clientSecret (oauthConfig o) = VStr "env-secret")
  /\ first_usable (possiblePaths "/app") Sample.broken_secret
     = first_usable ["/app/.credentials/client_secret.json"] Sample.broken_secret.
Proof.
  repeat apply conj.
  - destruct (credential_resolution (Some Sample.overrides) Sample.with_secret)
      as (_ & _ & Hok & _ & _).
    apply Hok; vm_compute; reflexivity.
  - destruct (credential_resolution None Sample.with_secret) as (_ & _ & Hok & _ & _).
    apply Hok; vm_compute; reflexivity.
  - destruct (credential_resolution None Sample.broken_secret) as (_ & _ & Hok & _ & _).
    apply Hok; vm_compute; reflexivity.
  - destruct (credential_resolution None Sample.broken_secret) as (_ & _ & _ & Hskip & _).
    apply (Hskip "/app/client_secret.json" _ "{ not json"); vm_compute; reflexivity.
Defined.

Lemma wrong_version_is_invalid_request_witness :
  handleJsonRpc
    (VObj [("jsonrpc", VStr "1.0"); ("method", VStr "tools/call");
           ("params", VObj [("name", VStr "get_document")]); ("id", VNum 7)])
    (Sample.process Sample.signed_in)
  = (Ok (respond (RpcError (-32600) "Invalid JSON-RPC version") (VNum 7)),
     Sample.process Sample.signed_in)
  /\ trace (world (snd (handleJsonRpc
        (VObj [("jsonrpc", VStr "1.0"); ("method", VStr "tools/call");
               ("params", VObj [("name", VStr "get_document")]); ("id", VNum 7)])
        (Sample.process Sample.signed_in)))) = [].
Proof.
  apply (wrong_version_is_invalid_request
           (VObj [("jsonrpc", VStr "1.0"); ("method", VStr "tools/call");
                  ("params", VObj [("name", VStr "get_document")]); ("id", VNum 7)])
           (VStr "1.0") (Sample.process Sample.signed_in)); reflexivity.
Defined.

Lemma identifier_extraction_witness :
  extractDocumentId ("https://docs.google.com/document/d/" +:+ "1a-B_c9" +:+ "/edit#heading=h.1")
  = "1a-B_c9"
  /\ extractSpreadsheetId ("https://docs.google.com/spreadsheets/d/" +:+ "1a-B_c9" +:+ "/edit#gid=0")
     = "1a-B_c9"
  /\ extractDocumentId "1a-B_c9" = "1a-B_c9"
  /\ extractSpreadsheetId "1a-B_c9" = "1a-B_c9"
  /\ extractDocumentId "https://docs.google.com/document/u/0/d/1a-B_c9"
     = "https://docs.google.com/document/u/0/d/1a-B_c9"
  /\ extractSpreadsheetId "sheet?" = "sheet?".
Proof.
  destruct identifier_extraction as (_ & _ & Hurl & _ & _ & Hbare & Hdoc & Hsheet).
  repeat apply conj.
  - apply (Hurl "1a-B_c9" "/edit#heading=h.1"); [split; [reflexivity|discriminate]|reflexivity].
  - apply (Hurl "1a-B_c9" "/edit#gid=0"); [split; [reflexivity|discriminate]|reflexivity].
  - apply (Hbare "1a-B_c9"); reflexivity.
  - apply (Hbare "1a-B_c9"); reflexivity.
  - apply Hdoc; reflexivity.
  - apply Hsheet; reflexivity.
Defined.

Lemma empty_results_have_fixed_texts_witness :
  fst (handleJsonRpc
         (tools_call "get_sheet_data"
            (VObj [("spreadsheetId", VStr "X"); ("range", VStr "A1:B2")]) (VNum 1))
         (Sample.process Sample.signed_in))
  = Ok (respond (RpcResult (ToolOutput
          {| text := "No data found in the specified range."; isError := false |})) (VNum 1))
  /\ fst (stdio_call (GetSheetData "X" "A1:B2") (Sample.process Sample.signed_in))
     = Ok {| text := "No data found in the specified range."; isError := false |}
  /\ fst (handleJsonRpc (tools_call "list_documents" (VObj []) (VNum 2))
            (Sample.process Sample.signed_in))
     = Ok (respond (RpcResult (ToolOutput
             {| text := "No documents found."; isError := false |})) (VNum 2))
  /\ fst (stdio_call (ListDocuments 10 (Some "budget")) (Sample.process Sample.signed_in))
     = Ok {| text := "No documents found."; isError := false |}
  /\ fst (handleJsonRpc
            (tools_call "list_spreadsheets" (VObj [("limit", VNum 3)]) (VNum 3))
            (Sample.process Sample.signed_in))
     = Ok (respond (RpcResult (ToolOutput
             {| text := "No spreadsheets found."; isError := false |})) (VNum 3))
  /\ fst (stdio_call (ListSpreadsheets 10 None) (Sample.process Sample.signed_in))
     = Ok {| text := "No spreadsheets found."; isError := false |}.
Proof.
  destruct (empty_results_have_fixed_texts (Sample.process Sample.signed_in))
    as (H1 & H2 & H3 & H4 & H5 & H6); [vm_compute; reflexivity|].
  repeat apply conj.
  - eapply (H1 _ _ "X"); reflexivity.
  - eapply H2; reflexivity.
  - eapply H3; reflexivity.
  - eapply H4; reflexivity.
  - eapply H5; reflexivity.
  - eapply H6; reflexivity.
Defined.

End Runs.

(** ** The executable codec reads back the token sets it writes *)

Section CodecFacts.
Import Text Js Runtime MiniJson.

Lemma parse_string_char (c : ascii) (tail t rest : string) :
  parse_string tail = Some (t, rest) ->
  parse_string (escape_char c +:+ tail) = Some (String c t, rest).
Proof.
  intros Htail.
  destruct c as [[] [] [] [] [] [] [] []];
    match goal with
    | |- context [escape_char ?c] =>
        let e := eval vm_compute in (escape_char c) in
        change (escape_char c) with e
    end;
    rewrite ?append_cons, append_empty; simpl; rewrite Htail; reflexivity.
Qed.

Lemma parse_string_escape (s rest : string) :
  parse_string (escape s +:+ dq +:+ rest) = Some (s, rest).
Proof.
  induction s as [|c s IH]; [reflexivity|].
  cbn [escape]. rewrite append_assoc. apply parse_string_char, IH.
Qed.

Lemma digits_value_acc (d : Decimal.uint) (acc : positive) :
  digits_value (Z.pos acc) (NilEmpty.string_of_uint d) = Z.pos (Pos.of_uint_acc d acc).
Proof.
  revert acc. induction d as [|d IH|d IH|d IH|d IH|d IH|d IH|d IH|d IH|d IH|d IH];
    intros acc; [reflexivity|..];
    cbn [NilEmpty.string_of_uint digits_value Pos.of_uint_acc];
    rewrite <- IH; f_equal;
    match goal with
    | |- context [Z.of_nat ?n] =>
        let v := eval vm_compute in (Z.of_nat n) in change (Z.of_nat n) with v
    end; lia.
Qed.

Lemma digits_value_zero (d : Decimal.uint) :
  digits_value 0 (NilEmpty.string_of_uint d) = Z.of_N (Pos.of_uint d).
Proof.
  induction d as [|d IH|d IH|d IH|d IH|d IH|d IH|d IH|d IH|d IH|d IH];
    [reflexivity|exact IH|..];
    cbn [NilEmpty.string_of_uint digits_value Pos.of_uint Z.of_N];
    rewrite <- digits_value_acc; reflexivity.
Qed.

Lemma nzhead_not_D0 (d l : Decimal.uint) : nzhead d <> D0 l.
Proof. induction d; cbn [nzhead]; try discriminate. exact IHd. Qed.

(** The decimal digits of a positive number start with a non-zero
    digit. *)
Lemma to_uint_head (p : positive) :
  exists c r,
    NilEmpty.string_of_uint (Pos.to_uint p) = String c r
    /\ between 49 57 c = true.
Proof.
  assert (unorm (Pos.to_uint p) = Pos.to_uint p) as Hnorm.
  { rewrite <- (Unsigned.to_of (Pos.to_uint p)), Unsigned.of_to. reflexivity. }
  pose proof (Unsigned.to_uint_nonzero p) as Hnz.
  pose proof (nzhead_not_D0 (Pos.to_uint p)) as Hhead.
  unfold unorm in Hnorm.
  destruct (nzhead (Pos.to_uint p)) eqn:E.
  - exfalso. apply Hnz. symmetry. exact Hnorm.
  - exfalso. eapply Hhead. reflexivity.
  - rewrite <- Hnorm. eexists _, _. split; reflexivity.
  - rewrite <- Hnorm. eexists _, _. split; reflexivity.
  - rewrite <- Hnorm. eexists _, _. split; reflexivity.
  - rewrite <- Hnorm. eexists _, _. split; reflexivity.
  - rewrite <- Hnorm. eexists _, _. split; reflexivity.
  - rewrite <- Hnorm. eexists _, _. split; reflexivity.
  - rewrite <- Hnorm. eexists _, _. split; reflexivity.
  - rewrite <- Hnorm. eexists _, _. split; reflexivity.
  - rewrite <- Hnorm. eexists _, _. split; reflexivity.
Qed.

Lemma take_digits_uint (d : Decimal.uint) (rest : string) :
  ends_number rest = true ->
  take_digits (NilEmpty.string_of_uint d +:+ rest) = (NilEmpty.string_of_uint d, rest).
Proof.
  intros Hrest.
  induction d as [|d IH|d IH|d IH|d IH|d IH|d IH|d IH|d IH|d IH|d IH];
    cbn [NilEmpty.string_of_uint]; rewrite ?append_cons, ?append_empty;
    try (cbn [take_digits]; change (is_digit _) with true; cbv iota; rewrite IH; reflexivity).
  destruct rest as [|c r]; [reflexivity|].
  cbn [take_digits]. unfold ends_number in Hrest. cbn [head_is] in Hrest.
  destruct (is_digit c); [discriminate|reflexivity].
Qed.

Lemma of_Z_pos (p : positive) :
  of_Z (Z.pos p) = NilEmpty.string_of_uint (Pos.to_uint p).
Proof.
  unfold of_Z. cbn [Z.to_int NilZero.string_of_int]. unfold NilZero.string_of_uint.
  destruct (Pos.to_uint p) eqn:E; try reflexivity.
  exfalso. exact (Unsigned.to_uint_nonnil p E).
Qed.

Lemma of_Z_neg (p : positive) :
  of_Z (Z.neg p) = String "-" (NilEmpty.string_of_uint (Pos.to_uint p)).
Proof.
  unfold of_Z. cbn [Z.to_int NilZero.string_of_int]. unfold NilZero.string_of_uint.
  destruct (Pos.to_uint p) eqn:E; try reflexivity.
  exfalso. exact (Unsigned.to_uint_nonnil p E).
Qed.

Lemma ends_number_continues (rest : string) :
  ends_number rest = true ->
  match rest with
  | String c _ => (Nat.eqb (code c) 46 || Nat.eqb (code c) 101 || Nat.eqb (code c) 69)%bool
  | EmptyString => false
  end = false.
Proof.
  unfold ends_number. destruct rest as [|c r]; [reflexivity|]. cbn [head_is].
  destruct (is_digit c); [discriminate|]. cbn [orb negb].
  destruct (_ || _ || _)%bool; [discriminate|reflexivity].
Qed.

(** The unsigned part of a literal, read back. *)
Lemma parse_unsigned (p : positive) (negative : bool) (rest : string) :
  ends_number rest = true ->
  (let '(d, rest') := take_digits (NilEmpty.string_of_uint (Pos.to_uint p) +:+ rest) in
   let continues :=
     match rest' with
     | String c _ => (Nat.eqb (code c) 46 || Nat.eqb (code c) 101 || Nat.eqb (code c) 69)%bool
     | EmptyString => false
     end in
   match d with
   | EmptyString => None
   | String c0 more =>
       if (Nat.eqb (code c0) 48 && negb (is_empty more))%bool then None
       else if continues then None
       else
         let n := digits_value 0 d in
         Some (if negative then - n else n, rest')
   end) = Some (if negative then Z.neg p else Z.pos p, rest).
Proof.
  intros Hrest. rewrite take_digits_uint by exact Hrest.
  rewrite (ends_number_continues rest Hrest).
  rewrite digits_value_zero, Unsigned.of_to.
  destruct (to_uint_head p) as (c & r & -> & Hc).
  assert (Nat.eqb (code c) 48 = false) as ->.
  { unfold between in Hc. apply andb_prop in Hc as [Hlo _].
    apply Nat.leb_le in Hlo. apply Nat.eqb_neq. lia. }
  destruct negative; reflexivity.
Qed.

Lemma parse_number_of_Z (n : Z) (rest : string) :
  ends_number rest = true ->
  parse_number (of_Z n +:+ rest) = Some (n, rest).
Proof.
  intros Hrest. destruct n as [|p|p].
  - change (of_Z 0) with "0". rewrite append_cons, append_empty.
    unfold parse_number. change (Nat.eqb (code "0") 45) with false. cbv iota.
    cbn [take_digits]. change (is_digit "0") with true. cbv iota.
    pose proof (take_digits_uint Nil rest Hrest) as Hnil.
    cbn [NilEmpty.string_of_uint] in Hnil. rewrite append_empty in Hnil. rewrite Hnil.
    rewrite (ends_number_continues rest Hrest). reflexivity.
  - rewrite of_Z_pos. unfold parse_number.
    destruct (to_uint_head p) as (c & r & Hs & Hc).
    assert (Nat.eqb (code c) 45 = false) as Hminus.
    { unfold between in Hc. apply andb_prop in Hc as [Hlo _].
      apply Nat.leb_le in Hlo. apply Nat.eqb_neq. lia. }
    assert (NilEmpty.string_of_uint (Pos.to_uint p) +:+ rest = String c (r +:+ rest))
      as Heq by (rewrite Hs; reflexivity).
    rewrite Heq, Hminus, <- Heq.
    exact (parse_unsigned p false rest Hrest).
  - rewrite of_Z_neg, append_cons. unfold parse_number.
    change (Nat.eqb (code "-") 45) with true. cbv iota.
    exact (parse_unsigned p true rest Hrest).
Qed.

Lemma of_Z_head (n : Z) :
  exists c r, of_Z n = String c r /\ (between 48 57 c || Nat.eqb (code c) 45)%bool = true.
Proof.
  destruct n as [|p|p].
  - exists "0"%char, EmptyString. split; reflexivity.
  - rewrite of_Z_pos. destruct (to_uint_head p) as (c & r & -> & Hc).
    exists c, r. split; [reflexivity|].
    unfold between in *. apply andb_prop in Hc as [Hlo Hhi].
    apply Nat.leb_le in Hlo. rewrite Hhi, andb_true_r.
    apply orb_true_intro. left. apply Nat.leb_le. lia.
  - rewrite of_Z_neg. eexists _, _. split; reflexivity.
Qed.

Lemma parse_value_at_quote (fuel : nat) (s r : string) :
  skip_ws s = String (ascii_of_nat 34) r ->
  parse_value (S fuel) s =
  match parse_string r with
  | Some (t, rest) => Some (VStr t, rest)
  | None => None
  end.
Proof. intros Hs. cbn [parse_value]. rewrite Hs. reflexivity. Qed.

Lemma parse_value_string (fuel : nat) (s rest : string) :
  parse_value (S fuel) (" " +:+ quote s +:+ rest) = Some (VStr s, rest).
Proof.
  rewrite (parse_value_at_quote fuel _ (escape s +:+ dq +:+ rest)).
  - rewrite parse_string_escape. reflexivity.
  - unfold quote. rewrite !append_assoc. reflexivity.
Qed.

Lemma parse_value_at_number (fuel : nat) (s : string) (c : ascii) (r : string) :
  skip_ws s = String c r ->
  (between 48 57 c || Nat.eqb (code c) 45)%bool = true ->
  parse_value (S fuel) s =
  match parse_number (String c r) with
  | Some (n, rest) => Some (VNum n, rest)
  | None => None
  end.
Proof.
  intros Hs Hc. cbn [parse_value]. rewrite Hs.
  destruct c as [[] [] [] [] [] [] [] []]; try discriminate Hc; reflexivity.
Qed.

Lemma parse_value_number (fuel : nat) (n : Z) (rest : string) :
  ends_number rest = true ->
  parse_value (S fuel) (" " +:+ of_Z n +:+ rest) = Some (VNum n, rest).
Proof.
  intros Hrest. pose proof (parse_number_of_Z n rest Hrest) as Hnum.
  destruct (of_Z_head n) as (c & r & Hs & Hc).
  rewrite Hs, append_cons in Hnum.
  rewrite (parse_value_at_number fuel _ c (r +:+ rest)); [rewrite Hnum; reflexivity| |exact Hc].
  rewrite Hs. rewrite !append_cons, append_empty.
  destruct c as [[] [] [] [] [] [] [] []]; try discriminate Hc; reflexivity.
Qed.

Lemma parse_value_simple (fuel : nat) (v : value) (rest : string) :
  simple v = true -> ends_number rest = true ->
  parse_value (S fuel) (" " +:+ print 2 v +:+ rest) = Some (v, rest).
Proof.
  intros Hv Hrest. destruct v; try discriminate.
  - apply parse_value_number, Hrest.
  - apply parse_value_string.
Qed.

(** One member is read and the loop goes on with what follows it. *)
Lemma parse_members_step (fuel : nat) (acc : list (string * value))
    (k : string) (v : value) (tail : string) :
  simple v = true -> ends_number tail = true ->
  parse_members (S (S fuel)) acc (nl +:+ member_text (k, v) +:+ tail) =
  match skip_ws tail with
  | String d rest =>
      if Nat.eqb (code d) 44 then parse_members (S fuel) (set_field k v acc) rest
      else if Nat.eqb (code d) 125 then Some (VObj (set_field k v acc), rest)
      else None
  | EmptyString => None
  end.
Proof.
  intros Hv Htail.
  assert (skip_ws (nl +:+ member_text (k, v) +:+ tail)
          = String (ascii_of_nat 34)
              (escape k +:+ dq +:+ (": " +:+ print 2 v +:+ tail))) as Hskip.
  { unfold member_text, quote. cbn [fst snd]. rewrite !append_assoc. reflexivity. }
  cbn [parse_members]. rewrite Hskip.
  change (Nat.eqb (code (ascii_of_nat 34)) 34) with true. cbv iota.
  rewrite parse_string_escape.
  change (skip_ws (": " +:+ print 2 v +:+ tail))
    with (String ":" (" " +:+ print 2 v +:+ tail)).
  change (Nat.eqb (code ":") 58) with true. cbv iota.
  rewrite (parse_value_simple fuel v tail Hv Htail). reflexivity.
Qed.

Lemma parse_members_simple (fields : list (string * value)) :
  fields <> [] -> forallb (fun kv => simple (snd kv)) fields = true ->
  forall (fuel : nat) (acc : list (string * value)) (rest : string),
    (length fields < fuel)%nat ->
    parse_members fuel acc
      (nl +:+ join ("," +:+ nl) (map member_text fields) +:+ nl +:+ "}" +:+ rest)
    = Some (VObj (put_fields fields acc), rest).
Proof.
  induction fields as [|[k v] fs IH]; [congruence|].
  intros _ Hsimple fuel acc rest Hfuel.
  cbn [forallb snd] in Hsimple. apply andb_prop in Hsimple as [Hv Hfs].
  destruct fuel as [|[|fuel]]; cbn [length] in Hfuel; try lia.
  destruct fs as [|kv fs'].
  - cbn [map join]. rewrite parse_members_step by (exact Hv || reflexivity).
    reflexivity.
  - change (join ("," +:+ nl) (map member_text ((k, v) :: kv :: fs')))
      with (member_text (k, v) +:+ ("," +:+ nl)
            +:+ join ("," +:+ nl) (map member_text (kv :: fs'))).
    rewrite !append_assoc.
    rewrite parse_members_step by (exact Hv || reflexivity).
    change (skip_ws ("," +:+ ?x)) with (String "," x).
    cbv beta iota.
    change (Nat.eqb (code ",") 44) with true. cbv iota.
    apply IH; [discriminate|exact Hfs|cbn [length] in *; lia].
Qed.

Lemma print_object (fields : list (string * value)) :
  fields <> [] -> forallb (fun kv => simple (snd kv)) fields = true ->
  print 0 (VObj fields)
  = "{" +:+ nl +:+ join ("," +:+ nl) (map member_text fields) +:+ nl +:+ "}".
Proof.
  intros Hne Hsimple. cbn [print].
  assert ((fix go (l : list (string * value)) : list string :=
             match l with
             | [] => []
             | (_, VUndef) :: r => go r
             | (k, x) :: r =>
                 (spaces (0 + 2) +:+ quote k +:+ ": " +:+ print (0 + 2) x) :: go r
             end) fields = map member_text fields) as ->.
  { clear Hne. induction fields as [|[k v] fs IH]; [reflexivity|].
    cbn [forallb snd] in Hsimple. apply andb_prop in Hsimple as [Hv Hfs].
    cbn [map]. rewrite <- (IH Hfs). destruct v; try discriminate; reflexivity. }
  destruct fields as [|kv fs]; [congruence|]. reflexivity.
Qed.

Lemma length_members (fields : list (string * value)) :
  (length fields <= String.length (join ("," +:+ nl) (map member_text fields)))%nat.
Proof.
  induction fields as [|kv fs IH]; [apply Nat.le_0_l|].
  destruct fs as [|kv' fs'].
  - cbn [map join length]. unfold member_text.
    rewrite length_append. cbn [String.length]. apply le_n_S, Nat.le_0_l.
  - change (join ("," +:+ nl) (map member_text (kv :: kv' :: fs')))
      with (member_text kv +:+ ("," +:+ nl)
            +:+ join ("," +:+ nl) (map member_text (kv' :: fs'))).
    rewrite !length_append. cbn [length] in *.
    change (String.length ",") with 1%nat.
    change (String.length nl) with 1%nat. lia.
Qed.

Lemma parse_print_object (fields : list (string * value)) :
  fields <> [] -> forallb (fun kv => simple (snd kv)) fields = true ->
  parse (print 0 (VObj fields)) = Some (VObj (put_fields fields [])).
Proof.
  intros Hne Hsimple. rewrite (print_object fields Hne Hsimple). unfold parse.
  set (inner := nl +:+ join ("," +:+ nl) (map member_text fields) +:+ nl +:+ "}").
  assert (parse_value (S (String.length ("{" +:+ inner))) ("{" +:+ inner)
          = parse_members (String.length ("{" +:+ inner)) [] inner) as ->.
  { cbn [parse_value].
    change (skip_ws ("{" +:+ inner)) with (String "{" inner).
    change (Nat.eqb (code "{") 34) with false.
    change (Nat.eqb (code "{") 123) with true. cbv iota.
    destruct fields as [|[k v] fs]; [congruence|].
    assert (exists r, skip_ws inner = String (ascii_of_nat 34) r) as [r ->].
    { unfold inner. destruct fs as [|kv' fs'].
      - cbn [map join]. unfold member_text, quote. eexists. reflexivity.
      - change (join ("," +:+ nl) (map member_text ((k, v) :: kv' :: fs')))
          with (member_text (k, v) +:+ ("," +:+ nl)
                +:+ join ("," +:+ nl) (map member_text (kv' :: fs'))).
        unfold member_text, quote. rewrite !append_assoc. eexists. reflexivity. }
    reflexivity. }
  pose proof (parse_members_simple fields Hne Hsimple
                (String.length ("{" +:+ inner)) [] EmptyString) as Hloop.
  change (nl +:+ join ("," +:+ nl) (map member_text fields) +:+ nl +:+ "}" +:+ EmptyString)
    with inner in Hloop.
  rewrite Hloop; [reflexivity|].
  pose proof (length_members fields). unfold inner.
  rewrite !length_append. cbn [String.length]. lia.
Qed.

(** Every token set is read back from its encoding. *)
Lemma tokens_read_back (t : StoredTokens) :
  parse (print 0 (tokens_to_value t)) = Some (tokens_to_value t).
Proof.
  destruct t as [[a|] [r|] [e|] [ty|] [sc|]];
    unfold tokens_to_value;
    cbn [access_token refresh_token expiry_date token_type scope field_str field_num app];
    try (rewrite parse_print_object by (discriminate || reflexivity); reflexivity).
  reflexivity.
Qed.

End CodecFacts.

(** ** Saving and loading tokens *)

Section TokenStore.
Import Text Js Monad Runtime OAuth Stored.

(** C5, as amended.  For a token set [t] whose expiry date, if it has
    one, is a safe integer, and in a world where the token file can be
    written (the token path is not a directory and no regular file
    stands at the credentials directory or above it): [saveTokens]
    creates the containing directory when it is absent and replaces the
    token file by the encoding of [t], touching no other file; a
    following [loadTokens] on the same session answers [true] and
    installs credentials equal to [t] when [t] holds a non-empty refresh
    token, and otherwise answers [false] and installs nothing.  This
    holds for every codec that reads back what it wrote for [t]; the
    executable codec of this development does so for every such [t]. *)
Theorem save_then_load :
  (forall (codec : JsonRuntime) (this : GoogleOAuth) (w : World) (t : StoredTokens)
          (text : string),
      safe_expiry t ->
      JSON_stringify (tokens_to_value t) = Some text ->
      JSON_parse text = Some (tokens_to_value t) ->
      writable (credentialsPath this) w ->
      exists w',
        saveTokens (tokens_to_value t) (this, w) = (Ok tt, (this, w'))
        /\ files w' = <[credentialsPath this := text]> (files w)
        /\ dirname (credentialsPath this) ∈ dirs w'
        /\ loadTokens (this, w')
            = if has_refresh_token t
              then (Ok true, (with_credentials this (tokens_to_value t), w'))
              else (Ok false, (this, w')))
  /\ (forall (this : GoogleOAuth) (w : World) (t : StoredTokens),
        safe_expiry t ->
        writable (credentialsPath this) w ->
        exists w',
          saveTokens (H := MiniJson.runtime) (tokens_to_value t) (this, w)
          = (Ok tt, (this, w'))
          /\ files w' = <[credentialsPath this := MiniJson.print 0 (tokens_to_value t)]> (files w)
          /\ dirname (credentialsPath this) ∈ dirs w'
          /\ loadTokens (H := MiniJson.runtime) (this, w')
              = if has_refresh_token t
                then (Ok true, (with_credentials this (tokens_to_value t), w'))
                else (Ok false, (this, w'))).
Proof.
  split.
  - intros codec this w t text _. apply saveTokens_then_loadTokens.
  - intros this w t _ Hdir.
    apply (saveTokens_then_loadTokens (H := MiniJson.runtime) this w t
             (MiniJson.print 0 (tokens_to_value t))).
    + destruct t as [[a|] [r|] [e|] [ty|] [sc|]]; reflexivity.
    + apply tokens_read_back.
    + exact Hdir.
Qed.

(** Counterexample to C5 as stated: a token set without a refresh token
    is written in full, but loading it answers [false] and the session
    keeps the credentials it had, which are not the saved ones. *)
Lemma tokens_without_refresh_token_do_not_load :
  fst Sample.saved_access_only = Ok tt
  /\ (files (snd (snd Sample.saved_access_only)) !! Sample.tokens_path) ≫= MiniJson.parse
     = Some (tokens_to_value Sample.access_only)
  /\ fst (loadTokens (H := MiniJson.runtime) (snd Sample.saved_access_only)) = Ok false
  /\ credentials (fst (snd (loadTokens (H := MiniJson.runtime)
                                (snd Sample.saved_access_only)))) = VObj []
  /\ credentials (fst (snd (loadTokens (H := MiniJson.runtime)
                                (snd Sample.saved_access_only))))
     <> tokens_to_value Sample.access_only.
Proof. repeat split; try (vm_compute; reflexivity). vm_compute. discriminate. Qed.

Lemma save_then_load_witness :
  exists w',
    saveTokens (H := MiniJson.runtime) (tokens_to_value Sample.granted)
      (Sample.session_with (VObj []), Sample.fresh)
    = (Ok tt, (Sample.session_with (VObj []), w'))
    /\ files w' = <[Sample.tokens_path := Sample.render (tokens_to_value Sample.granted)]> ∅
    /\ "/app/.credentials" ∈ dirs w'
    /\ loadTokens (H := MiniJson.runtime) (Sample.session_with (VObj []), w')
       = (Ok true, (Sample.session_with (tokens_to_value Sample.granted), w')).
Proof.
  apply (proj1 save_then_load MiniJson.runtime (Sample.session_with (VObj []))
           Sample.fresh Sample.granted (Sample.render (tokens_to_value Sample.granted))).
  - vm_compute. split; reflexivity.
  - vm_compute. reflexivity.
  - vm_compute. reflexivity.
  - split; [|split].
    + apply not_elem_of_empty.
    + vm_compute. discriminate.
    + vm_compute. repeat constructor.
Defined.


End TokenStore.

(** * Further properties *)

(** ** White space *)

Section WhiteSpaceFacts.
Import Text.

(** The white-space character at the head of a text is decided by the
    bytes it is made of. *)
Lemma space_width_app (x q : string) (k : nat) :
  space_width x = S k -> space_width (x +:+ q) = S k.
Proof.
  unfold space_width. destruct x as [|a x]; [discriminate|]. rewrite append_cons.
  destruct (between 9 13 a || Nat.eqb (code a) 32)%bool; [intros E; exact E|].
  destruct x as [|b x]; [discriminate|]. rewrite append_cons.
  destruct (Nat.eqb (code a) 194 && Nat.eqb (code b) 160)%bool; [intros E; exact E|].
  destruct x as [|c x]; [discriminate|]. rewrite append_cons. intros E. exact E.
Qed.

Lemma space_width_bound (x : string) : (space_width x <= String.length x)%nat.
Proof.
  unfold space_width. destruct x as [|a x]; [reflexivity|]. cbn [String.length].
  destruct (between 9 13 a || Nat.eqb (code a) 32)%bool; [lia|].
  destruct x as [|b x]; [lia|]. cbn [String.length].
  destruct (Nat.eqb (code a) 194 && Nat.eqb (code b) 160)%bool; [lia|].
  destruct x as [|c x]; [lia|]. cbn [String.length].
  match goal with |- context [if ?cond then 3%nat else 0%nat] => destruct cond end; lia.
Qed.

(** A character below 128 that is no ASCII white space starts no
    white-space character. *)
Lemma plain_head (c : ascii) (r : string) :
  (code c < 128)%nat -> between 9 13 c = false -> Nat.eqb (code c) 32 = false ->
  space_width (String c r) = 0%nat.
Proof.
  intros Hc Hb Hs. unfold space_width. rewrite Hb, Hs. cbn [orb].
  destruct (Nat.eqb_spec (code c) 194); [lia|].
  destruct (Nat.eqb_spec (code c) 225); [lia|].
  destruct (Nat.eqb_spec (code c) 226); [lia|].
  destruct (Nat.eqb_spec (code c) 227); [lia|].
  destruct (Nat.eqb_spec (code c) 239); [lia|].
  destruct r as [|b [|d r]]; reflexivity.
Qed.

Lemma drop_spaces_head (s : string) (skip : nat) :
  space_width (drop_spaces skip s) = 0%nat.
Proof.
  revert skip. induction s as [|c s IH]; intros skip; [reflexivity|].
  cbn [drop_spaces]. destruct skip as [|k]; [|apply IH].
  destruct (space_width (String c s)) eqn:E; [exact E|apply IH].
Qed.

Lemma trim_start_fixed (s : string) : space_width s = 0%nat -> trim_start s = s.
Proof.
  unfold trim_start. destruct s as [|c s]; [reflexivity|].
  cbn [drop_spaces]. intros ->. reflexivity.
Qed.

Lemma drop_spaces_skip (r s : string) :
  drop_spaces (String.length r) (r +:+ s) = drop_spaces 0 s.
Proof.
  induction r as [|c r IH]; [reflexivity|].
  rewrite append_cons. cbn [String.length drop_spaces]. exact IH.
Qed.

(** White space at the head is passed over, whatever its encoding. *)
Lemma trim_start_space (sp s : string) :
  space_char sp -> trim_start (sp +:+ s) = trim_start s.
Proof.
  intros [Hne Hw]. destruct sp as [|c r]; [congruence|].
  cbn [String.length] in Hw.
  pose proof (space_width_app _ s _ Hw) as Happ.
  unfold trim_start. rewrite append_cons in *. cbn [drop_spaces].
  rewrite Happ. apply drop_spaces_skip.
Qed.

Lemma only_spaces_app (x q : string) (skip : nat) :
  only_spaces skip x = true -> only_spaces skip (x +:+ q) = only_spaces 0 q.
Proof.
  revert skip. induction x as [|c x IH]; intros skip.
  - cbn [only_spaces]. intros E. apply Nat.eqb_eq in E. subst skip. reflexivity.
  - rewrite append_cons. cbn [only_spaces]. destruct skip as [|k]; [|apply IH].
    destruct (space_width (String c x)) eqn:E; [discriminate|].
    rewrite <- append_cons, (space_width_app _ q _ E). apply IH.
Qed.

Lemma only_spaces_skip (r : string) : only_spaces (String.length r) r = true.
Proof. induction r as [|c r IH]; [reflexivity|]. exact IH. Qed.

Lemma space_char_only (sp : string) : space_char sp -> only_spaces 0 sp = true.
Proof.
  intros [Hne Hw]. destruct sp as [|c r]; [congruence|].
  cbn [only_spaces]. rewrite Hw. cbn [String.length]. apply only_spaces_skip.
Qed.

(** [trim_end] cuts off white space and nothing else. *)
Lemma trim_end_split (s : string) :
  exists q, s = trim_end s +:+ q /\ only_spaces 0 q = true.
Proof.
  induction s as [|c s (q & Hq & Ho)]; [exists EmptyString; split; reflexivity|].
  cbn [trim_end]. destruct (only_spaces 0 (String c s)) eqn:E.
  - exists (String c s). split; [reflexivity|exact E].
  - exists q. split; [|exact Ho]. rewrite append_cons, <- Hq. reflexivity.
Qed.

(** It cuts at the first place where only white space follows. *)
Lemma trim_end_prefix (a t : string) :
  only_spaces 0 t = true -> exists q, a = trim_end (a +:+ t) +:+ q.
Proof.
  intros Ht. induction a as [|c a (q & Hq)].
  - exists EmptyString. rewrite append_empty. destruct t as [|c t]; [reflexivity|].
    cbn [trim_end]. rewrite Ht. reflexivity.
  - rewrite append_cons. cbn [trim_end].
    destruct (only_spaces 0 (String c (a +:+ t))).
    + exists (String c a). reflexivity.
    + exists q. rewrite append_cons, <- Hq. reflexivity.
Qed.

(** What [trim_end] returns does not end in a white-space character. *)
Lemma trim_end_no_trailing (s a sp : string) :
  space_char sp -> trim_end s <> a +:+ sp.
Proof.
  intros Hsp Hend. destruct (trim_end_split s) as (q & Hs & Hq).
  assert (only_spaces 0 (sp +:+ q) = true) as Htail
    by (rewrite (only_spaces_app _ _ _ (space_char_only _ Hsp)); exact Hq).
  destruct (trim_end_prefix a (sp +:+ q) Htail) as (q' & Ha).
  rewrite Hend, append_assoc in Hs. rewrite <- Hs, Hend in Ha.
  apply (f_equal String.length) in Ha. rewrite !length_append in Ha.
  destruct Hsp as [Hne _]. destruct sp; [congruence|]. cbn [String.length] in Ha. lia.
Qed.

Lemma trim_end_head (u : string) :
  space_width u = 0%nat -> space_width (trim_end u) = 0%nat.
Proof.
  intros Hu. destruct (trim_end_split u) as (q & Hq & _).
  destruct (space_width (trim_end u)) eqn:E; [reflexivity|].
  pose proof (space_width_app _ q _ E) as Happ. rewrite <- Hq in Happ. congruence.
Qed.

Lemma trim_end_idem (s : string) : trim_end (trim_end s) = trim_end s.
Proof.
  induction s as [|c s IH]; [reflexivity|].
  cbn [trim_end]. destruct (only_spaces 0 (String c s)) eqn:E; [reflexivity|].
  cbn [trim_end]. destruct (only_spaces 0 (String c (trim_end s))) eqn:E2.
  - exfalso. destruct (trim_end_split s) as (q & Hq & Ho).
    pose proof (only_spaces_app _ q _ E2) as Happ.
    rewrite append_cons, <- Hq, Ho in Happ. congruence.
  - rewrite IH. reflexivity.
Qed.

Lemma trim_idem (s : string) : trim (trim s) = trim s.
Proof.
  unfold trim.
  rewrite (trim_start_fixed (trim_end (trim_start s)))
    by apply trim_end_head, drop_spaces_head.
  apply trim_end_idem.
Qed.

End WhiteSpaceFacts.


(** ** The dispatcher beyond the gate *)

Section DispatcherFacts.
Import Text Js Monad Runtime OAuth Tools Server Stored Ids.
Context `{!JsonRuntime} `{!Remote}.

Lemma prop_defined (v : value) (k : string) :
  v <> VUndef -> v <> VNull -> prop v k = Ok (get v k).
Proof. destruct v; try reflexivity; congruence. Qed.

(** The gate always comes back with an answer. *)
Lemma checkAuth_cases (p : Process) :
  exists b p', checkAuth p = (Ok b, p').
Proof.
  rewrite checkAuth_eq. destruct (session p) as [o|e]; [|eauto].
  destruct (usable_tokens _ _); eauto.
Qed.

Lemma handleJsonRpc_answers (request : value) (p : Process) :
  request <> VUndef -> request <> VNull ->
  exists b p',
    handleJsonRpc request p
    = (Ok {| jsonrpc := "2.0"; body := b; id := get request "id" |}, p').
Proof.
  intros Hu Hn. unfold handleJsonRpc.
  erewrite bind_of_ok by (rewrite (prop_defined _ _ Hu Hn); reflexivity).
  destruct (negb (is_str (get request "jsonrpc") "2.0")); [eexists _, _; reflexivity|].
  unfold try_catch.
  destruct (is_str (get request "method") "initialize"); [eexists _, _; reflexivity|].
  destruct (is_str (get request "method") "tools/list"); [eexists _, _; reflexivity|].
  destruct (is_str (get request "method") "tools/call").
  - unfold bind at 1, lift_result.
    destruct (prop (get request "params") "name") as [name|e]; [|eexists _, _; reflexivity].
    unfold bind at 1. destruct (checkAuth_cases p) as (b & p1 & ->).
    destruct b; cbn [negb]; [|eexists _, _; reflexivity].
    unfold bind at 1, try_catch.
    destruct (call_by_name name (get (get request "params") "arguments") p1)
      as [[[out|early]|e] p2]; eexists _, _; reflexivity.
  - unfold bind, lift_result.
    destruct (to_string (get request "method")); eexists _, _; reflexivity.
Qed.

(** X1.  Whatever a request that can be destructured asks for, and in
    whatever state, [handleJsonRpc] returns an envelope: it never throws,
    and the envelope carries version ["2.0"] and the request's id. *)
Theorem handleJsonRpc_always_answers (request : value) (p : Process) :
  request <> VUndef -> request <> VNull ->
  exists b p',
    handleJsonRpc request p
    = (Ok {| jsonrpc := "2.0"; body := b; id := get request "id" |}, p').
Proof. apply handleJsonRpc_answers. Qed.

(** X2.  With version ["2.0"], a request for anything but [tools/call]
    leaves the process exactly as it was (no gate, no call of any kind):
    [initialize] answers with the fixed metadata, and a method name that
    is none of the three is answered with error [-32601] naming it. *)
Theorem other_methods_touch_nothing (request version : value) (p : Process) :
  prop request "jsonrpc" = Ok version ->
  is_str version "2.0" = true ->
  is_str (get request "method") "tools/call" = false ->
  snd (handleJsonRpc request p) = p
  /\ (is_str (get request "method") "initialize" = true ->
      fst (handleJsonRpc request p)
      = Ok (respond (RpcResult (Initialized "2024-11-05" "google-docs-mcp" "1.0.0"))
                    (get request "id")))
  /\ (forall m : string,
        get request "method" = VStr m ->
        String.eqb m "initialize" = false -> String.eqb m "tools/list" = false ->
        fst (handleJsonRpc request p)
        = Ok (respond (RpcError (-32601) ("Method not found: " +:+ m)) (get request "id"))).
Proof.
  intros Hprop Hversion Hcall. unfold handleJsonRpc.
  erewrite bind_of_ok by (rewrite Hprop; reflexivity).
  rewrite Hversion, Hcall. cbn [negb]. unfold try_catch.
  split; [|split].
  - destruct (is_str (get request "method") "initialize"); [reflexivity|].
    destruct (is_str (get request "method") "tools/list"); [reflexivity|].
    unfold bind, lift_result. destruct (to_string (get request "method")); reflexivity.
  - intros ->. reflexivity.
  - intros m Hm Hinit Hlist. rewrite Hm. cbn [is_str]. rewrite Hinit, Hlist. reflexivity.
Qed.

Lemma bind_inv {S A B} (m : M S A) (k : A -> M S B) (s s' : S) (r : B) :
  bind m k s = (Ok r, s') ->
  exists a s1, m s = (Ok a, s1) /\ k a s1 = (Ok r, s').
Proof.
  unfold bind. destruct (m s) as [[a|e] s1]; [eauto|discriminate].
Qed.

Ltac decide_names H :=
  repeat match type of H with
         | context [is_str (VStr ?a) ?b] =>
             let v := eval vm_compute in (is_str (VStr a) b) in
             change (is_str (VStr a) b) with v in H
         end;
  cbv iota in H.

Ltac open_binds H :=
  repeat (let a := fresh "a" in
          let s := fresh "s" in
          let Hm := fresh "Hm" in
          apply bind_inv in H as (a & s & Hm & H)).

(** The branch of a catalogued tool ends in an assignment to [result],
    never in the early return. *)
Lemma call_by_name_known (name : string) (args : value) (p p' : Process)
    (r : payload + rpc_body) :
  In name (map d_name tools) ->
  call_by_name (VStr name) args p = (Ok r, p') -> exists out, r = inl out.
Proof.
  intros Hin Hrun. cbn in Hin.
  destruct Hin as [<-|[<-|[<-|[<-|[<-|[]]]]]];
    unfold call_by_name in Hrun; decide_names Hrun; open_binds Hrun;
    injection Hrun as <- _; eauto.
Qed.

(** X3.  A call of a catalogued tool is always answered with a result,
    never with a transport-level error, whatever the arguments, the
    state of the session and the remote side do. *)
Theorem known_tool_calls_answer_in_band
    (name : string) (args request_id : value) (p : Process) :
  In name (map d_name tools) ->
  exists out p',
    handleJsonRpc (tools_call name args request_id) p
    = (Ok (respond (RpcResult (ToolOutput out)) request_id), p').
Proof.
  intros Hin. rewrite handleJsonRpc_tools_call.
  destruct (checkAuth_cases p) as (b & p1 & ->).
  destruct b; [|eauto].
  destruct (call_by_name (VStr name) args p1) as [[r|e] p2] eqn:Hrun; [|eauto].
  destruct (call_by_name_known _ _ _ _ _ Hin Hrun) as [out ->]. eauto.
Qed.

Lemma getDocument_rejected (p : Process) (documentId msg : string) :
  authenticated p ->
  documents_get (VStr (extractDocumentId documentId)) = inl msg ->
  exists p', getDocument (VStr documentId) p = (Throw (Exn RemoteError msg), p').
Proof.
  intros Hauth Hanswer. unfold getDocument.
  erewrite bind_of_ok by apply log_eq.
  destruct (authenticated_ensure _ (authenticated_logged (EvTool "getDocument") p Hauth))
    as [p1 Hp1].
  erewrite bind_of_ok by exact Hp1.
  erewrite bind_of_ok by reflexivity.
  unfold bind. rewrite remote_call_eq, Hanswer. eauto.
Qed.

(** X4.  When the gate is open and the Docs service rejects the fetch,
    [get_document] answers on both bindings with a payload that carries
    the error flag and the text ["Error: "] followed by the service's
    message. *)
Theorem document_fetch_failure_is_reported
    (documentId msg : string) (args request_id : value) (p : Process) :
  fst (checkAuth p) = Ok true ->
  prop args "documentId" = Ok (VStr documentId) ->
  documents_get (VStr (extractDocumentId documentId)) = inl msg ->
  fst (handleJsonRpc (tools_call "get_document" args request_id) p)
  = Ok (respond (RpcResult (ToolOutput {| text := "Error: " +:+ msg; isError := true |}))
                request_id)
  /\ fst (stdio_call (GetDocument documentId) p)
     = Ok {| text := "Error: " +:+ msg; isError := true |}.
Proof.
  intros Hgate Hid Hanswer. destruct (checkAuth_true p Hgate) as (p1 & Hp1 & Hauth).
  destruct (getDocument_rejected p1 documentId msg Hauth Hanswer) as [p2 Hp2].
  split.
  - rewrite handleJsonRpc_tools_call, Hp1.
    change (call_by_name (VStr "get_document") args) with
      (let* documentId := lift_result (prop args "documentId") in
       let* doc := getDocument documentId in
       ret (inl (success (render_document doc))) : Proc (payload + rpc_body)).
    erewrite bind_of_ok by (rewrite Hid; reflexivity).
    unfold bind. rewrite Hp2. reflexivity.
  - cbn [stdio_call]. unfold get_document_handler, gated.
    erewrite bind_of_ok by exact Hp1. cbn [negb].
    unfold try_catch, bind. rewrite Hp2. reflexivity.
Qed.

(** X5.  With the gate open, a call that names no catalogued tool is
    answered with error [-32601] and the text ["Unknown tool: "] followed
    by the name; apart from the gate's own record nothing is recorded: no
    tool function is entered and no remote call is made. *)
Theorem unknown_tool_is_method_not_found
    (name : string) (args request_id : value) (p : Process) :
  fst (checkAuth p) = Ok true ->
  ~ In name (map d_name tools) ->
  fst (handleJsonRpc (tools_call name args request_id) p)
  = Ok (respond (RpcError (-32601) ("Unknown tool: " +:+ name)) request_id)
  /\ trace (world (snd (handleJsonRpc (tools_call name args request_id) p)))
     = trace (world p) ++ [EvAuthCheck].
Proof.
  intros Hgate Hout.
  assert (call_by_name (VStr name) args
          = ret (inr (RpcError (-32601) ("Unknown tool: " +:+ name)))) as Hbranch.
  { unfold call_by_name. cbn [is_str].
    repeat match goal with
           | |- context [String.eqb name ?k] =>
               let E := fresh "E" in
               destruct (String.eqb name k) eqn:E;
               [apply String.eqb_eq in E; exfalso; apply Hout; rewrite E; cbn; tauto|]
           end.
    reflexivity. }
  rewrite handleJsonRpc_tools_call, Hbranch.
  pose proof (checkAuth_eq p) as Heq. rewrite Heq in Hgate |- *.
  destruct (session p) as [o|e]; [|discriminate].
  destruct (usable_tokens (credentialsPath o) (world p)); [|discriminate].
  split; reflexivity.
Qed.

Lemma gated_cases (body : Proc payload) (p : Process) :
  exists out p', gated body p = (Ok out, p').
Proof.
  unfold gated, bind. destruct (checkAuth_cases p) as (b & p1 & ->).
  destruct b; cbn [negb]; [|eauto].
  unfold try_catch. destruct (body p1) as [[out|e] p2]; eauto.
Qed.

(** X6.  Every handler registered for the stdio binding returns a
    payload, whatever its arguments and the state: a failure of the
    session, of the token file or of the remote side never escapes as an
    exception. *)
Theorem registered_handlers_never_throw (c : tool_call) (p : Process) :
  exists out p', stdio_call c p = (Ok out, p').
Proof. destruct c; apply gated_cases. Qed.

Lemma gated_data_needs_gate (body : Proc payload) (p : Process) (out : payload) :
  fst (gated body p) = Ok out -> isError out = false -> fst (checkAuth p) = Ok true.
Proof.
  intros Hrun Hflag. destruct (checkAuth_cases p) as (b & p1 & Hb).
  rewrite Hb. destruct b; [reflexivity|]. exfalso.
  rewrite gated_closed in Hrun by (rewrite Hb; reflexivity).
  cbn [fst] in Hrun. injection Hrun as <-. discriminate.
Qed.

(** X7.  The gate is sound on both bindings: a tool answer without the
    error flag is only ever produced in an authenticated process, one
    whose session is available and whose token file offers a refresh
    token at the time of the call. *)
Theorem data_only_when_authenticated (p : Process) :
  (forall (c : tool_call) (out : payload),
      fst (stdio_call c p) = Ok out -> isError out = false -> authenticated p)
  /\ (forall (name : string) (args request_id : value) (out : payload),
        fst (handleJsonRpc (tools_call name args request_id) p)
        = Ok (respond (RpcResult (ToolOutput out)) request_id) ->
        isError out = false -> authenticated p).
Proof.
  split.
  - intros c out Hrun Hflag. apply checkAuth_iff.
    destruct c; exact (gated_data_needs_gate _ p out Hrun Hflag).
  - intros name args request_id out Hrun Hflag. apply checkAuth_iff.
    rewrite handleJsonRpc_tools_call in Hrun.
    destruct (checkAuth_cases p) as (b & p1 & Hb). rewrite Hb in Hrun |- *.
    destruct b; [reflexivity|]. cbn [fst] in Hrun.
    injection Hrun as <-. discriminate.
Qed.

(** X8.  While the gate is closed, a tool call on either binding records
    the authentication check and nothing else (no tool function entered,
    no remote call, no write) and leaves files and directories as they
    were. *)
Theorem closed_gate_calls_nothing (p : Process) :
  fst (checkAuth p) = Ok false ->
  (forall c : tool_call,
      trace (world (snd (stdio_call c p))) = trace (world p) ++ [EvAuthCheck]
      /\ files (world (snd (stdio_call c p))) = files (world p)
      /\ dirs (world (snd (stdio_call c p))) = dirs (world p))
  /\ (forall (name : string) (args request_id : value),
        trace (world (snd (handleJsonRpc (tools_call name args request_id) p)))
        = trace (world p) ++ [EvAuthCheck]
        /\ files (world (snd (handleJsonRpc (tools_call name args request_id) p)))
           = files (world p)
        /\ dirs (world (snd (handleJsonRpc (tools_call name args request_id) p)))
           = dirs (world p)).
Proof.
  intros Hgate.
  assert (trace (world (snd (checkAuth p))) = trace (world p) ++ [EvAuthCheck]
          /\ files (world (snd (checkAuth p))) = files (world p)
          /\ dirs (world (snd (checkAuth p))) = dirs (world p)) as Hstate.
  { rewrite checkAuth_eq. destruct (session p) as [o|e]; [|repeat split].
    destruct (usable_tokens _ _); repeat split. }
  split.
  - intros c. destruct c; cbn [stdio_call];
      unfold get_document_handler, list_documents_handler, get_spreadsheet_handler,
        get_sheet_data_handler, list_spreadsheets_handler;
      rewrite gated_closed by exact Hgate; exact Hstate.
  - intros name args request_id. rewrite handleJsonRpc_tools_call.
    destruct (checkAuth p) as [[b|e] p1]; cbn [fst snd] in *; [|discriminate].
    injection Hgate as ->. exact Hstate.
Qed.

(** X9.  The gate follows the token file, not the memory of the session:
    once the file is gone the check fails, even for a session whose
    in-memory credentials still hold a refresh token and for which
    [isAuthenticated] answers [true]; and the answer is the same whatever
    credentials the session holds. *)
Theorem gate_follows_the_token_file (o : GoogleOAuth) (w : World) :
  (files w !! credentialsPath o = None ->
   fst (checkAuth {| world := w; oauthInstance := Some o |}) = Ok false)
  /\ (forall held : value,
        fst (checkAuth {| world := w; oauthInstance := Some (with_credentials o held) |})
        = fst (checkAuth {| world := w; oauthInstance := Some o |})).
Proof.
  split.
  - intros Hgone. rewrite checkAuth_eq. cbn [session oauthInstance world].
    unfold usable_tokens. rewrite Hgone. reflexivity.
  - intros held. rewrite !checkAuth_eq. cbn [session oauthInstance world].
    cbn [credentialsPath with_credentials].
    destruct (usable_tokens (credentialsPath o) w); reflexivity.
Qed.


End DispatcherFacts.

(** ** Command line and environment *)

Section CliFacts.
Import Text Js Monad Runtime Cli.

Lemma pick_transport_app (before after : list string) :
  pick_transport (before ++ after)
  = fold_left
      (fun transport arg =>
         if String.eqb arg "--stdio" then Stdio
         else if String.eqb arg "--http" then Http
         else transport)
      after (pick_transport before).
Proof. unfold pick_transport. apply fold_left_app. Qed.

(** Arguments that are no transport flag change nothing. *)
Lemma fold_no_flag (rest : list string) (t : TransportType) :
  Forall (fun arg => arg <> "--stdio" /\ arg <> "--http") rest ->
  fold_left
    (fun transport arg =>
       if String.eqb arg "--stdio" then Stdio
       else if String.eqb arg "--http" then Http
       else transport)
    rest t = t.
Proof.
  intros Hrest. revert t. induction Hrest as [|arg rest [Hs Hh] _ IH]; intros t;
    [reflexivity|].
  cbn [fold_left].
  destruct (String.eqb_spec arg "--stdio"); [contradiction|].
  destruct (String.eqb_spec arg "--http"); [contradiction|].
  apply IH.
Qed.

Lemma string_of_uint_app_empty (d : Decimal.uint) :
  NilEmpty.string_of_uint d +:+ EmptyString = NilEmpty.string_of_uint d.
Proof.
  generalize (NilEmpty.string_of_uint d). intros s.
  induction s as [|x s IH]; [reflexivity|]. rewrite append_cons, IH. reflexivity.
Qed.

(** The decimal text of a safe integer is read back exactly. *)
Lemma parseInt10_of_Z (n : Z) : safe_integer n -> parseInt10 (of_Z n) = Exact n.
Proof.
  intros [Hlo Hhi]. unfold parseInt10. destruct n as [|p|p].
  - reflexivity.
  - rewrite of_Z_pos. destruct (to_uint_head p) as (c & r & Hs & Hc).
    pose proof (take_digits_uint (Pos.to_uint p) EmptyString eq_refl) as Hd.
    pose proof (digits_value_zero (Pos.to_uint p)) as Hv.
    rewrite Unsigned.of_to in Hv. rewrite string_of_uint_app_empty in Hd.
    rewrite Hs in *.
    unfold between in Hc. apply andb_prop in Hc as [Hclo Hchi].
    apply Nat.leb_le in Hclo. apply Nat.leb_le in Hchi.
    rewrite trim_start_fixed.
    2:{ apply plain_head; [lia| |apply Nat.eqb_neq; lia].
        unfold between. destruct (Nat.leb_spec (code c) 13); [lia|].
        apply andb_false_r. }
    destruct (Nat.eqb_spec (code c) 45); [lia|].
    destruct (Nat.eqb_spec (code c) 43); [lia|].
    rewrite Hd. cbn [fst]. rewrite Hv. cbn [Z.of_N].
    destruct (Z.ltb_spec (Z.pos p) (2 ^ 53)); [reflexivity|lia].
  - rewrite of_Z_neg.
    pose proof (take_digits_uint (Pos.to_uint p) EmptyString eq_refl) as Hd.
    pose proof (digits_value_zero (Pos.to_uint p)) as Hv.
    rewrite Unsigned.of_to in Hv. rewrite string_of_uint_app_empty in Hd.
    rewrite trim_start_fixed
      by (apply plain_head; [apply Nat.ltb_lt; reflexivity|reflexivity|reflexivity]).
    change (Nat.eqb (code "-") 45) with true. cbv iota.
    rewrite Hd. cbn [fst].
    destruct (to_uint_head p) as (c & r & Hs & _). rewrite Hs in *. rewrite Hv.
    cbn [Z.of_N]. destruct (Z.ltb_spec (Z.pos p) (2 ^ 53)); [reflexivity|lia].
Qed.

(** Signs and white space in front of the digits. *)
Lemma parseInt10_space (sp s : string) :
  space_char sp -> parseInt10 (sp +:+ s) = parseInt10 s.
Proof. intros Hsp. unfold parseInt10. rewrite (trim_start_space _ _ Hsp). reflexivity. Qed.

Lemma parseArgs_eq (args : list string) (w : World) :
  parseArgs args w
  = (Ok (pick_transport args,
         num_or
           (parseInt10
              match env w !! "MCP_PORT" with
              | Some (String c r) => String c r
              | _ => match env w !! "PORT" with
                     | Some s => s
                     | None => EmptyString
                     end
              end) DEFAULT_PORT), w).
Proof.
  unfold parseArgs. run_monad. unfold js_or.
  destruct (env w !! "MCP_PORT") as [[|c r]|]; cbn [opt_str truthy is_empty negb];
    destruct (env w !! "PORT") as [[|c' r']|]; reflexivity.
Qed.

(** X11.  [parseArgs] reads only.  The transport is HTTP unless a flag
    says otherwise, and of several flags the last one counts.  The port
    is never zero and never [NaN]; it is what [parseInt] reads in
    [MCP_PORT] when that variable is set and not empty, and then [PORT]
    is not consulted, even if [MCP_PORT] holds no number (the default
    12333 is used); [PORT] is used when [MCP_PORT] is unset or empty;
    without either the port is 12333.  The decimal text of a safe
    integer other than zero is read as that integer (beyond the safe
    range the port is the number the engine rounds to, which is left
    open), and white space in front of the digits is ignored, in every
    encoding [parseInt] knows. *)
Theorem parseArgs_rules (args : list string) (w : World) :
  exists transport port,
    parseArgs args w = (Ok (transport, port), w)
    /\ port <> Exact 0
    /\ port <> NaN
    /\ (Forall (fun arg => arg <> "--stdio" /\ arg <> "--http") args -> transport = Http)
    /\ (forall before after,
          args = before ++ "--stdio" :: after ->
          Forall (fun arg => arg <> "--stdio" /\ arg <> "--http") after ->
          transport = Stdio)
    /\ (forall before after,
          args = before ++ "--http" :: after ->
          Forall (fun arg => arg <> "--stdio" /\ arg <> "--http") after ->
          transport = Http)
    /\ (forall (c : ascii) (r : string),
          env w !! "MCP_PORT" = Some (String c r) ->
          port = num_or (parseInt10 (String c r)) DEFAULT_PORT)
    /\ (forall n : Z,
          n <> 0 -> safe_integer n -> env w !! "MCP_PORT" = Some (of_Z n) ->
          port = Exact n)
    /\ (forall (n : Z) (sp : string),
          n <> 0 -> safe_integer n -> space_char sp ->
          env w !! "MCP_PORT" = Some (sp +:+ of_Z n) ->
          port = Exact n)
    /\ (forall s : string,
          (env w !! "MCP_PORT" = None \/ env w !! "MCP_PORT" = Some EmptyString) ->
          env w !! "PORT" = Some s ->
          port = num_or (parseInt10 s) DEFAULT_PORT)
    /\ ((env w !! "MCP_PORT" = None \/ env w !! "MCP_PORT" = Some EmptyString) ->
        (env w !! "PORT" = None \/ env w !! "PORT" = Some EmptyString) ->
        port = Exact 12333).
Proof.
  rewrite parseArgs_eq. eexists _, _. split; [reflexivity|].
  repeat apply conj.
  - unfold num_or. destruct (parseInt10 _) as [|v|negative digits]; try discriminate.
    destruct (Z.eqb_spec v 0); [discriminate|congruence].
  - unfold num_or. destruct (parseInt10 _) as [|v|negative digits]; try discriminate.
    destruct (v =? 0); discriminate.
  - intros Hnone. unfold pick_transport. apply fold_no_flag, Hnone.
  - intros before after -> Hafter.
    rewrite pick_transport_app. cbn [fold_left].
    change (String.eqb "--stdio" "--stdio") with true. cbv iota.
    apply fold_no_flag, Hafter.
  - intros before after -> Hafter.
    rewrite pick_transport_app. cbn [fold_left].
    change (String.eqb "--http" "--stdio") with false.
    change (String.eqb "--http" "--http") with true. cbv iota.
    apply fold_no_flag, Hafter.
  - intros c r ->. reflexivity.
  - intros n Hn Hsafe Hvar. rewrite Hvar.
    destruct (of_Z_head n) as (c & r & Hs & _). rewrite Hs, <- Hs.
    rewrite (parseInt10_of_Z _ Hsafe). unfold num_or.
    destruct (Z.eqb_spec n 0); [contradiction|reflexivity].
  - intros n sp Hn Hsafe Hsp Hvar. rewrite Hvar.
    destruct Hsp as [Hne Hw]. destruct sp as [|c r]; [congruence|].
    rewrite append_cons, <- append_cons.
    rewrite (parseInt10_space _ _ (conj Hne Hw)), (parseInt10_of_Z _ Hsafe). unfold num_or.
    destruct (Z.eqb_spec n 0); [contradiction|reflexivity].
  - intros s [->| ->] ->; reflexivity.
  - intros [->| ->] [->| ->]; reflexivity.
Qed.

End CliFacts.

(** ** The session beyond the claims *)

Section SessionFacts.
Import Text Js Monad Runtime OAuth Tools Server Stored Ids.
Context `{!JsonRuntime} `{!Remote}.

Lemma prop_ok_get (v r : value) (k : string) : prop v k = Ok r -> r = get v k.
Proof. destruct v; try discriminate; intros [= <-]; reflexivity. Qed.

Lemma usable_tokens_refresh (path : string) (w : World) (tokens : value) :
  usable_tokens path w = Some tokens -> truthy (get tokens "refresh_token") = true.
Proof.
  unfold usable_tokens. destruct (files w !! path) as [content|]; [|discriminate].
  destruct (JSON_parse content) as [v|]; [|discriminate].
  destruct (prop v "refresh_token") as [r|] eqn:Hr; [|discriminate].
  destruct (truthy r) eqn:Ht; [|discriminate].
  intros [= <-]. apply prop_ok_get in Hr. subst r. exact Ht.
Qed.

(** X12.  [loadTokens] never throws and never changes the world.  When
    it answers [false] the session is exactly as before (credentials
    already held are not dropped); when it answers [true] only the
    credentials changed and [isAuthenticated] answers [true] on the
    result.  It answers [false] when the token path is not a regular
    file and when the file does not parse. *)
Theorem loadTokens_contract (this : GoogleOAuth) (w : World) :
  exists b this',
    loadTokens (this, w) = (Ok b, (this', w))
    /\ (b = false -> this' = this)
    /\ (b = true ->
        oauthConfig this' = oauthConfig this
        /\ credentialsPath this' = credentialsPath this
        /\ isAuthenticated (this', w) = (Ok true, (this', w)))
    /\ (files w !! credentialsPath this = None -> b = false)
    /\ (forall content,
          files w !! credentialsPath this = Some content ->
          JSON_parse content = None -> b = false).
Proof.
  rewrite loadTokens_eq.
  destruct (usable_tokens (credentialsPath this) w) as [tokens|] eqn:Hu.
  - exists true, (with_credentials this tokens). split; [reflexivity|].
    split; [discriminate|]. split; [|split].
    + intros _. split; [reflexivity|]. split; [reflexivity|].
      rewrite isAuthenticated_eq. cbn [credentials with_credentials].
      rewrite (usable_tokens_refresh _ _ _ Hu). reflexivity.
    + intros Hgone. unfold usable_tokens in Hu. rewrite Hgone in Hu. discriminate.
    + intros content Hfile Hparse. unfold usable_tokens in Hu.
      rewrite Hfile, Hparse in Hu. discriminate.
  - exists false, this. repeat split; try reflexivity; discriminate.
Qed.

(** X13.  When the token endpoint rejects the authorization code,
    [exchangeCodeForTokens] throws the endpoint's error after that single
    request; the session and the files are as before. *)
Theorem exchange_rejection_changes_nothing
    (this : GoogleOAuth) (w : World) (code msg : string) :
  oauth_getToken code = inl msg ->
  exchangeCodeForTokens code (this, w)
  = (Throw (Exn RemoteError msg), (this, add_event (EvRemote "oauth2/token") w)).
Proof.
  intros Hreject. unfold exchangeCodeForTokens, client_getToken. run_monad.
  rewrite Hreject. reflexivity.
Qed.

Lemma append_cancel_l (a x y : string) : a +:+ x = a +:+ y -> x = y.
Proof.
  induction a as [|c a IH]; [trivial|].
  rewrite !append_cons. intros [= E]. apply IH, E.
Qed.

Lemma tokens_path_is_no_candidate (base : string) :
  ~ In (path_join [base; CREDENTIALS_DIR; TOKENS_FILE]) (possiblePaths base).
Proof.
  unfold possiblePaths.
  change (path_join [base; CREDENTIALS_DIR; TOKENS_FILE])
    with (base +:+ "/.credentials/tokens.json").
  change (path_join [base; CLIENT_SECRET_FILE]) with (base +:+ "/client_secret.json").
  change (path_join [base; CREDENTIALS_DIR; CLIENT_SECRET_FILE])
    with (base +:+ "/.credentials/client_secret.json").
  intros [E|[E|[]]]; apply append_cancel_l in E; discriminate.
Qed.

(** The constructor looks at the environment, the working directory and
    the two candidate files only. *)
Lemma resolve_ext (config : option PartialConfig) (w w' : World) :
  env w' = env w -> cwd w' = cwd w ->
  (forall path, In path (possiblePaths (base_dir w)) -> files w' !! path = files w !! path) ->
  resolve config w' = resolve config w.
Proof.
  intros Henv Hcwd Hfiles.
  assert (base_dir w' = base_dir w) as Hbase by (unfold base_dir; rewrite Henv, Hcwd; reflexivity).
  assert (first_usable (possiblePaths (base_dir w')) w'
          = first_usable (possiblePaths (base_dir w)) w) as Hfile.
  { rewrite Hbase. unfold possiblePaths in *. cbn [first_usable]. unfold usable_secret.
    rewrite !Hfiles by (cbn; tauto). reflexivity. }
  unfold resolve, resolved_clientId, resolved_clientSecret, resolved_redirectUri,
    sources, env_value.
  rewrite Hfile, Hbase, Henv. reflexivity.
Qed.

Lemma new_session_path (config : option PartialConfig) (w : World) (o : GoogleOAuth) :
  resolve config w = Ok o ->
  credentialsPath o = path_join [base_dir w; CREDENTIALS_DIR; TOKENS_FILE]
  /\ credentials o = VObj [].
Proof.
  unfold resolve. destruct (_ || _)%bool; [discriminate|].
  intros [= <-]. split; reflexivity.
Qed.

(** X14.  A successful code exchange installs and persists the granted
    tokens, and a server process started afterwards on the same disk is
    authenticated exactly when the grant included a non-empty refresh
    token: the exchange of [bin/auth.ts] and the gate of the server meet
    through the token file.  (The expiry date of the grant is a safe
    integer; the codec is assumed to read back the tokens it wrote and
    the server to find its client credentials; the
    token file must be writable: the token path is not a directory and
    no regular file stands at the credentials directory or above it.) *)
Theorem exchange_then_server_start
    (config : option PartialConfig) (w : World) (o server : GoogleOAuth)
    (code text : string) (t : StoredTokens) :
  fst (new_GoogleOAuth config w) = Ok o ->
  fst (new_GoogleOAuth None w) = Ok server ->
  oauth_getToken code = inr t ->
  safe_expiry t ->
  JSON_stringify (tokens_to_value t) = Some text ->
  JSON_parse text = Some (tokens_to_value t) ->
  writable (path_join [base_dir w; CREDENTIALS_DIR; TOKENS_FILE]) w ->
  exists w',
    exchangeCodeForTokens code (o, w)
    = (Ok t, (with_credentials o (tokens_to_value t), w'))
    /\ files w' = <[credentialsPath o := text]> (files w)
    /\ fst (isAuthenticated (with_credentials o (tokens_to_value t), w'))
       = Ok (has_refresh_token t)
    /\ fst (checkAuth {| world := w'; oauthInstance := None |})
       = Ok (has_refresh_token t).
Proof.
  intros Ho Hserver Hgrant _ Htext Hparse Hdir.
  rewrite new_GoogleOAuth_eq in Ho, Hserver. cbn [fst] in Ho, Hserver.
  destruct (new_session_path _ _ _ Ho) as [Hpath _].
  destruct (new_session_path _ _ _ Hserver) as [Hspath _].
  set (w1 := add_event (EvRemote "oauth2/token") w).
  assert (writable (credentialsPath (with_credentials o (tokens_to_value t))) w1) as Hdir1.
  { cbn [credentialsPath with_credentials]. rewrite Hpath. exact Hdir. }
  destruct (saveTokens_eq (with_credentials o (tokens_to_value t)) w1 _ text Htext Hdir1)
    as (w' & Hsave & Hfiles & _ & Henv & Hcwd & _).
  cbn [credentialsPath with_credentials] in Hfiles.
  exists w'. split; [|split; [exact Hfiles|split]].
  - unfold exchangeCodeForTokens, client_getToken.
    erewrite bind_of_ok
      by (unfold in_world, remote_call; run_monad; rewrite Hgrant; reflexivity).
    erewrite bind_of_ok by reflexivity.
    fold w1. erewrite bind_of_ok by exact Hsave. reflexivity.
  - rewrite isAuthenticated_eq. cbn [fst credentials with_credentials].
    rewrite get_refresh_token, truthy_opt_str_refresh. reflexivity.
  - rewrite checkAuth_eq. cbn [session oauthInstance world].
    assert (resolve None w' = resolve None w) as ->.
    { apply resolve_ext; [exact Henv|exact Hcwd|].
      intros path Hin. rewrite Hfiles. apply lookup_insert_ne.
      intros E. rewrite <- E, Hpath in Hin.
      exact (tokens_path_is_no_candidate _ Hin). }
    rewrite Hserver. unfold usable_tokens.
    rewrite Hfiles, Hspath, <- Hpath, lookup_insert_eq, Hparse.
    assert (prop (tokens_to_value t) "refresh_token" = Ok (opt_str (refresh_token t))) as ->.
    { rewrite <- get_refresh_token. reflexivity. }
    rewrite truthy_opt_str_refresh. destruct (has_refresh_token t); reflexivity.
Qed.

(** X15.  The shared session is built once: after a successful
    [getOAuthInstance] every later call returns the same object without
    looking at the environment or the disk again, whatever they have
    become.  A failed construction is not remembered: the world is
    untouched, the slot stays empty, and a later call builds the session
    as soon as the configuration resolves. *)
Theorem session_is_built_once (p : Process) :
  (forall o p',
      getOAuthInstance p = (Ok o, p') ->
      world p' = world p
      /\ forall w2,
           getOAuthInstance {| world := w2; oauthInstance := oauthInstance p' |}
           = (Ok o, {| world := w2; oauthInstance := Some o |}))
  /\ (forall e p',
        getOAuthInstance p = (Throw e, p') ->
        p' = p
        /\ forall w2 o2,
             fst (new_GoogleOAuth None w2) = Ok o2 ->
             getOAuthInstance {| world := w2; oauthInstance := oauthInstance p' |}
             = (Ok o2, {| world := w2; oauthInstance := Some o2 |})).
Proof.
  split.
  - intros o p' Hrun. rewrite getOAuthInstance_eq in Hrun.
    destruct (session p) as [o1|e]; [|discriminate].
    injection Hrun as -> <-. split; [reflexivity|]. intros w2. reflexivity.
  - intros e p' Hrun. rewrite getOAuthInstance_eq in Hrun.
    destruct (session p) as [o1|e1] eqn:Hs; [discriminate|].
    injection Hrun as -> <-. split; [reflexivity|].
    intros w2 o2 Hnew. rewrite new_GoogleOAuth_eq in Hnew. cbn [fst] in Hnew.
    assert (oauthInstance p = None) as Hnone.
    { unfold session in Hs. destruct (oauthInstance p); [discriminate|reflexivity]. }
    rewrite getOAuthInstance_eq. unfold session. cbn [oauthInstance world].
    rewrite Hnone, Hnew. reflexivity.
Qed.

Lemma ensure_refused (p : Process) (o : GoogleOAuth) :
  oauthInstance p = Some o -> fst (checkAuth p) = Ok false ->
  ensureAuthenticated p = (Throw (Exn PlainError NOT_AUTHENTICATED), p).
Proof.
  intros Hinst Hgate. rewrite checkAuth_eq in Hgate. rewrite ensureAuthenticated_eq.
  unfold session in *. rewrite Hinst in *.
  destruct (usable_tokens (credentialsPath o) (world p)); [discriminate|].
  destruct p as [w i]. cbn in *. subst i. reflexivity.
Qed.

Lemma checkAuth_logged (e : event) (p : Process) :
  fst (checkAuth (logged e p)) = fst (checkAuth p).
Proof.
  rewrite !checkAuth_eq.
  assert (session (logged e p) = session p) as ->.
  { unfold session, logged. cbn [oauthInstance world]. destruct (oauthInstance p); reflexivity. }
  cbn [world logged].
  destruct (session p) as [o|x]; [|reflexivity].
  rewrite usable_tokens_add_event. destruct (usable_tokens _ _); reflexivity.
Qed.

(** X16.  The five tool functions guard themselves: called in a process
    whose session exists but whose token file offers no refresh token,
    each throws the "not authenticated" error before anything else;
    the entry into the function is the only thing recorded, so no remote
    call is made, whatever the arguments are. *)
Theorem tools_refuse_without_tokens (p : Process) (o : GoogleOAuth) :
  oauthInstance p = Some o ->
  fst (checkAuth p) = Ok false ->
  (forall v, getDocument v p
             = (Throw (Exn PlainError NOT_AUTHENTICATED), logged (EvTool "getDocument") p))
  /\ (forall l q, listDocuments l q p
                  = (Throw (Exn PlainError NOT_AUTHENTICATED),
                     logged (EvTool "listDocuments") p))
  /\ (forall q l, searchDocuments q l p
                  = (Throw (Exn PlainError NOT_AUTHENTICATED),
                     logged (EvTool "listDocuments") p))
  /\ (forall v, getSpreadsheet v p
                = (Throw (Exn PlainError NOT_AUTHENTICATED),
                   logged (EvTool "getSpreadsheet") p))
  /\ (forall v r, getSheetData v r p
                  = (Throw (Exn PlainError NOT_AUTHENTICATED),
                     logged (EvTool "getSheetData") p))
  /\ (forall l q, listSpreadsheets l q p
                  = (Throw (Exn PlainError NOT_AUTHENTICATED),
                     logged (EvTool "listSpreadsheets") p)).
Proof.
  intros Hinst Hgate.
  assert (forall name,
             ensureAuthenticated (logged (EvTool name) p)
             = (Throw (Exn PlainError NOT_AUTHENTICATED), logged (EvTool name) p)) as Hrefuse.
  { intros name. apply (ensure_refused _ o); [exact Hinst|].
    rewrite checkAuth_logged. exact Hgate. }
  repeat apply conj; intros;
    unfold searchDocuments, getDocument, listDocuments, getSpreadsheet, getSheetData,
      listSpreadsheets;
    (erewrite bind_of_ok by apply log_eq); unfold bind; rewrite Hrefuse; reflexivity.
Qed.

(** X17.  A successful refresh keeps the refresh token the session held,
    installs the renewed credentials and writes exactly those to the
    token file after a single request to the endpoint; the session is
    still authenticated afterwards.  (The codec is assumed to encode
    every object; the token file must be writable: the token path is not
    a directory and no regular file stands at its directory or above
    it.) *)
Theorem refresh_success_is_persisted (this : GoogleOAuth) (w : World) (t : StoredTokens) :
  truthy (get (credentials this) "refresh_token") = true ->
  oauth_refreshToken (get (credentials this) "refresh_token") = inr t ->
  (forall fields, exists text, JSON_stringify (VObj fields) = Some text) ->
  writable (credentialsPath this) w ->
  exists w' renewed text,
    refreshAccessToken (this, w) = (Ok tt, (with_credentials this renewed, w'))
    /\ get renewed "refresh_token" = get (credentials this) "refresh_token"
    /\ get renewed "access_token" = opt_str (access_token t)
    /\ JSON_stringify renewed = Some text
    /\ files w' = <[credentialsPath this := text]> (files w)
    /\ trace w' = trace w ++ [EvRemote "oauth2/token"; EvWrite (credentialsPath this)]
    /\ fst (isAuthenticated (with_credentials this renewed, w')) = Ok true.
Proof.
  intros Hheld Hanswer Hcodec Hdir.
  set (refresh := get (credentials this) "refresh_token") in *.
  destruct (tokens_to_value t) as [| | | | | |fields] eqn:Hfields; try discriminate.
  set (renewed := VObj (set_field "refresh_token" refresh fields)).
  destruct (Hcodec (set_field "refresh_token" refresh fields)) as [text Htext].
  fold renewed in Htext.
  set (w1 := add_event (EvRemote "oauth2/token") w).
  assert (get renewed "refresh_token" = refresh) as Hkept.
  { unfold renewed. cbn [get]. clear. induction fields as [|[k v] fs IH].
    - reflexivity.
    - cbn [set_field]. destruct (String.eqb "refresh_token" k) eqn:E.
      + reflexivity.
      + cbn [assoc]. rewrite E. exact IH. }
  assert (get renewed "access_token" = opt_str (access_token t)) as Haccess.
  { unfold renewed. unfold tokens_to_value in Hfields. injection Hfields as <-.
    destruct t as [[a|] [r|] [x|] [y|] [z|]]; reflexivity. }
  destruct (saveTokens_eq (with_credentials this renewed) w1 renewed text Htext Hdir)
    as (w' & Hsave & Hfiles & _ & _ & _ & Htrace).
  cbn [credentialsPath with_credentials] in Hfiles, Htrace.
  exists w', renewed, text.
  split; [|split; [exact Hkept|split; [exact Haccess|split; [exact Htext|split; [|split]]]]].
  - unfold refreshAccessToken.
    assert (client_refreshAccessToken (this, w)
            = (Ok renewed, (with_credentials this renewed, w1))) as Hclient.
    { unfold client_refreshAccessToken. run_monad.
      rewrite (prop_of_truthy_get _ _ Hheld). fold refresh. rewrite Hheld, Hanswer, Hfields.
      reflexivity. }
    erewrite bind_of_ok by exact Hclient.
    erewrite bind_of_ok by reflexivity.
    exact Hsave.
  - exact Hfiles.
  - rewrite Htrace. cbn [w1 add_event trace]. rewrite <- app_assoc. reflexivity.
  - rewrite isAuthenticated_eq. cbn [fst credentials with_credentials].
    rewrite Hkept, Hheld. reflexivity.
Qed.

(** X18.  [loadClientSecret] reads only.  When the first candidate is a
    file that parses and has a truthy [installed] section, its values are
    returned whatever the [web] section and the second candidate hold;
    the redirect URI is the first listed one when that is truthy and the
    fixed localhost URI otherwise.  When neither candidate is a regular
    file, the answer is [null]. *)
Theorem loadClientSecret_prefers_installed (basePath : string) (w : World) :
  snd (loadClientSecret basePath w) = w
  /\ (forall content secret,
        files w !! path_join [basePath; CLIENT_SECRET_FILE] = Some content ->
        JSON_parse content = Some secret ->
        truthy (get secret "installed") = true ->
        fst (loadClientSecret basePath w)
        = Ok (Some {| clientId := get (get secret "installed") "client_id";
                      clientSecret := get (get secret "installed") "client_secret";
                      redirectUri :=
                        if truthy (opt_index0 (get (get secret "installed") "redirect_uris"))
                        then opt_index0 (get (get secret "installed") "redirect_uris")
                        else VStr "http://localhost:3000/oauth2callback" |}))
  /\ (files w !! path_join [basePath; CLIENT_SECRET_FILE] = None ->
      files w !! path_join [basePath; CREDENTIALS_DIR; CLIENT_SECRET_FILE] = None ->
      fst (loadClientSecret basePath w) = Ok None).
Proof.
  unfold loadClientSecret. rewrite probePaths_eq. cbn [fst snd].
  split; [reflexivity|split].
  - intros content secret Hfile Hparse Hinstalled.
    unfold possiblePaths. cbn [first_usable]. unfold usable_secret, secret_config.
    rewrite Hfile, Hparse, (prop_of_truthy_get _ _ Hinstalled).
    assert (js_or (get secret "installed") (get secret "web") = get secret "installed")
      as -> by (unfold js_or; rewrite Hinstalled; reflexivity).
    rewrite Hinstalled. reflexivity.
  - intros H1 H2. unfold possiblePaths. cbn [first_usable]. unfold usable_secret.
    rewrite H1, H2. reflexivity.
Qed.

End SessionFacts.

(** ** The tool functions beyond the claims *)

Section ToolFacts.
Import Text Js Monad Runtime OAuth Tools Server Stored Ids Shape.
Context `{!JsonRuntime} `{!Remote}.








Lemma guarded_escape (s : string) (b : bool) : guarded b (escape_quotes s) = true.
Proof.
  revert b. induction s as [|c s IH]; intros b; [reflexivity|].
  cbn [escape_quotes]. destruct (Nat.eqb (code c) 39) eqn:E.
  - unfold bs, sq, chr. rewrite !append_cons, !append_empty. cbn [guarded].
    change (Nat.eqb (code (ascii_of_nat 92)) 39) with false.
    change (Nat.eqb (code (ascii_of_nat 92)) 92) with true.
    change (Nat.eqb (code (ascii_of_nat 39)) 39) with true.
    cbv iota. cbn [andb]. apply IH.
  - cbn [guarded]. rewrite E. apply IH.
Qed.

Lemma escape_no_quote (s : string) : no_quote s = true -> escape_quotes s = s.
Proof.
  unfold no_quote. induction s as [|c s IH]; [reflexivity|].
  cbn [all_chars escape_quotes]. intros Hs. apply andb_prop in Hs as [Hc Hr].
  destruct (Nat.eqb (code c) 39); [discriminate|]. rewrite (IH Hr). reflexivity.
Qed.

(** X20.  The search clause of the two listings.  No clause is added for
    an absent or empty query.  For a non-empty string the query sent to
    Drive is the mime filter followed by the [fullText contains] clause
    in which every single quote of the user's text stands directly after
    a backslash; a text without quotes is passed as it is, and
    backslashes of the text are passed unchanged.  A truthy query that is
    not a string makes the function throw. *)
Theorem search_clause (base : string) :
  build_query base VUndef = Ok base
  /\ build_query base (VStr EmptyString) = Ok base
  /\ (forall (c : ascii) (r : string),
        build_query base (VStr (String c r))
        = Ok (base +:+ " and fullText contains '" +:+ escape_quotes (String c r) +:+ "'"))
  /\ (forall (s : string) (after_backslash : bool),
        guarded after_backslash (escape_quotes s) = true)
  /\ (forall s, no_quote s = true -> escape_quotes s = s)
  /\ (forall s, escape_quotes (bs +:+ s) = bs +:+ escape_quotes s)
  /\ (forall a b, escape_quotes (a +:+ b) = escape_quotes a +:+ escape_quotes b)
  /\ (forall query,
        truthy query = true -> (forall s, query <> VStr s) ->
        exists e, build_query base query = Throw e /\ kind e = TypeError).
Proof.
  repeat apply conj; try reflexivity.
  - intros s b. apply guarded_escape.
  - apply escape_no_quote.
  - intros a b. induction a as [|c a IH]; [reflexivity|].
    rewrite append_cons. cbn [escape_quotes]. rewrite IH.
    destruct (Nat.eqb (code c) 39); [|reflexivity].
    rewrite !append_assoc. reflexivity.
  - intros query Ht Hns. unfold build_query. rewrite Ht.
    destruct query; try (eexists; split; reflexivity).
    exfalso. eapply Hns. reflexivity.
Qed.

Lemma take_id_class (s : string) : all_chars is_id_char (take_id s) = true.
Proof.
  induction s as [|c s IH]; [reflexivity|].
  cbn [take_id]. destruct (is_id_char c) eqn:E; [|reflexivity].
  cbn [all_chars]. rewrite E, IH. reflexivity.
Qed.

Lemma regex_capture_class (lit s id : string) :
  regex_capture lit s = Some id -> is_identifier id.
Proof.
  assert (forall rest (later : option string),
            (later = Some id -> is_identifier id) ->
            match take_id rest with
            | EmptyString => later
            | String c r => Some (String c r)
            end = Some id -> is_identifier id) as Hstep.
  { intros rest later Hlater. pose proof (take_id_class rest) as Hclass.
    destruct (take_id rest) as [|c r]; [exact Hlater|].
    intros [= <-]. split; [exact Hclass|discriminate]. }
  induction s as [|c s IH]; rewrite regex_capture_unfold; cbv zeta.
  - destruct (strip_prefix lit EmptyString) as [rest|]; [|discriminate].
    apply Hstep. discriminate.
  - destruct (strip_prefix lit (String c s)) as [rest|]; [|exact IH].
    apply Hstep, IH.
Qed.

Lemma strip_prefix_shorter (a b s r : string) :
  strip_prefix (a +:+ b) s = Some r -> exists r', strip_prefix a s = Some r'.
Proof.
  revert s. induction a as [|x a IH]; intros s; [eauto|].
  rewrite append_cons. cbn [strip_prefix]. destruct s as [|y s]; [discriminate|].
  destruct (Ascii.eqb x y); [apply IH|discriminate].
Qed.

Lemma includes_shorter (a b s : string) :
  includes (a +:+ b) s = true -> includes a s = true.
Proof.
  induction s as [|c s IH]; rewrite (includes_unfold (a +:+ b)), (includes_unfold a).
  - destruct (strip_prefix (a +:+ b) EmptyString) eqn:E; [|discriminate].
    apply strip_prefix_shorter in E as [r' ->]. reflexivity.
  - destruct (strip_prefix (a +:+ b) (String c s)) eqn:E.
    + apply strip_prefix_shorter in E as [r' ->]. reflexivity.
    + intros Hin. destruct (strip_prefix a (String c s)); [reflexivity|]. apply IH, Hin.
Qed.

Lemma extractDocumentId_cases (s : string) :
  extractDocumentId s = s \/ is_identifier (extractDocumentId s).
Proof.
  unfold extractDocumentId. destruct (includes _ s); [|left; reflexivity].
  destruct (regex_capture _ s) as [id|] eqn:E; [|left; reflexivity].
  right. eapply regex_capture_class, E.
Qed.

Lemma extractSpreadsheetId_cases (s : string) :
  extractSpreadsheetId s = s \/ is_identifier (extractSpreadsheetId s).
Proof.
  unfold extractSpreadsheetId. destruct (includes _ s); [|left; reflexivity].
  destruct (regex_capture _ s) as [id|] eqn:E; [|left; reflexivity].
  right. eapply regex_capture_class, E.
Qed.

(** X21.  What the two extractors return is either the input itself or
    a non-empty run of identifier characters, so extracting twice is the
    same as extracting once, and each extractor leaves the other's
    results alone.  An input that does not mention [docs.google.com] is
    returned as it is by both. *)
Theorem extractors_are_idempotent (s : string) :
  (extractDocumentId s = s \/ is_identifier (extractDocumentId s))
  /\ (extractSpreadsheetId s = s \/ is_identifier (extractSpreadsheetId s))
  /\ extractDocumentId (extractDocumentId s) = extractDocumentId s
  /\ extractSpreadsheetId (extractSpreadsheetId s) = extractSpreadsheetId s
  /\ (extractDocumentId s <> s ->
      extractSpreadsheetId (extractDocumentId s) = extractDocumentId s)
  /\ (extractSpreadsheetId s <> s ->
      extractDocumentId (extractSpreadsheetId s) = extractSpreadsheetId s)
  /\ (includes "docs.google.com" s = false ->
      extractDocumentId s = s /\ extractSpreadsheetId s = s).
Proof.
  repeat apply conj.
  - apply extractDocumentId_cases.
  - apply extractSpreadsheetId_cases.
  - destruct (extractDocumentId_cases s) as [Hsame|[Hclass _]];
      [rewrite Hsame; exact Hsame|].
    apply bare_identifier, Hclass.
  - destruct (extractSpreadsheetId_cases s) as [Hsame|[Hclass _]];
      [rewrite Hsame; exact Hsame|].
    apply bare_identifier, Hclass.
  - intros Hchanged. destruct (extractDocumentId_cases s) as [Hsame|[Hclass _]];
      [contradiction|]. apply bare_identifier, Hclass.
  - intros Hchanged. destruct (extractSpreadsheetId_cases s) as [Hsame|[Hclass _]];
      [contradiction|]. apply bare_identifier, Hclass.
  - intros Hno. split; [unfold extractDocumentId; rewrite Hno; reflexivity|].
    unfold extractSpreadsheetId.
    destruct (includes "docs.google.com/spreadsheets" s) eqn:E; [|reflexivity].
    apply (includes_shorter "docs.google.com" "/spreadsheets") in E. congruence.
Qed.

(** X22.  A browser URL and the identifier it carries are
    interchangeable as arguments of the three functions that take one:
    the runs are the same, result and final state. *)
Theorem url_and_identifier_are_interchangeable (id rest : string) (p : Process) :
  is_identifier id -> head_is is_id_char rest = false ->
  getDocument (VStr ("https://docs.google.com/document/d/" +:+ id +:+ rest)) p
  = getDocument (VStr id) p
  /\ getSpreadsheet (VStr ("https://docs.google.com/spreadsheets/d/" +:+ id +:+ rest)) p
     = getSpreadsheet (VStr id) p
  /\ (forall range,
        getSheetData (VStr ("https://docs.google.com/spreadsheets/d/" +:+ id +:+ rest)) range p
        = getSheetData (VStr id) range p).
Proof.
  intros Hid Hrest. pose proof (bare_identifier id (proj1 Hid)) as [Hdoc Hsheet].
  unfold getDocument, getSpreadsheet, getSheetData. cbn [call_extractor].
  rewrite (document_url id rest Hid Hrest), (spreadsheet_url id rest Hid Hrest), Hdoc, Hsheet.
  repeat split.
Qed.

Lemma ensure_world (p : Process) : world (snd (ensureAuthenticated p)) = world p.
Proof.
  rewrite ensureAuthenticated_eq. destruct (session p) as [o|e]; [|reflexivity].
  destruct (usable_tokens _ _); reflexivity.
Qed.

Lemma ensure_open (p : Process) :
  authenticated p ->
  exists p', ensureAuthenticated p = (Ok tt, p') /\ world p' = world p.
Proof.
  intros Hauth. destruct (authenticated_ensure p Hauth) as [p' Hp'].
  exists p'. split; [exact Hp'|]. rewrite <- (ensure_world p), Hp'. reflexivity.
Qed.

Lemma listing_run (name base : string) (limit query : value) (p : Process)
    (listing : Proc (list DocumentInfo)) :
  listing
  = bind (in_process (log (EvTool name))) (fun _ =>
    bind ensureAuthenticated (fun _ =>
    bind (lift_result (build_query base query)) (fun q =>
    bind (in_process (remote_call "drive.files.list" (files_list q (default_limit limit))))
         (fun files => ret (map to_document_info (default [] files)))))) ->
  authenticated p ->
  match build_query base query with
  | Ok q =>
      fst (listing p) = match files_list q (default_limit limit) with
                        | inl msg => Throw (Exn RemoteError msg)
                        | inr found => Ok (map to_document_info (default [] found))
                        end
      /\ world (snd (listing p))
         = add_event (EvRemote "drive.files.list") (add_event (EvTool name) (world p))
  | Throw e =>
      fst (listing p) = Throw e /\ world (snd (listing p)) = add_event (EvTool name) (world p)
  end.
Proof.
  intros -> Hauth.
  erewrite bind_of_ok by apply log_eq.
  destruct (ensure_open _ (authenticated_logged (EvTool name) p Hauth)) as (p1 & Hp1 & Hw).
  erewrite bind_of_ok by exact Hp1.
  unfold bind at 1, lift_result.
  destruct (build_query base query) as [q|e]; [|split; [reflexivity|exact Hw]].
  unfold bind, ret. rewrite remote_call_eq.
  destruct (files_list q (default_limit limit)); cbn [fst snd logged world];
    rewrite Hw; split; reflexivity.
Qed.

(** X23.  In an authenticated process a listing returns what the
    listing method of the Drive client answers when it is called with
    the mime filter of the listing's kind, the search clause and the
    page size (10 when the limit is left out): the entries one by one,
    an absent list as the empty list, and an error of the call thrown
    as it is.  The Drive client is called in each of these runs.  A
    query that cannot be escaped stops the function before any client
    is called: the entry into the function is all that is recorded.
    Files and directories are never touched. *)
Theorem listings_return_the_drive_answer (limit query : value) (p : Process) :
  authenticated p ->
  (forall q,
      build_query DOCS_MIME_QUERY query = Ok q ->
      fst (listDocuments limit query p)
      = match files_list q (default_limit limit) with
        | inl msg => Throw (Exn RemoteError msg)
        | inr found => Ok (map to_document_info (default [] found))
        end
      /\ In (EvRemote "drive.files.list")
            (trace (world (snd (listDocuments limit query p)))))
  /\ (forall q,
        build_query SHEETS_MIME_QUERY query = Ok q ->
        fst (listSpreadsheets limit query p)
        = match files_list q (default_limit limit) with
          | inl msg => Throw (Exn RemoteError msg)
          | inr found => Ok (map to_document_info (default [] found))
          end
        /\ In (EvRemote "drive.files.list")
              (trace (world (snd (listSpreadsheets limit query p)))))
  /\ (forall e,
        build_query DOCS_MIME_QUERY query = Throw e ->
        fst (listDocuments limit query p) = Throw e
        /\ fst (listSpreadsheets limit query p) = Throw e
        /\ trace (world (snd (listDocuments limit query p)))
           = trace (world p) ++ [EvTool "listDocuments"]
        /\ trace (world (snd (listSpreadsheets limit query p)))
           = trace (world p) ++ [EvTool "listSpreadsheets"])
  /\ default_limit VUndef = VNum 10
  /\ files (world (snd (listDocuments limit query p))) = files (world p)
  /\ files (world (snd (listSpreadsheets limit query p))) = files (world p)
  /\ dirs (world (snd (listDocuments limit query p))) = dirs (world p)
  /\ dirs (world (snd (listSpreadsheets limit query p))) = dirs (world p).
Proof.
  intros Hauth.
  pose proof (listing_run "listDocuments" DOCS_MIME_QUERY limit query p
                (listDocuments limit query) eq_refl Hauth) as Hdocs.
  pose proof (listing_run "listSpreadsheets" SHEETS_MIME_QUERY limit query p
                (listSpreadsheets limit query) eq_refl Hauth) as Hsheets.
  assert (forall e, build_query DOCS_MIME_QUERY query = Throw e ->
                    build_query SHEETS_MIME_QUERY query = Throw e) as Hboth.
  { unfold build_query. destruct (truthy query); [|discriminate].
    destruct query; intros e [= <-]; reflexivity. }
  repeat apply conj.
  - intros q Hq. rewrite Hq in Hdocs. destruct Hdocs as [-> ->]. split; [reflexivity|].
    cbn [add_event trace]. apply in_app_iff. right. left. reflexivity.
  - intros q Hq. rewrite Hq in Hsheets. destruct Hsheets as [-> ->]. split; [reflexivity|].
    cbn [add_event trace]. apply in_app_iff. right. left. reflexivity.
  - intros e He. rewrite (Hboth e He) in Hsheets. rewrite He in Hdocs.
    destruct Hdocs as [-> ->], Hsheets as [-> ->]. repeat split.
  - reflexivity.
  - destruct (build_query DOCS_MIME_QUERY query); destruct Hdocs as [_ ->]; reflexivity.
  - destruct (build_query SHEETS_MIME_QUERY query); destruct Hsheets as [_ ->]; reflexivity.
  - destruct (build_query DOCS_MIME_QUERY query); destruct Hdocs as [_ ->]; reflexivity.
  - destruct (build_query SHEETS_MIME_QUERY query); destruct Hsheets as [_ ->]; reflexivity.
Qed.

Lemma str_or_named (o : option string) (dflt : string) :
  dflt <> EmptyString -> str_or o dflt <> EmptyString.
Proof.
  intros Hd. unfold str_or. destruct o as [[|c s]|]; cbn [is_empty]; [exact Hd| |exact Hd].
  discriminate.
Qed.

Lemma str_or_undefined_named (o : option string) :
  str_or_undefined o <> Some EmptyString.
Proof. destruct o as [[|c s]|]; cbn; discriminate. Qed.

(** X24.  What the tool functions hand out is normalised.  Every listed
    file has a non-empty name, and its optional fields are either absent
    or non-empty; the same holds for the sheets and the link of a
    spreadsheet.  A fetched document has a non-empty title and a body
    that neither starts nor ends with a white-space character, in any
    of the encodings [trim] knows (so trimming it again changes
    nothing); a range read reports the identifier it asked for. *)
Theorem results_are_normalised (p p' : Process) :
  (forall limit query out,
      (listDocuments limit query p = (Ok out, p')
       \/ listSpreadsheets limit query p = (Ok out, p')
       \/ searchDocuments query limit p = (Ok out, p')) ->
      Forall (fun file => di_name file <> EmptyString
                          /\ di_modifiedTime file <> Some EmptyString
                          /\ di_webViewLink file <> Some EmptyString) out)
  /\ (forall documentId out,
        getDocument documentId p = (Ok out, p') ->
        dc_title out <> EmptyString
        /\ space_width (dc_body out) = 0%nat
        /\ (forall before sp, space_char sp -> dc_body out <> before +:+ sp)
        /\ trim (dc_body out) = dc_body out)
  /\ (forall spreadsheetId out,
        getSpreadsheet spreadsheetId p = (Ok out, p') ->
        sp_name out <> EmptyString
        /\ sp_webViewLink out <> Some EmptyString
        /\ Forall (fun sheet => si_title sheet <> EmptyString) (sp_sheets out))
  /\ (forall spreadsheetId range out,
        getSheetData (VStr spreadsheetId) range p = (Ok out, p') ->
        sd_spreadsheetId out = VStr (extractSpreadsheetId spreadsheetId)).
Proof.
  assert (forall files : list DriveFile,
            Forall (fun file => di_name file <> EmptyString
                                /\ di_modifiedTime file <> Some EmptyString
                                /\ di_webViewLink file <> Some EmptyString)
                   (map to_document_info files)) as Hlisted.
  { intros files. apply List.Forall_forall. intros info Hin.
    apply in_map_iff in Hin as (file & <- & _). cbn [to_document_info di_name
      di_modifiedTime di_webViewLink].
    repeat split; [apply str_or_named; discriminate|apply str_or_undefined_named..]. }
  repeat apply conj.
  - intros limit query out Hrun.
    assert (exists files, out = map to_document_info files) as [files ->];
      [|apply Hlisted].
    destruct Hrun as [Hrun|[Hrun|Hrun]];
      [unfold listDocuments in Hrun|unfold listSpreadsheets in Hrun
      |unfold searchDocuments, listDocuments in Hrun];
      cbv zeta in Hrun;
      apply bind_inv in Hrun as (? & ? & _ & Hrun);
      apply bind_inv in Hrun as (? & ? & _ & Hrun);
      apply bind_inv in Hrun as (? & ? & _ & Hrun);
      apply bind_inv in Hrun as (found & ? & _ & Hrun);
      injection Hrun as <- _; eauto.
  - intros documentId out Hrun. unfold getDocument in Hrun.
    apply bind_inv in Hrun as (? & ? & _ & Hrun).
    apply bind_inv in Hrun as (? & ? & _ & Hrun).
    apply bind_inv in Hrun as (? & ? & _ & Hrun).
    apply bind_inv in Hrun as (doc & ? & _ & Hrun).
    injection Hrun as <- _. cbn [dc_title dc_body]. repeat split.
    + apply str_or_named. discriminate.
    + apply trim_end_head, drop_spaces_head.
    + intros before sp Hsp. apply trim_end_no_trailing, Hsp.
    + apply trim_idem.
  - intros spreadsheetId out Hrun. unfold getSpreadsheet in Hrun.
    apply bind_inv in Hrun as (? & ? & _ & Hrun).
    apply bind_inv in Hrun as (? & ? & _ & Hrun).
    apply bind_inv in Hrun as (? & ? & _ & Hrun).
    apply bind_inv in Hrun as (spreadsheet & ? & _ & Hrun).
    injection Hrun as <- _. cbn [sp_name sp_webViewLink sp_sheets]. repeat split.
    + apply str_or_named. discriminate.
    + apply str_or_undefined_named.
    + apply List.Forall_forall. intros info Hin.
      apply in_map_iff in Hin as (sheet & <- & _). apply str_or_named. discriminate.
  - intros spreadsheetId range out Hrun. unfold getSheetData in Hrun.
    apply bind_inv in Hrun as (? & ? & _ & Hrun).
    apply bind_inv in Hrun as (? & ? & _ & Hrun).
    apply bind_inv in Hrun as (id & ? & Hid & Hrun).
    apply bind_inv in Hrun as (response & ? & _ & Hrun).
    injection Hrun as <- _. cbn [sd_spreadsheetId].
    cbn in Hid. injection Hid as <- _. reflexivity.
Qed.

End ToolFacts.

(** ** The authorization flow of bin/auth.ts *)

Section AuthFlowFacts.
Import Text Js Monad Runtime OAuth Tools Server Stored AuthFlow.
Context `{!JsonRuntime} `{!Remote}.

(** The configuration [runAuthFlow] passes to the constructor. *)
Lemma resolve_callback_uri (w : World) :
  resolve (Some {| explicitClientId := None; explicitClientSecret := None;
                   explicitRedirectUri := Some CALLBACK_URI |}) w
  = match resolve None w with
    | Ok o =>
        Ok {| oauthConfig :=
                {| clientId := clientId (oauthConfig o);
                   clientSecret := clientSecret (oauthConfig o);
                   redirectUri := VStr CALLBACK_URI |};
              credentials := VObj [];
              credentialsPath := credentialsPath o |}
    | Throw e => Throw e
    end.
Proof.
  unfold resolve.
  change (resolved_clientId (Some _) w) with (resolved_clientId None w).
  change (resolved_clientSecret (Some _) w) with (resolved_clientSecret None w).
  destruct (_ || _)%bool; reflexivity.
Qed.

Lemma runAuthFlow_eq (w : World) :
  runAuthFlow w
  = match resolve None w with
    | Ok o =>
        match usable_tokens (credentialsPath o) w with
        | Some _ => (Ok (FlowExit 0), w)
        | None =>
            (Ok (Listening
                   {| oauthConfig :=
                        {| clientId := clientId (oauthConfig o);
                           clientSecret := clientSecret (oauthConfig o);
                           redirectUri := VStr CALLBACK_URI |};
                      credentials := VObj [];
                      credentialsPath := credentialsPath o |}), w)
        end
    | Throw _ => (Ok (FlowExit 1), w)
    end.
Proof.
  unfold runAuthFlow. rewrite new_GoogleOAuth_eq, resolve_callback_uri.
  destruct (resolve None w) as [o|e]; [|reflexivity].
  rewrite loadTokens_eq. cbn [credentialsPath].
  destruct (usable_tokens (credentialsPath o) w); reflexivity.
Qed.

(** X25.  [runAuthFlow] only reads, and it never fails with an
    exception before the callback server listens.  It exits with status
    1 exactly when the server could not build its session either; it
    exits with status 0 ("already authenticated") exactly when the
    server's gate would open on the same disk; otherwise it goes on to
    listen with a fresh session whose redirect URI is the callback
    address on port 3000, whatever the credential file lists. *)
Theorem runAuthFlow_outcomes (w : World) :
  snd (runAuthFlow w) = w
  /\ (exists outcome, fst (runAuthFlow w) = Ok outcome)
  /\ (fst (runAuthFlow w) = Ok (FlowExit 1)
      <-> exists e, fst (new_GoogleOAuth None w) = Throw e)
  /\ (fst (runAuthFlow w) = Ok (FlowExit 0)
      <-> fst (checkAuth {| world := w; oauthInstance := None |}) = Ok true)
  /\ (forall o,
        fst (runAuthFlow w) = Ok (Listening o) ->
        redirectUri (oauthConfig o) = VStr "http://localhost:3000/oauth2callback"
        /\ credentials o = VObj []
        /\ credentialsPath o = path_join [base_dir w; CREDENTIALS_DIR; TOKENS_FILE]
        /\ fst (checkAuth {| world := w; oauthInstance := None |}) = Ok false).
Proof.
  rewrite runAuthFlow_eq, checkAuth_eq, new_GoogleOAuth_eq.
  cbn [session oauthInstance world].
  destruct (resolve None w) as [o|e] eqn:Ho.
  - destruct (new_session_path _ _ _ Ho) as [Hpath _].
    destruct (usable_tokens (credentialsPath o) w) as [tokens|];
      cbn [fst snd]; repeat apply conj; try reflexivity; eauto;
      try discriminate; try (intros [e He]; discriminate); try (intros o' [= <-]).
    cbn [oauthConfig redirectUri credentials credentialsPath]. auto.
  - cbn [fst snd]. repeat apply conj; try reflexivity; eauto; discriminate.
Qed.

(** The callback always comes to an end. *)
Lemma callback_ends (req : callback_request) (this : GoogleOAuth) (w : World) :
  exists outcome s', callback req (this, w) = (Ok outcome, s').
Proof.
  unfold callback. destruct (String.eqb _ _); [|eauto].
  destruct (truthy _); [eauto|].
  destruct (cb_code req) as [code|]; [|eauto].
  destruct (is_empty code); [eauto|].
  unfold try_catch, bind.
  destruct (exchangeCodeForTokens code (this, w)) as [[t|e] s']; eauto.
Qed.

(** X26.  The callback server answers without touching the session or
    the disk in three cases: a path other than [/oauth2callback] gets
    404; on the callback path an [error] parameter ends the process with
    status 1, even when a code came with it; and without an error a
    missing or empty code gets 400.  In every case the callback comes to
    an end without an uncaught exception. *)
Theorem callback_without_exchange
    (req : callback_request) (this : GoogleOAuth) (w : World) :
  (exists outcome s', callback req (this, w) = (Ok outcome, s'))
  /\ (cb_pathname req <> "/oauth2callback" ->
      callback req (this, w) = (Ok (Reply 404 (PlainPage "Not found") None), (this, w)))
  /\ (forall (c : ascii) (r : string),
        cb_pathname req = "/oauth2callback" ->
        cb_error req = Some (String c r) ->
        callback req (this, w) = (Ok (Exit 1), (this, w)))
  /\ (cb_pathname req = "/oauth2callback" ->
      cb_error req = None \/ cb_error req = Some EmptyString ->
      cb_code req = None \/ cb_code req = Some EmptyString ->
      callback req (this, w)
      = (Ok (Reply 400 (PlainPage "No authorization code received") None), (this, w))).
Proof.
  repeat apply conj.
  - apply callback_ends.
  - intros Hpath. unfold callback.
    apply String.eqb_neq in Hpath. rewrite Hpath. reflexivity.
  - intros c r Hpath Herror. unfold callback. rewrite Hpath, Herror. reflexivity.
  - intros Hpath Herror Hcode. unfold callback. rewrite Hpath.
    destruct Herror as [-> | ->], Hcode as [-> | ->]; reflexivity.
Qed.

(** X27.  A redirect that carries a code and no error leads to exactly
    one request to the token endpoint.  When the endpoint rejects the
    code the process ends with status 1 and nothing was written; when it
    grants tokens, these are installed in the session and written to the
    token file, and the success page is sent before the process ends
    with status 0.  When the place of the credentials directory is taken
    by a regular file, or the place of the token file by a directory,
    the tokens cannot be written, and the process ends with status 1
    although the endpoint had granted them; files and directories are
    then as before.  (For the success case the codec is assumed to
    encode the tokens, and the token file must be writable: the token
    path is not a directory and no regular file stands at its directory
    or above it.) *)
Theorem callback_exchange
    (req : callback_request) (this : GoogleOAuth) (w : World) (c : ascii) (r : string) :
  cb_pathname req = "/oauth2callback" ->
  cb_error req = None \/ cb_error req = Some EmptyString ->
  cb_code req = Some (String c r) ->
  (forall msg,
      oauth_getToken (String c r) = inl msg ->
      callback req (this, w) = (Ok (Exit 1), (this, add_event (EvRemote "oauth2/token") w)))
  /\ (forall t text,
        oauth_getToken (String c r) = inr t ->
        JSON_stringify (tokens_to_value t) = Some text ->
        writable (credentialsPath this) w ->
        exists w',
          callback req (this, w)
          = (Ok (Reply 200 SuccessPage (Some 0)),
             (with_credentials this (tokens_to_value t), w'))
          /\ files w' = <[credentialsPath this := text]> (files w)
          /\ trace w' = trace w ++ [EvRemote "oauth2/token"; EvWrite (credentialsPath this)])
  /\ (forall t content,
        oauth_getToken (String c r) = inr t ->
        files w !! dirname (credentialsPath this) = Some content ->
        fst (callback req (this, w)) = Ok (Exit 1)
        /\ files (snd (snd (callback req (this, w)))) = files w
        /\ dirs (snd (snd (callback req (this, w)))) = dirs w)
  /\ (forall t,
        oauth_getToken (String c r) = inr t ->
        credentialsPath this ∈ dirs w ->
        dirname (credentialsPath this) ∈ dirs w ->
        fst (callback req (this, w)) = Ok (Exit 1)
        /\ files (snd (snd (callback req (this, w)))) = files w
        /\ dirs (snd (snd (callback req (this, w)))) = dirs w).
Proof.
  intros Hpath Herror Hcode.
  assert (callback req (this, w)
          = try_catch
              (bind (exchangeCodeForTokens (String c r))
                    (fun _ => ret (Reply 200 SuccessPage (Some 0))))
              (fun _ => ret (Exit 1)) (this, w)) as ->.
  { unfold callback. rewrite Hpath, Hcode.
    destruct Herror as [-> | ->]; reflexivity. }
  repeat apply conj.
  - intros msg Hreject. unfold try_catch, bind, exchangeCodeForTokens, client_getToken.
    run_monad. rewrite Hreject. reflexivity.
  - intros t text Hgrant Htext Hdir.
    set (w1 := add_event (EvRemote "oauth2/token") w).
    destruct (saveTokens_eq (with_credentials this (tokens_to_value t)) w1 _ text Htext Hdir)
      as (w' & Hsave & Hfiles & _ & _ & _ & Htrace).
    cbn [credentialsPath with_credentials] in Hfiles, Htrace.
    exists w'. split; [|split; [exact Hfiles|]].
    + unfold try_catch. erewrite bind_of_ok; [reflexivity|].
      unfold exchangeCodeForTokens, client_getToken.
      erewrite bind_of_ok
        by (unfold in_world, remote_call; run_monad; rewrite Hgrant; reflexivity).
      erewrite bind_of_ok by reflexivity.
      fold w1. erewrite bind_of_ok by exact Hsave. reflexivity.
    + rewrite Htrace. cbn [w1 add_event trace]. rewrite <- app_assoc. reflexivity.
  - intros t content Hgrant Hfile.
    unfold try_catch, bind, exchangeCodeForTokens, client_getToken, saveTokens,
      writeFileSync.
    run_monad. rewrite Hgrant. run_monad.
    destruct (JSON_stringify (tokens_to_value t)); run_monad;
      cbn [credentialsPath with_credentials];
      change (files (add_event (EvRemote "oauth2/token") w)) with (files w);
      change (dirs (add_event (EvRemote "oauth2/token") w)) with (dirs w);
      rewrite bool_decide_eq_true_2 by (rewrite Hfile; eauto);
      run_monad; [|repeat split; reflexivity].
    unfold is_file. change (files (add_event (EvRemote "oauth2/token") w)) with (files w).
    rewrite (bool_decide_eq_true_2 (is_Some _)) by (rewrite Hfile; eauto).
    destruct (bool_decide (credentialsPath this ∈ _)); run_monad; repeat split; reflexivity.
  - intros t Hgrant Hself Hdirs.
    unfold try_catch, bind, exchangeCodeForTokens, client_getToken, saveTokens,
      writeFileSync.
    run_monad. rewrite Hgrant. run_monad.
    destruct (JSON_stringify (tokens_to_value t)); run_monad;
      cbn [credentialsPath with_credentials];
      change (dirs (add_event (EvRemote "oauth2/token") w)) with (dirs w);
      rewrite (bool_decide_eq_true_2 _ Hdirs);
      destruct (bool_decide (is_Some _)); run_monad;
      rewrite ?(bool_decide_eq_true_2 _ Hself); repeat split; reflexivity.
Qed.

End AuthFlowFacts.

(** ** The two bindings side by side *)

Section BindingFacts.
Import Text Js Monad Runtime OAuth Tools Server Stored Wire.
Context `{!JsonRuntime} `{!Remote}.

Lemma query_field_get (query : option string) (limit : value) :
  get (VObj (("limit", limit) :: query_field query)) "query" = opt_str query.
Proof. destruct query; reflexivity. Qed.

(** X28.  The two bindings agree.  For a validated call whose limit, if
    it has one, is not zero, the handler registered for stdio and the
    HTTP dispatcher on the corresponding [tools/call] request produce the
    same payload and leave the process in the same state.  With a limit
    of zero they part: the dispatcher behaves as with a limit of ten,
    and with the gate open its payload is that of the Drive call with
    page size ten, where the registered handler passes the zero on and
    its payload is that of the Drive call with page size zero. *)
Theorem bindings_agree (c : tool_call) (request_id : value) (p : Process) :
  (limit_given c ->
   exists out p',
     stdio_call c p = (Ok out, p')
     /\ handleJsonRpc (tools_call (tool_name c) (tool_arguments c) request_id) p
        = (Ok (respond (RpcResult (ToolOutput out)) request_id), p'))
  /\ (forall query,
        handleJsonRpc (tools_call "list_documents"
                         (tool_arguments (ListDocuments 0 query)) request_id) p
        = handleJsonRpc (tools_call "list_documents"
                           (tool_arguments (ListDocuments 10 query)) request_id) p
        /\ handleJsonRpc (tools_call "list_spreadsheets"
                            (tool_arguments (ListSpreadsheets 0 query)) request_id) p
           = handleJsonRpc (tools_call "list_spreadsheets"
                              (tool_arguments (ListSpreadsheets 10 query)) request_id) p)
  /\ (forall query q,
        fst (checkAuth p) = Ok true ->
        build_query DOCS_MIME_QUERY (opt_str query) = Ok q ->
        fst (stdio_call (ListDocuments 0 query) p)
        = Ok (listing_payload "No documents found." "document" (files_list q (VNum 0)))
        /\ fst (handleJsonRpc (tools_call "list_documents"
                                (tool_arguments (ListDocuments 0 query)) request_id) p)
           = Ok (respond (RpcResult (ToolOutput
                   (listing_payload "No documents found." "document"
                      (files_list q (VNum 10))))) request_id))
  /\ (forall query q,
        fst (checkAuth p) = Ok true ->
        build_query SHEETS_MIME_QUERY (opt_str query) = Ok q ->
        fst (stdio_call (ListSpreadsheets 0 query) p)
        = Ok (listing_payload "No spreadsheets found." "spreadsheet"
                (files_list q (VNum 0)))
        /\ fst (handleJsonRpc (tools_call "list_spreadsheets"
                                (tool_arguments (ListSpreadsheets 0 query)) request_id) p)
           = Ok (respond (RpcResult (ToolOutput
                   (listing_payload "No spreadsheets found." "spreadsheet"
                      (files_list q (VNum 10))))) request_id)).
Proof.
  split; [|split; [|split]].
  - intros Hlimit. rewrite handleJsonRpc_tools_call.
    destruct c as [documentId|limit query|spreadsheetId|spreadsheetId range|limit query];
      cbn [stdio_call tool_name tool_arguments];
      unfold get_document_handler, list_documents_handler, get_spreadsheet_handler,
        get_sheet_data_handler, list_spreadsheets_handler, gated, bind at 1;
      destruct (checkAuth_cases p) as (b & p1 & ->);
      (destruct b; cbn [negb]; [|eauto]);
      unfold call_by_name, try_catch, bind, lift_result, ret;
      rewrite ?query_field_get;
      cbn [is_str String.eqb Ascii.eqb Bool.eqb prop get assoc default from_option Datatypes.id].
    + destruct (getDocument (VStr documentId) p1) as [[doc|e] p2]; eauto.
    + cbn [limit_given] in Hlimit. unfold js_or. cbn [truthy].
      rewrite (proj2 (Z.eqb_neq limit 0) Hlimit). cbn [negb].
      destruct (listDocuments (VNum limit) (opt_str query) p1) as [[docs|e] p2]; eauto.
    + destruct (getSpreadsheet (VStr spreadsheetId) p1) as [[spreadsheet|e] p2]; [|eauto].
      destruct (render_spreadsheet spreadsheet); eauto.
    + destruct (getSheetData (VStr spreadsheetId) (VStr range) p1) as [[data|e] p2]; [|eauto].
      destruct (render_sheet_data data); eauto.
    + cbn [limit_given] in Hlimit. unfold js_or. cbn [truthy].
      rewrite (proj2 (Z.eqb_neq limit 0) Hlimit). cbn [negb].
      destruct (listSpreadsheets (VNum limit) (opt_str query) p1) as [[docs|e] p2]; eauto.
  - intros query. rewrite !handleJsonRpc_tools_call.
    destruct (checkAuth_cases p) as (b & p1 & ->).
    destruct b; [|split; reflexivity].
    unfold call_by_name, bind at 1 3 5 7, lift_result.
    cbn [tool_arguments]. rewrite !query_field_get. split; reflexivity.
  - intros query q Hgate Hq.
    destruct (checkAuth_true p Hgate) as (p1 & Hp1 & Hauth).
    pose proof (listing_run "listDocuments" DOCS_MIME_QUERY (VNum 0) (opt_str query) p1
                  (listDocuments (VNum 0) (opt_str query)) eq_refl Hauth) as Hzero.
    pose proof (listing_run "listDocuments" DOCS_MIME_QUERY (VNum 10) (opt_str query) p1
                  (listDocuments (VNum 10) (opt_str query)) eq_refl Hauth) as Hten.
    rewrite Hq in Hzero, Hten. destruct Hzero as [Hzero _], Hten as [Hten _].
    cbn [default_limit] in Hzero, Hten.
    split.
    + cbn [stdio_call]. unfold list_documents_handler, gated.
      erewrite bind_of_ok by exact Hp1. cbn [negb]. unfold try_catch, bind.
      destruct (listDocuments (VNum 0) (opt_str query) p1) as [[docs|e] p2];
        cbn [fst] in Hzero; destruct (files_list q (VNum 0)); try discriminate;
        injection Hzero as ->; reflexivity.
    + rewrite handleJsonRpc_tools_call, Hp1.
      unfold call_by_name, bind, lift_result. cbn [tool_arguments].
      rewrite query_field_get.
      cbn [is_str String.eqb Ascii.eqb Bool.eqb prop get assoc default from_option Datatypes.id].
      change (js_or (VNum 0) (VNum 10)) with (VNum 10).
      destruct (listDocuments (VNum 10) (opt_str query) p1) as [[docs|e] p2];
        cbn [fst] in Hten; destruct (files_list q (VNum 10)); try discriminate;
        injection Hten as ->; reflexivity.
  - intros query q Hgate Hq.
    destruct (checkAuth_true p Hgate) as (p1 & Hp1 & Hauth).
    pose proof (listing_run "listSpreadsheets" SHEETS_MIME_QUERY (VNum 0) (opt_str query) p1
                  (listSpreadsheets (VNum 0) (opt_str query)) eq_refl Hauth) as Hzero.
    pose proof (listing_run "listSpreadsheets" SHEETS_MIME_QUERY (VNum 10) (opt_str query) p1
                  (listSpreadsheets (VNum 10) (opt_str query)) eq_refl Hauth) as Hten.
    rewrite Hq in Hzero, Hten. destruct Hzero as [Hzero _], Hten as [Hten _].
    cbn [default_limit] in Hzero, Hten.
    split.
    + cbn [stdio_call]. unfold list_spreadsheets_handler, gated.
      erewrite bind_of_ok by exact Hp1. cbn [negb]. unfold try_catch, bind.
      destruct (listSpreadsheets (VNum 0) (opt_str query) p1) as [[docs|e] p2];
        cbn [fst] in Hzero; destruct (files_list q (VNum 0)); try discriminate;
        injection Hzero as ->; reflexivity.
    + rewrite handleJsonRpc_tools_call, Hp1.
      unfold call_by_name, bind, lift_result. cbn [tool_arguments].
      rewrite query_field_get.
      cbn [is_str String.eqb Ascii.eqb Bool.eqb prop get assoc default from_option Datatypes.id].
      change (js_or (VNum 0) (VNum 10)) with (VNum 10).
      destruct (listSpreadsheets (VNum 10) (opt_str query) p1) as [[docs|e] p2];
        cbn [fst] in Hten; destruct (files_list q (VNum 10)); try discriminate;
        injection Hten as ->; reflexivity.
Qed.

End BindingFacts.

(** ** Runs of the further properties *)

(** Decides [writable] for a token path of a concrete world without
    directories. *)
Ltac writable_on_empty_disk :=
  split; [apply not_elem_of_empty
         |split; [vm_compute; discriminate|vm_compute; repeat constructor]].

Section FurtherRuns.
Import Text Js Monad Runtime OAuth Tools Server Stored Ids Shape Cli AuthFlow Wire.

#[local] Existing Instance MiniJson.runtime.
#[local] Existing Instance Sample.remote.

Lemma handleJsonRpc_always_answers_witness :
  exists b p',
    handleJsonRpc (VObj [("id", VNum 9)]) (Sample.process Sample.fresh)
    = (Ok {| jsonrpc := "2.0"; body := b; id := get (VObj [("id", VNum 9)]) "id" |}, p').
Proof.
  apply (handleJsonRpc_always_answers (VObj [("id", VNum 9)]) (Sample.process Sample.fresh));
    discriminate.
Defined.

Lemma other_methods_touch_nothing_witness :
  snd (handleJsonRpc
         (VObj [("jsonrpc", VStr "2.0"); ("method", VStr "ping"); ("id", VNum 4)])
         (Sample.process Sample.signed_in))
  = Sample.process Sample.signed_in
  /\ fst (handleJsonRpc
            (VObj [("jsonrpc", VStr "2.0"); ("method", VStr "ping"); ("id", VNum 4)])
            (Sample.process Sample.signed_in))
     = Ok (respond (RpcError (-32601) ("Method not found: " +:+ "ping")) (VNum 4)).
Proof.
  destruct (other_methods_touch_nothing
              (VObj [("jsonrpc", VStr "2.0"); ("method", VStr "ping"); ("id", VNum 4)])
              (VStr "2.0") (Sample.process Sample.signed_in))
    as (Hstate & _ & Hother); [reflexivity..|].
  split; [exact Hstate|]. apply (Hother "ping"); reflexivity.
Defined.

Lemma known_tool_calls_answer_in_band_witness :
  exists out p',
    handleJsonRpc (tools_call "get_sheet_data" VNull (VNum 1)) (Sample.process Sample.signed_in)
    = (Ok (respond (RpcResult (ToolOutput out)) (VNum 1)), p').
Proof.
  apply (known_tool_calls_answer_in_band "get_sheet_data" VNull (VNum 1)
           (Sample.process Sample.signed_in)).
  simpl. tauto.
Defined.

Lemma document_fetch_failure_is_reported_witness :
  fst (handleJsonRpc
         (tools_call "get_document" (VObj [("documentId", VStr "1a-B_c9")]) (VNum 2))
         (Sample.process Sample.signed_in))
  = Ok (respond (RpcResult (ToolOutput
          {| text := "Error: " +:+ "Requested entity was not found."; isError := true |}))
          (VNum 2))
  /\ fst (stdio_call (GetDocument "1a-B_c9") (Sample.process Sample.signed_in))
     = Ok {| text := "Error: " +:+ "Requested entity was not found."; isError := true |}.
Proof.
  apply (document_fetch_failure_is_reported "1a-B_c9" "Requested entity was not found."
           (VObj [("documentId", VStr "1a-B_c9")]) (VNum 2)
           (Sample.process Sample.signed_in)); vm_compute; reflexivity.
Defined.

Lemma unknown_tool_is_method_not_found_witness :
  fst (handleJsonRpc (tools_call "delete_document" VUndef (VNum 3))
         (Sample.process Sample.signed_in))
  = Ok (respond (RpcError (-32601) ("Unknown tool: " +:+ "delete_document")) (VNum 3))
  /\ trace (world (snd (handleJsonRpc (tools_call "delete_document" VUndef (VNum 3))
                          (Sample.process Sample.signed_in))))
     = trace (world (Sample.process Sample.signed_in)) ++ [EvAuthCheck].
Proof.
  apply (unknown_tool_is_method_not_found "delete_document" VUndef (VNum 3)
           (Sample.process Sample.signed_in)).
  - vm_compute. reflexivity.
  - simpl. intuition discriminate.
Defined.

Lemma data_only_when_authenticated_witness :
  authenticated (Sample.process Sample.signed_in).
Proof.
  destruct (data_only_when_authenticated (Sample.process Sample.signed_in)) as [Hstdio _].
  apply (Hstdio (ListDocuments 10 None)
                {| text := "No documents found."; isError := false |});
    vm_compute; reflexivity.
Defined.

Lemma closed_gate_calls_nothing_witness :
  trace (world (snd (stdio_call (GetDocument "1a-B_c9") (Sample.process Sample.fresh))))
  = trace (world (Sample.process Sample.fresh)) ++ [EvAuthCheck]
  /\ files (world (snd (stdio_call (GetDocument "1a-B_c9") (Sample.process Sample.fresh))))
     = files (world (Sample.process Sample.fresh))
  /\ dirs (world (snd (stdio_call (GetDocument "1a-B_c9") (Sample.process Sample.fresh))))
     = dirs (world (Sample.process Sample.fresh)).
Proof.
  destruct (closed_gate_calls_nothing (Sample.process Sample.fresh)) as [Hstdio _];
    [vm_compute; reflexivity|].
  apply (Hstdio (GetDocument "1a-B_c9")).
Defined.

Lemma gate_follows_the_token_file_witness :
  fst (isAuthenticated (Consent.holding, Sample.fresh)) = Ok true
  /\ fst (checkAuth {| world := Sample.fresh; oauthInstance := Some Consent.holding |})
     = Ok false.
Proof.
  split; [vm_compute; reflexivity|].
  destruct (gate_follows_the_token_file Consent.holding Sample.fresh) as [Hgone _].
  apply Hgone. vm_compute. reflexivity.
Defined.


Lemma parseArgs_rules_witness :
  fst (parseArgs ["--http"; "--stdio"; "--verbose"] Consent.with_port)
  = Ok (Stdio, Exact 8080)
  /\ snd (parseArgs ["--http"; "--stdio"; "--verbose"] Consent.with_port)
     = Consent.with_port.
Proof.
  destruct (parseArgs_rules ["--http"; "--stdio"; "--verbose"] Consent.with_port)
    as (transport & port & Hrun & _ & _ & _ & Hstdio & _ & _ & Hport & _).
  rewrite Hrun. cbn [fst snd].
  rewrite (Hstdio ["--http"] ["--verbose"] eq_refl)
    by (repeat constructor; discriminate).
  rewrite (Hport 8080);
    [split; reflexivity|discriminate|split; reflexivity|vm_compute; reflexivity].
Defined.

Lemma loadTokens_contract_witness :
  loadTokens (Consent.holding, Sample.fresh) = (Ok false, (Consent.holding, Sample.fresh)).
Proof.
  destruct (loadTokens_contract Consent.holding Sample.fresh)
    as (b & this' & Hrun & Hsame & _ & Hnone & _).
  rewrite Hrun.
  assert (b = false) as Hb by (apply Hnone; vm_compute; reflexivity).
  rewrite (Hsame Hb), Hb. reflexivity.
Defined.

Lemma exchange_rejection_changes_nothing_witness :
  exchangeCodeForTokens "4/0AX4" (Sample.session_with (VObj []), Sample.fresh)
  = (Throw (Exn RemoteError "invalid_grant"),
     (Sample.session_with (VObj []), add_event (EvRemote "oauth2/token") Sample.fresh)).
Proof.
  apply (exchange_rejection_changes_nothing (Sample.session_with (VObj [])) Sample.fresh
           "4/0AX4" "invalid_grant").
  reflexivity.
Defined.

Lemma session_is_built_once_witness :
  getOAuthInstance {| world := Sample.broken_secret;
                      oauthInstance := Some (Sample.session_with (VObj [])) |}
  = (Ok (Sample.session_with (VObj [])),
     {| world := Sample.broken_secret;
        oauthInstance := Some (Sample.session_with (VObj [])) |}).
Proof.
  destruct (session_is_built_once (Sample.process Sample.fresh)) as [Hbuilt _].
  destruct (Hbuilt (Sample.session_with (VObj [])) Consent.started) as [_ Hlater];
    [vm_compute; reflexivity|].
  apply (Hlater Sample.broken_secret).
Defined.

Lemma tools_refuse_without_tokens_witness :
  getDocument (VStr "1a-B_c9") Consent.started
  = (Throw (Exn PlainError NOT_AUTHENTICATED), logged (EvTool "getDocument") Consent.started)
  /\ listSpreadsheets VUndef VUndef Consent.started
     = (Throw (Exn PlainError NOT_AUTHENTICATED),
        logged (EvTool "listSpreadsheets") Consent.started).
Proof.
  destruct (tools_refuse_without_tokens Consent.started (Sample.session_with (VObj [])))
    as (Hdoc & _ & _ & _ & _ & Hsheets); [reflexivity|vm_compute; reflexivity|].
  split; [apply Hdoc|apply Hsheets].
Defined.

Lemma loadClientSecret_prefers_installed_witness :
  fst (loadClientSecret "/app" Sample.with_secret)
  = Ok (Some {| clientId := VStr "file-id"; clientSecret := VStr "file-secret";
                redirectUri := VStr "http://localhost" |})
  /\ snd (loadClientSecret "/app" Sample.with_secret) = Sample.with_secret.
Proof.
  destruct (loadClientSecret_prefers_installed "/app" Sample.with_secret)
    as (Hreads & Hfirst & _).
  split; [|exact Hreads].
  rewrite (Hfirst (Sample.render Sample.desktop_secret) Sample.desktop_secret)
    by (vm_compute; reflexivity).
  reflexivity.
Defined.

Lemma search_clause_witness :
  escape_quotes "budget 2024" = "budget 2024"
  /\ exists e, build_query DOCS_MIME_QUERY (VNum 5) = Throw e /\ kind e = TypeError.
Proof.
  destruct (search_clause DOCS_MIME_QUERY) as (_ & _ & _ & _ & Hplain & _ & _ & Hother).
  split.
  - apply Hplain. reflexivity.
  - apply Hother; [reflexivity|discriminate].
Defined.

Lemma extractors_are_idempotent_witness :
  extractSpreadsheetId
    (extractDocumentId "https://docs.google.com/document/d/1a-B_c9/edit")
  = extractDocumentId "https://docs.google.com/document/d/1a-B_c9/edit"
  /\ extractDocumentId "1a-B_c9?usp=sharing" = "1a-B_c9?usp=sharing".
Proof.
  split.
  - destruct (extractors_are_idempotent "https://docs.google.com/document/d/1a-B_c9/edit")
      as (_ & _ & _ & _ & Hother & _).
    apply Hother. vm_compute. discriminate.
  - destruct (extractors_are_idempotent "1a-B_c9?usp=sharing")
      as (_ & _ & _ & _ & _ & _ & Hplain).
    apply Hplain. reflexivity.
Defined.

Lemma url_and_identifier_are_interchangeable_witness :
  getDocument (VStr ("https://docs.google.com/document/d/" +:+ "1a-B_c9" +:+ "/edit"))
    (Sample.process Sample.signed_in)
  = getDocument (VStr "1a-B_c9") (Sample.process Sample.signed_in)
  /\ getSheetData (VStr ("https://docs.google.com/spreadsheets/d/" +:+ "1a-B_c9" +:+ "/edit"))
       (VStr "A1:B2") (Sample.process Sample.signed_in)
     = getSheetData (VStr "1a-B_c9") (VStr "A1:B2") (Sample.process Sample.signed_in).
Proof.
  destruct (url_and_identifier_are_interchangeable "1a-B_c9" "/edit"
              (Sample.process Sample.signed_in)) as (Hdoc & _ & Hdata);
    [split; [reflexivity|discriminate]|reflexivity|].
  split; [exact Hdoc|apply Hdata].
Defined.

Lemma callback_without_exchange_witness :
  callback Consent.refused (Sample.session_with (VObj []), Sample.fresh)
  = (Ok (Exit 1), (Sample.session_with (VObj []), Sample.fresh)).
Proof.
  destruct (callback_without_exchange Consent.refused (Sample.session_with (VObj []))
              Sample.fresh) as (_ & _ & Herror & _).
  apply (Herror "a"%char "ccess_denied"); reflexivity.
Defined.

Lemma runAuthFlow_outcomes_witness :
  fst (runAuthFlow Sample.signed_in) = Ok (FlowExit 0)
  /\ snd (runAuthFlow Sample.signed_in) = Sample.signed_in.
Proof.
  destruct (runAuthFlow_outcomes Sample.signed_in) as (Hreads & _ & _ & [_ Hdone] & _).
  split; [|exact Hreads]. apply Hdone. vm_compute. reflexivity.
Defined.

End FurtherRuns.

Section ConsentRuns.
Import Text Js Monad Runtime OAuth Tools Server Stored Ids Shape Cli AuthFlow Wire.

#[local] Existing Instance MiniJson.runtime.
#[local] Existing Instance Consent.remote.

Lemma exchange_then_server_start_witness :
  exists w',
    exchangeCodeForTokens "4/0AX4" (Sample.session_with (VObj []), Sample.fresh)
    = (Ok Sample.granted,
       (with_credentials (Sample.session_with (VObj [])) (tokens_to_value Sample.granted), w'))
    /\ files w'
       = <[credentialsPath (Sample.session_with (VObj []))
           := Sample.render (tokens_to_value Sample.granted)]> (files Sample.fresh)
    /\ fst (isAuthenticated
              (with_credentials (Sample.session_with (VObj []))
                 (tokens_to_value Sample.granted), w'))
       = Ok (has_refresh_token Sample.granted)
    /\ fst (checkAuth {| world := w'; oauthInstance := None |})
       = Ok (has_refresh_token Sample.granted).
Proof.
  apply (exchange_then_server_start None Sample.fresh (Sample.session_with (VObj []))
           (Sample.session_with (VObj [])) "4/0AX4"
           (Sample.render (tokens_to_value Sample.granted)) Sample.granted);
    try (vm_compute; reflexivity).
  - vm_compute. split; reflexivity.
  - writable_on_empty_disk.
Defined.

Lemma refresh_success_is_persisted_witness :
  exists w' renewed text,
    refreshAccessToken (Consent.holding, Sample.fresh)
    = (Ok tt, (with_credentials Consent.holding renewed, w'))
    /\ get renewed "refresh_token" = get (credentials Consent.holding) "refresh_token"
    /\ get renewed "access_token" = opt_str (access_token Sample.access_only)
    /\ JSON_stringify renewed = Some text
    /\ files w' = <[credentialsPath Consent.holding := text]> (files Sample.fresh)
    /\ trace w'
       = trace Sample.fresh
         ++ [EvRemote "oauth2/token"; EvWrite (credentialsPath Consent.holding)]
    /\ fst (isAuthenticated (with_credentials Consent.holding renewed, w')) = Ok true.
Proof.
  apply (refresh_success_is_persisted Consent.holding Sample.fresh Sample.access_only).
  - vm_compute. reflexivity.
  - reflexivity.
  - intros fields. eexists. reflexivity.
  - writable_on_empty_disk.
Defined.

Lemma listings_return_the_drive_answer_witness :
  fst (listDocuments VUndef (VStr "it's") (Sample.process Sample.signed_in))
  = Ok (map to_document_info [Consent.budget])
  /\ In (EvRemote "drive.files.list")
        (trace (world (snd (listDocuments VUndef (VStr "it's")
                              (Sample.process Sample.signed_in))))).
Proof.
  assert (authenticated (Sample.process Sample.signed_in)) as Hauth
    by (apply checkAuth_iff; vm_compute; reflexivity).
  destruct (listings_return_the_drive_answer VUndef (VStr "it's")
              (Sample.process Sample.signed_in) Hauth) as (Hdocs & _).
  exact (Hdocs (DOCS_MIME_QUERY +:+ " and fullText contains '"
                +:+ escape_quotes "it's" +:+ "'") eq_refl).
Defined.

Lemma results_are_normalised_witness :
  dc_title Consent.fetched_document <> EmptyString
  /\ space_width (dc_body Consent.fetched_document) = 0%nat
  /\ (forall before sp,
        space_char sp -> dc_body Consent.fetched_document <> before +:+ sp)
  /\ trim (dc_body Consent.fetched_document) = dc_body Consent.fetched_document.
Proof.
  destruct (results_are_normalised (Sample.process Sample.signed_in) (snd Consent.fetched))
    as (_ & Hdoc & _).
  apply (Hdoc (VStr "1a-B_c9") Consent.fetched_document).
  vm_compute. reflexivity.
Defined.

Lemma callback_exchange_witness :
  (exists w',
      callback Consent.redirect (Sample.session_with (VObj []), Sample.fresh)
      = (Ok (Reply 200 SuccessPage (Some 0)),
         (with_credentials (Sample.session_with (VObj [])) (tokens_to_value Sample.granted),
          w'))
      /\ files w'
         = <[credentialsPath (Sample.session_with (VObj []))
             := Sample.render (tokens_to_value Sample.granted)]> (files Sample.fresh)
      /\ trace w'
         = trace Sample.fresh
           ++ [EvRemote "oauth2/token";
               EvWrite (credentialsPath (Sample.session_with (VObj [])))])
  /\ fst (callback Consent.redirect (Sample.session_with (VObj []), Consent.blocked))
     = Ok (Exit 1).
Proof.
  split.
  - destruct (callback_exchange Consent.redirect (Sample.session_with (VObj []))
                Sample.fresh "4"%char "/0AX4") as (_ & Hgrant & _);
      [reflexivity|left; reflexivity|reflexivity|].
    apply (Hgrant Sample.granted (Sample.render (tokens_to_value Sample.granted)));
      [reflexivity|vm_compute; reflexivity|writable_on_empty_disk].
  - destruct (callback_exchange Consent.redirect (Sample.session_with (VObj []))
                Consent.blocked "4"%char "/0AX4") as (_ & _ & _ & Hblocked);
      [reflexivity|left; reflexivity|reflexivity|].
    apply (Hblocked Sample.granted); [reflexivity| |].
    + apply (bool_decide_unpack _). vm_compute. exact I.
    + apply (bool_decide_unpack _). vm_compute. exact I.
Defined.

End ConsentRuns.

Section PagingRuns.
Import Text Js Monad Runtime OAuth Tools Server Stored Ids Shape Cli AuthFlow Wire.

#[local] Existing Instance MiniJson.runtime.
#[local] Existing Instance Consent.paging.

Lemma bindings_agree_witness :
  (exists out p',
      stdio_call (ListDocuments 5 (Some "budget")) (Sample.process Sample.signed_in)
      = (Ok out, p')
      /\ handleJsonRpc
           (tools_call "list_documents"
              (VObj [("limit", VNum 5); ("query", VStr "budget")]) (VNum 6))
           (Sample.process Sample.signed_in)
         = (Ok (respond (RpcResult (ToolOutput out)) (VNum 6)), p'))
  /\ fst (stdio_call (ListDocuments 0 None) (Sample.process Sample.signed_in))
     = Ok (error_payload
             (Exn RemoteError "Invalid value '0'. Values must be within the range: [1, 1000]"))
  /\ fst (handleJsonRpc (tools_call "list_documents" (VObj [("limit", VNum 0)]) (VNum 7))
            (Sample.process Sample.signed_in))
     = Ok (respond (RpcResult (ToolOutput
             (render_files "No documents found." "document"
                (map to_document_info [Consent.budget])))) (VNum 7)).
Proof.
  destruct (bindings_agree (ListDocuments 5 (Some "budget")) (VNum 6)
              (Sample.process Sample.signed_in)) as (Hsame & _).
  destruct (bindings_agree (ListDocuments 0 None) (VNum 7)
              (Sample.process Sample.signed_in)) as (_ & _ & Hzero & _).
  destruct (Hzero None DOCS_MIME_QUERY) as [Hstdio Hhttp];
    [vm_compute; reflexivity|reflexivity|].
  split; [|split].
  - apply Hsame. simpl. discriminate.
  - exact Hstdio.
  - exact Hhttp.
Defined.

End PagingRuns.
